(** * The task-execution control loop of the data interpreter

    A shallow embedding of [metagpt/roles/di/data_interpreter.py]: the
    [DataInterpreter] role, its generate/execute/retry loop, the data-state
    check that precedes it, the image logging helper and the two entry
    points of the agent loop ([_think] for the reactive strategy,
    [_plan_and_act] for the planned one).

    The role is a coroutine that talks to collaborators it does not own:
    the language model, the notebook kernel, the planner, the human
    reviewer, the logging sink and the file system.  They are gathered in
    one record [Env]; every call to one of them is answered by the
    environment and written to a trace.  Python state that the role owns
    (the two memories, the current [todo], the plan pointer) lives in
    [World], which is threaded through a state-and-exception monad: an
    exception keeps the state reached when it was raised, as in Python.
    What goes to the console ([print], [logger.info]) is left out.

    The [while] loop of [_write_and_exec_code] has no bound of its own (the
    human reviewer can reset the counter for ever): its model takes fuel,
    one unit per turn, and a run that needs more ends in [OutOfFuel]. *)

From Stdlib Require Import List ZArith NArith Bool String Ascii Lia.
From Stdlib Require PrimFloat.
Import ListNotations.

Set Implicit Arguments.
Set Warnings "-register-all".

(** ** Python strings *)

(** A [str] is a sequence of Unicode code points. *)
Definition char := N.
Definition str := list char.

(** The code points of an ASCII literal. *)
Definition py (s : string) : str := map N_of_ascii (list_ascii_of_string s).

Definition nl : str := [10%N].

Module Str.

Fixpoint eqb (a b : str) : bool :=
  match a, b with
  | [], [] => true
  | x :: a', y :: b' => N.eqb x y && eqb a' b'
  | _, _ => false
  end.

(** [str.isspace] on one code point: the table of [_PyUnicode_IsWhitespace]. *)
Definition isspace (c : char) : bool :=
  ((9 <=? c) && (c <=? 13) || (28 <=? c) && (c <=? 32)
   || (c =? 133) || (c =? 160) || (c =? 5760)
   || (8192 <=? c) && (c <=? 8202)
   || (c =? 8232) || (c =? 8233) || (c =? 8239) || (c =? 8287)
   || (c =? 12288))%N.

Fixpoint lstrip (s : str) : str :=
  match s with
  | [] => []
  | c :: s' => if isspace c then lstrip s' else s
  end.

Definition rstrip (s : str) : str := rev (lstrip (rev s)).

(** [s.strip()] *)
Definition strip (s : str) : str := rstrip (lstrip s).

Fixpoint startswith (p s : str) : bool :=
  match p, s with
  | [], _ => true
  | _ :: _, [] => false
  | x :: p', y :: s' => N.eqb x y && startswith p' s'
  end.

(** [sub in s] *)
Fixpoint contains (sub s : str) : bool :=
  startswith sub s
  || match s with
     | [] => false
     | _ :: s' => contains sub s'
     end.

(** Empty, or made of white space only. *)
Definition blank (s : str) : bool := forallb isspace s.

End Str.

(** ** Exceptions *)

(** The exceptions the interpreter raises inside this module, and the ones
    that come from outside.  [except Exception] selects by class: the flag
    of [External] tells whether the class derives from [Exception]
    ([KeyboardInterrupt], [SystemExit] and [asyncio.CancelledError] derive
    from [BaseException] only). *)
Inductive PyExc : Type :=
| IndexError
| AttributeError
| UnboundLocalError
| ValidationError
| KeyError
| External (derives_from_Exception : bool) (name : string).

Definition is_Exception (e : PyExc) : bool :=
  match e with
  | External b _ => b
  | _ => true
  end.

(** What a collaborator answers to one call. *)
Inductive Resp (A : Type) : Type :=
| Returns (a : A)
| Raises (e : PyExc).
Arguments Raises {A} e.

(** The call came back, or failed with an [Exception]. *)
Definition benign {A} (r : Resp A) : bool :=
  match r with
  | Returns _ => true
  | Raises e => is_Exception e
  end.

(** ** Data model *)

Inductive MsgRole : Type := user | assistant.

(** The actions a message can be caused by. *)
Inductive Action : Type := WriteAnalysisCode | ExecuteNbCode | CheckData.

Record Message : Type := mkMessage {
  content : str;
  role : MsgRole;
  cause_by : option Action
}.

Record Task : Type := mkTask {
  instruction : str;
  task_type : str;
  is_finished : bool
}.

Record Plan : Type := mkPlan {
  tasks : list Task;
  current_task : option Task
}.

(** Modelled from the spec: [Plan.get_finished_tasks] is declared outside
    this module; a task carries a completion flag and the accessor returns
    the finished ones, in plan order. *)
Definition get_finished_tasks (p : Plan) : list Task :=
  filter is_finished (tasks p).

(** The keyword arguments of [WriteAnalysisCode.run]. *)
Record WriteReq : Type := mkWriteReq {
  req_user_requirement : str;
  req_plan_status : str;
  req_tool_info : str;
  req_working_memory : list Message;
  req_use_reflection : bool;
  req_user_id : str
}.

(** What [json.loads] gives: [bool], [str], [int], [None], [float] (a
    binary64 number, as in Python), [list] and [dict]. *)
Inductive JVal : Type :=
| JBool (b : bool)
| JStr (s : str)
| JNum (z : Z)
| JNull
| JFloat (f : PrimFloat.float)
| JArr (items : list JVal)
| JObj (members : list (str * JVal)).

(** [bool(v)]: [False], [None], zero (of either sign) and the empty
    string, list and dict are false; a NaN is true. *)
Definition truthy (v : JVal) : bool :=
  match v with
  | JBool b => b
  | JStr s => negb (Str.eqb s [])
  | JNum z => negb (Z.eqb z 0)
  | JNull => false
  | JFloat f => negb (PrimFloat.eqb f PrimFloat.zero)
  | JArr items => match items with [] => false | _ :: _ => true end
  | JObj members => match members with [] => false | _ :: _ => true end
  end.

(** The fields of [DataInterpreter] the control loop reads. *)
Record DataInterpreter : Type := mkDataInterpreter {
  auto_run : bool;
  use_plan : bool;
  use_reflection : bool;
  tool_recommender : bool;  (* a recommender is set (truthy) *)
  max_react_loop : Z
}.

(** ** Collaborators and their trace *)

Inductive Kind : Type :=
| KTodoRun | KExecute | KTerminate | KLog | KReview | KCheckData
| KPlanStatus | KToolInfo | KAask | KExists | KRead.

Inductive Event : Type :=
| EvTodoRun (a : Action) (req : WriteReq) (r : Resp str)
| EvExecute (code : str) (r : Resp (str * bool))
| EvTerminate (r : Resp unit)
| EvLog (text user_id : str) (r : Resp unit)
| EvReview (auto : bool) (trigger : str) (r : Resp (str * bool))
| EvCheckData (p : Plan) (r : Resp str)
| EvPlanStatus (r : Resp str)
| EvToolInfo (context : str) (p : option Plan) (r : Resp str)
| EvAask (prompt : str) (r : Resp str)
| EvExists (path : str) (r : Resp bool)
| EvRead (path : str) (r : Resp str).

Definition kind_of (ev : Event) : Kind :=
  match ev with
  | EvTodoRun _ _ _ => KTodoRun
  | EvExecute _ _ => KExecute
  | EvTerminate _ => KTerminate
  | EvLog _ _ _ => KLog
  | EvReview _ _ _ => KReview
  | EvCheckData _ _ => KCheckData
  | EvPlanStatus _ => KPlanStatus
  | EvToolInfo _ _ _ => KToolInfo
  | EvAask _ _ => KAask
  | EvExists _ _ => KExists
  | EvRead _ _ => KRead
  end.

Definition kind_eqb (a b : Kind) : bool :=
  match a, b with
  | KTodoRun, KTodoRun | KExecute, KExecute | KTerminate, KTerminate
  | KLog, KLog | KReview, KReview | KCheckData, KCheckData
  | KPlanStatus, KPlanStatus | KToolInfo, KToolInfo | KAask, KAask
  | KExists, KExists | KRead, KRead => true
  | _, _ => false
  end.

(** A trace lists the calls made so far, the most recent first. *)
Definition Trace := list Event.

(** How many calls of kind [k] the trace holds. *)
Fixpoint calls (k : Kind) (tr : Trace) : nat :=
  match tr with
  | [] => 0
  | ev :: tr' => (if kind_eqb (kind_of ev) k then 1 else 0) + calls k tr'
  end.

(** The collaborators.  A function that takes a [nat] is asked for the
    answer to its n-th call (counting from 0, per function) with the given
    arguments; the others are constants and pure library functions.

    - [CHANGE_WORDS], [CODE_REVIEW_TRIGGER]: [ReviewConst], in
      [metagpt/actions/di/ask_review.py];
    - [DATA_PREPROCESS_type_name]: [TaskType.DATA_PREPROCESS.type_name];
    - [DATA_INFO] is in [metagpt/prompts/di/write_analysis_code.py] and is
      defined below;
    - [re_findall_images result] is
      [re.findall(r"Image saved to: (.+\.png)", result)];
    - [path_str p] is [str(Path(p))];
    - [read_b64 p] opens [p], reads it and encodes it in base 64;
    - [set_state_todo s] is the action [Role._set_state(s)] stores in
      [rc.todo]. *)
Record Env : Type := mkEnv {
  CHANGE_WORDS : list str;
  CODE_REVIEW_TRIGGER : str;
  DATA_PREPROCESS_type_name : str;
  re_findall_images : str -> list str;
  path_str : str -> str;
  exc_str : PyExc -> str;
  set_state_todo : Z -> option Action;
  REACT_THINK_PROMPT_format : str -> list Message -> str;
  parse_code : str -> Resp str;
  json_loads : str -> Resp (list (str * JVal));
  todo_run : nat -> Action -> WriteReq -> Resp str;
  execute_code_run : nat -> str -> Resp (str * bool);
  execute_code_terminate : nat -> Resp unit;
  log_sink : nat -> str -> str -> Resp unit;
  planner_ask_review : nat -> bool -> str -> Resp (str * bool);
  CheckData_run : nat -> Plan -> Resp str;
  planner_get_plan_status : nat -> Resp str;
  get_recommended_tool_info : nat -> str -> option Plan -> Resp str;
  llm_aask : nat -> str -> Resp str;
  path_exists : nat -> str -> Resp bool;
  read_b64 : nat -> str -> Resp str
}.

(** ** The state of a run *)

Record World : Type := mkWorld {
  memory : list Message;          (* self.rc.memory, read by get_memories() *)
  working_memory : list Message;  (* self.rc.working_memory *)
  todo : option Action;           (* self.rc.todo *)
  state : Z;                      (* self.rc.state *)
  plan : Plan;                    (* self.planner.plan *)
  trace : Trace
}.

(** [w] after the calls [evs] (most recent first). *)
Definition with_events (evs : Trace) (w : World) : World :=
  mkWorld (memory w) (working_memory w) (todo w) (state w) (plan w)
          (evs ++ trace w).

Definition emit (ev : Event) (w : World) : World := with_events [ev] w.

(** [w] after [m] was appended to the working memory. *)
Definition push (m : Message) (w : World) : World :=
  mkWorld (memory w) (working_memory w ++ [m]) (todo w) (state w) (plan w)
          (trace w).

(** [w] after the messages [ms] were appended, in this order. *)
Definition pushes (ms : list Message) (w : World) : World :=
  mkWorld (memory w) (working_memory w ++ ms) (todo w) (state w) (plan w)
          (trace w).

(** ** The monad of the coroutines *)

Inductive Res (A : Type) : Type :=
| Ok (a : A)
| Exc (e : PyExc)
| OutOfFuel.
Arguments Exc {A} e.
Arguments OutOfFuel {A}.

Definition M (A : Type) : Type := World -> Res A * World.

Definition ret {A} (a : A) : M A := fun w => (Ok a, w).

Definition raise {A} (e : PyExc) : M A := fun w => (Exc e, w).

Definition bind {A B} (c : M A) (k : A -> M B) : M B :=
  fun w =>
    match c w with
    | (Ok a, w') => k a w'
    | (Exc e, w') => (Exc e, w')
    | (OutOfFuel, w') => (OutOfFuel, w')
    end.

Declare Scope py_scope.
Delimit Scope py_scope with py.
Notation "x <- c ;; k" := (bind c (fun x => k))
  (at level 61, c at next level, right associativity) : py_scope.
Notation "' pat <- c ;; k" := (bind c (fun x => match x with pat => k end))
  (at level 61, pat pattern, c at next level, right associativity) : py_scope.
Notation "c ;; k" := (bind c (fun _ => k))
  (at level 61, right associativity) : py_scope.
Local Open Scope py_scope.

(** [try: body / except Exception as e: handler e] *)
Definition try_except {A} (body : M A) (handler : PyExc -> M A) : M A :=
  fun w =>
    match body w with
    | (Exc e, w') => if is_Exception e then handler e w' else (Exc e, w')
    | r => r
    end.

Definition get {A} (f : World -> A) : M A := fun w => (Ok (f w), w).

(** One call to a collaborator: the environment answers, the answer is
    written to the trace and returned or raised. *)
Definition call {A} (k : Kind) (oracle : nat -> Resp A)
           (ev : Resp A -> Event) : M A :=
  fun w =>
    let r := oracle (calls k (trace w)) in
    (match r with
     | Returns a => Ok a
     | Raises e => Exc e
     end, emit (ev r) w).

(** [for x in xs: body x] *)
Fixpoint for_each {A} (xs : list A) (body : A -> M unit) : M unit :=
  match xs with
  | [] => ret tt
  | x :: xs' => body x ;; for_each xs' body
  end.

(** ** The role *)

Section Role.

Variable E : Env.
Variable self : DataInterpreter.

(** *** Memories and role context *)

(** Modelled from the spec: the memory class is declared outside this
    module; [add] appends, [get] returns the whole ordered sequence. *)
Definition working_memory_add (m : Message) : M unit :=
  fun w => (Ok tt, push m w).

Definition working_memory_get : M (list Message) := get working_memory.

Definition get_memories : M (list Message) := get memory.

(** [Role._set_state] *)
Definition _set_state (s : Z) : M unit :=
  fun w =>
    (Ok tt, mkWorld (memory w) (working_memory w) (set_state_todo E s) s
                    (plan w) (trace w)).

(** [xs[0]] and [xs[-1]] *)
Definition first_item {A} (xs : list A) : M A :=
  match xs with
  | [] => raise IndexError
  | x :: _ => ret x
  end.

Definition last_item {A} (xs : list A) : M A :=
  match rev xs with
  | [] => raise IndexError
  | x :: _ => ret x
  end.

(** [d[key]] *)
Fixpoint getitem (d : list (str * JVal)) (key : str) : M JVal :=
  match d with
  | [] => raise KeyError
  | (k, v) :: d' => if Str.eqb k key then ret v else getitem d' key
  end.

Definition lift {A} (r : Resp A) : M A :=
  match r with
  | Returns a => ret a
  | Raises e => raise e
  end.

(** [Message(content=v, role=r)]: the field [content] is a [str]. *)
Definition new_message (v : JVal) (r : MsgRole) : M Message :=
  match v with
  | JStr s => ret (mkMessage s r None)
  | _ => raise ValidationError
  end.

(** *** Calls to the collaborators *)

Definition log_execution (text user_id : str) : M unit :=
  call KLog (fun n => log_sink E n text user_id) (EvLog text user_id).

Definition execute_run (code : str) : M (str * bool) :=
  call KExecute (fun n => execute_code_run E n code) (EvExecute code).

Definition execute_terminate : M unit :=
  call KTerminate (execute_code_terminate E) EvTerminate.

Definition ask_review (auto : bool) (trigger : str) : M (str * bool) :=
  call KReview (fun n => planner_ask_review E n auto trigger)
       (EvReview auto trigger).

Definition run_todo (a : Action) (req : WriteReq) : M str :=
  call KTodoRun (fun n => todo_run E n a req) (EvTodoRun a req).

Definition run_CheckData (p : Plan) : M str :=
  call KCheckData (fun n => CheckData_run E n p) (EvCheckData p).

Definition get_plan_status : M str :=
  call KPlanStatus (planner_get_plan_status E) EvPlanStatus.

Definition recommended_tool_info (context : str) (p : option Plan) : M str :=
  call KToolInfo (fun n => get_recommended_tool_info E n context p)
       (EvToolInfo context p).

Definition aask (prompt : str) : M str :=
  call KAask (fun n => llm_aask E n prompt) (EvAask prompt).

Definition exists_ (path : str) : M bool :=
  call KExists (fun n => path_exists E n path) (EvExists path).

Definition read_image (path : str) : M str :=
  call KRead (fun n => read_b64 E n path) (EvRead path).

(** *** [_think] *)

Definition _think : M JVal :=
  mem <- get_memories ;;
  m0 <- first_item mem ;;
  let user_requirement := content m0 in
  context <- working_memory_get ;;
  match context with
  | [] =>
      mem' <- get_memories ;;
      m <- first_item mem' ;;
      working_memory_add m ;;
      _set_state 0 ;;
      ret (JBool true)
  | _ :: _ =>
      let prompt := REACT_THINK_PROMPT_format E user_requirement context in
      rsp <- aask prompt ;;
      text <- lift (parse_code E rsp) ;;
      rsp_dict <- lift (json_loads E text) ;;
      thoughts <- getitem rsp_dict (py "thoughts") ;;
      msg <- new_message thoughts assistant ;;
      working_memory_add msg ;;
      need_action <- getitem rsp_dict (py "state") ;;
      (if truthy need_action then _set_state 0 else _set_state (-1)) ;;
      ret need_action
  end.

(** *** [_write_code] *)

Definition _write_code (counter : Z) (plan_status tool_info user_id : str)
  : M (str * Action) :=
  t <- get todo ;;
  match t with
  | None => raise AttributeError       (* todo.name *)
  | Some todo =>
      let use_reflection := (0 <? counter)%Z && use_reflection self in
      mem <- get_memories ;;
      m <- last_item mem ;;
      let user_requirement := content m in
      wm <- working_memory_get ;;
      code <- run_todo todo
                (mkWriteReq user_requirement plan_status tool_info wm
                            use_reflection user_id) ;;
      ret (code, todo)
  end.

(** *** [_check_data] *)

(** [DATA_INFO.format(info=result)] *)
Definition DATA_INFO_format (info : str) : str :=
  nl ++ py "# Latest Data Info" ++ nl
     ++ py "Latest data info after previous tasks:" ++ nl
     ++ info ++ nl.

(** The guard of [_check_data], with the short-circuit order of [or]:
    [current_task] is only dereferenced when the two first tests pass. *)
Definition check_data_skipped (p : Plan) : M bool :=
  if negb (use_plan self) then ret true
  else
    match get_finished_tasks p with
    | [] => ret true
    | _ :: _ =>
        match current_task p with
        | None => raise AttributeError     (* current_task.task_type *)
        | Some t =>
            ret (negb (existsb (Str.eqb (task_type t))
                               [DATA_PREPROCESS_type_name E]))
        end
    end.

Definition _check_data : M unit :=
  p <- get plan ;;
  skip <- check_data_skipped p ;;
  if skip then ret tt
  else
    code <- run_CheckData p ;;
    match Str.strip code with
    | [] => ret tt
    | _ :: _ =>
        '(result, success) <- execute_run code ;;
        if (success : bool) then
          let data_info := DATA_INFO_format result in
          working_memory_add (mkMessage data_info user (Some CheckData))
        else ret tt
    end.

(** *** [extract_and_log_images] *)

(** The body of [try], for one match. *)
Definition image_body (image_path user_id : str) : M unit :=
  there <- exists_ image_path ;;
  if (there : bool) then
    image_data <- read_image image_path ;;
    log_execution (py "<img src='data:image/png;base64," ++ image_data
                      ++ py "'>" ++ nl) user_id ;;
    log_execution nl user_id ;;
    log_execution (py "---" ++ nl) user_id
  else
    log_execution (py "Image file not found: " ++ image_path) user_id.

(** The handler of [except Exception as e]. *)
Definition image_handler (image_path user_id : str) (e : PyExc) : M unit :=
  log_execution (py "Error processing image " ++ image_path ++ py ": "
                    ++ exc_str E e) user_id.

Definition extract_and_log_images (result user_id : str) : M unit :=
  let matches := re_findall_images E result in
  for_each matches
    (fun image_path =>
       let image_path := path_str E image_path in
       try_except (image_body image_path user_id)
                  (image_handler image_path user_id)).

(** *** [_write_and_exec_code] *)

(** The local variables of the loop; [code] and [result] are unbound
    until the first attempt assigns them. *)
Record Locals : Type := mkLocals {
  counter : Z;
  success : bool;
  code : option str;
  result : option str
}.

Definition fence : str := py "```".

(** [ReviewConst.CHANGE_WORDS[0] in review] *)
Definition asks_for_change (review : str) : M bool :=
  w0 <- first_item (CHANGE_WORDS E) ;;
  ret (Str.contains w0 review).

(** Lines 128-147: write the code, execute it, record both. *)
Definition attempt (counter : Z) (plan_status tool_info user_id : str)
  : M (str * str * bool) :=
  (* write code *)
  '(code, cause_by) <- _write_code counter plan_status tool_info user_id ;;
  log_execution (py "### Code to be executed" ++ nl) user_id ;;
  log_execution (fence ++ py "python" ++ nl ++ code ++ nl ++ fence ++ nl)
                user_id ;;
  working_memory_add (mkMessage code assistant (Some cause_by)) ;;
  (* execute code *)
  '(result, success) <- execute_run code ;;
  (if (success : bool) then
     log_execution (py "### " ++ [9989%N] ++ py "Execution result" ++ nl)
                   user_id ;;
     log_execution (fence ++ nl ++ result ++ nl ++ fence ++ nl) user_id ;;
     extract_and_log_images result user_id
   else
     log_execution (py "### " ++ [10060%N] ++ py "Execution result" ++ nl)
                   user_id ;;
     log_execution (fence ++ nl ++ result ++ nl ++ fence ++ nl) user_id) ;;
  working_memory_add (mkMessage result user (Some ExecuteNbCode)) ;;
  ret (code, result, success).

(** Lines 152-156, after [counter += 1]: the value of [counter] the next
    test of the loop sees. *)
Definition review_step (max_retry counter : Z) (success : bool) : M Z :=
  if negb success && (max_retry <=? counter)%Z then
    '(review, _) <- ask_review false (CODE_REVIEW_TRIGGER E) ;;
    change <- asks_for_change review ;;
    if (change : bool) then ret 0%Z else ret counter
  else ret counter.

(** One turn of the [while] loop (lines 128-156). *)
Definition loop_body (max_retry : Z) (plan_status tool_info user_id : str)
           (l : Locals) : M Locals :=
  '(code, result, success) <- attempt (counter l) plan_status tool_info
                                      user_id ;;
  counter <- review_step max_retry (counter l + 1) success ;;
  ret (mkLocals counter success (Some code) (Some result)).

(** [while not success and counter < max_retry]; each turn takes one
    unit of fuel. *)
Fixpoint while_loop (fuel : nat) (max_retry : Z)
         (plan_status tool_info user_id : str) (l : Locals) : M Locals :=
  if negb (success l) && (counter l <? max_retry)%Z then
    match fuel with
    | O => fun w => (OutOfFuel, w)
    | S fuel' =>
        l' <- loop_body max_retry plan_status tool_info user_id l ;;
        while_loop fuel' max_retry plan_status tool_info user_id l'
    end
  else ret l.

(** Lines 111-125: plan status, tool information, data check. *)
Definition prelude : M (str * str) :=
  plan_status <- (if use_plan self then get_plan_status else ret []) ;;
  tool_info <-
    (if tool_recommender self then
       wm <- working_memory_get ;;
       context <- (match wm with
                   | [] => ret []
                   | _ :: _ => m <- last_item wm ;; ret (content m)
                   end) ;;
       p <- get plan ;;
       let plan := if use_plan self then Some p else None in
       recommended_tool_info context plan
     else ret []) ;;
  _check_data ;;
  ret (plan_status, tool_info).

(** [return code, result, success] *)
Definition return_locals (l : Locals) : M (str * str * bool) :=
  match code l, result l with
  | Some c, Some r => ret (c, r, success l)
  | _, _ => raise UnboundLocalError
  end.

Definition _write_and_exec_code (fuel : nat) (max_retry : Z) (user_id : str)
  : M (str * str * bool) :=
  '(plan_status, tool_info) <- prelude ;;
  l <- while_loop fuel max_retry plan_status tool_info user_id
                  (mkLocals 0 false None None) ;;
  return_locals l.

(** *** [_act], [_act_on_task], [_plan_and_act] *)

Record TaskResult : Type := mkTaskResult {
  tr_code : str;
  tr_result : str;
  tr_is_success : bool
}.

Definition _act (fuel : nat) : M Message :=
  '(code, _, _) <- _write_and_exec_code fuel 3 [] ;;
  ret (mkMessage code assistant (Some WriteAnalysisCode)).

Definition _act_on_task (fuel : nat) (current_task : Task) (user_id : str)
  : M TaskResult :=
  '(code, result, is_success) <- _write_and_exec_code fuel 3 user_id ;;
  ret (mkTaskResult code result is_success).

(** [Role._plan_and_act] is declared outside this module: any coroutine. *)
Variable super_plan_and_act : str -> M Message.

Definition _plan_and_act (user_id : str) : M Message :=
  try_except (super_plan_and_act user_id)
             (fun e => execute_terminate ;; raise e).

End Role.

Arguments mkLocals counter success code result : assert.

(** ** Observations on a run *)

(** The calls to the execution backend that returned, most recent first:
    the code submitted, the output and the success flag. *)
Fixpoint executions (tr : Trace) : list (str * str * bool) :=
  match tr with
  | [] => []
  | EvExecute code (Returns (result, success)) :: tr' =>
      (code, result, success) :: executions tr'
  | _ :: tr' => executions tr'
  end.

(** The generator requests of a trace, most recent first. *)
Fixpoint requests (tr : Trace) : list WriteReq :=
  match tr with
  | [] => []
  | EvTodoRun _ req _ :: tr' => req :: requests tr'
  | _ :: tr' => requests tr'
  end.

(** Every event of [evs] has its kind in [ks]. *)
Definition only (ks : list Kind) (evs : Trace) : Prop :=
  Forall (fun ev => existsb (kind_eqb (kind_of ev)) ks = true) evs.

(** The events of [w'] that [w] does not have yet. *)
Definition during (w w' : World) : Trace :=
  firstn (List.length (trace w') - List.length (trace w)) (trace w').

(** [c] never runs out of fuel: it has no loop without a bound. *)
Definition total {A} (c : M A) : Prop := forall w, fst (c w) <> OutOfFuel.

(** [c] leaves the role's state alone and only adds calls of the kinds [ks]
    to the trace. *)
Definition quiet {A} (ks : list Kind) (c : M A) : Prop :=
  forall w, exists evs, snd (c w) = with_events evs w /\ only ks evs.

(** Whatever else [c] does, the calls it adds to the trace are of the
    kinds [ks]. *)
Definition emits {A} (ks : list Kind) (c : M A) : Prop :=
  forall w, exists evs, trace (snd (c w)) = evs ++ trace w /\ only ks evs.

(** [c] returns from every world. *)
Definition returns {A} (c : M A) : Prop := forall w, exists a, fst (c w) = Ok a.

(** [c] returns, or raises an exception that [except Exception] catches. *)
Definition catchable {A} (c : M A) : Prop :=
  forall w,
    match fst (c w) with
    | Ok _ => True
    | Exc e => is_Exception e = true
    | OutOfFuel => False
    end.

(** The environment lets every attempt run to its end: the generator and
    the sink return, and the file system fails with [Exception]s only. *)
Record cooperative (E : Env) : Prop := mkCooperative {
  generator_returns : forall n a req, exists c, todo_run E n a req = Returns c;
  sink_returns : forall n text user_id, log_sink E n text user_id = Returns tt;
  exists_benign : forall n p, benign (path_exists E n p) = true;
  read_benign : forall n p, benign (read_b64 E n p) = true
}.

(** The [n]-th call to the execution backend returns with the flag [s],
    whatever code it is given. *)
Definition execution_flag (E : Env) (n : nat) (s : bool) : Prop :=
  forall code, exists result, execute_code_run E n code = Returns (result, s).

(** The two messages one attempt leaves in the working memory. *)
Definition exchange (cause : option Action) (x : str * str * bool)
  : list Message :=
  let '(code, result, _) := x in
  [mkMessage code assistant cause; mkMessage result user (Some ExecuteNbCode)].

(** The trigger of the data-state check: planning is on, a task is
    finished and the current task preprocesses data. *)
Definition check_triggered (E : Env) (self : DataInterpreter) (p : Plan) : Prop :=
  use_plan self = true
  /\ get_finished_tasks p <> []
  /\ exists t, current_task p = Some t
              /\ task_type t = DATA_PREPROCESS_type_name E.

(** The data-info message built from an inspection result. *)
Definition data_info_message (result : str) : Message :=
  mkMessage (DATA_INFO_format result) user (Some CheckData).

(** The ways [_check_data] can go from [w], with the outcome and the world
    each leaves. *)
Inductive check_data_run (E : Env) (self : DataInterpreter) (w : World)
  : Res unit * World -> Prop :=
| CheckSkipped :
    ~ check_triggered E self (plan w) ->
    check_data_run E self w (Ok tt, w)
| CheckNoCurrentTask :
    ~ check_triggered E self (plan w) ->
    check_data_run E self w (Exc AttributeError, w)
| CheckGenerationRaised e :
    check_triggered E self (plan w) ->
    check_data_run E self w
      (Exc e, with_events [EvCheckData (plan w) (Raises e)] w)
| CheckBlankCode code :
    check_triggered E self (plan w) ->
    Str.strip code = [] ->
    check_data_run E self w
      (Ok tt, with_events [EvCheckData (plan w) (Returns code)] w)
| CheckExecutionRaised code e :
    check_triggered E self (plan w) ->
    Str.strip code <> [] ->
    check_data_run E self w
      (Exc e, with_events [EvExecute code (Raises e);
                           EvCheckData (plan w) (Returns code)] w)
| CheckExecutionFailed code result :
    check_triggered E self (plan w) ->
    Str.strip code <> [] ->
    check_data_run E self w
      (Ok tt, with_events [EvExecute code (Returns (result, false));
                           EvCheckData (plan w) (Returns code)] w)
| CheckExecutionSucceeded code result :
    check_triggered E self (plan w) ->
    Str.strip code <> [] ->
    check_data_run E self w
      (Ok tt, with_events [EvExecute code (Returns (result, true));
                           EvCheckData (plan w) (Returns code)]
                          (push (data_info_message result) w)).

(** The review holds one of the words of [CHANGE_WORDS]. *)
Definition holds_change_word (E : Env) (review : str) : bool :=
  existsb (fun word => Str.contains word review) (CHANGE_WORDS E).

Definition all_kinds : list Kind :=
  [KTodoRun; KExecute; KTerminate; KLog; KReview; KCheckData; KPlanStatus;
   KToolInfo; KAask; KExists; KRead].

(** The reflection flag of the oldest generator request of [evs]. *)
Definition first_request_flag (evs : Trace) : option bool :=
  match rev (requests evs) with
  | [] => None
  | req :: _ => Some (req_use_reflection req)
  end.

(** The sink accepts the reports of the image handler. *)
Definition reports_pass (E : Env) : Prop :=
  forall n text user_id,
    Str.startswith (py "Error processing image ") text = true ->
    log_sink E n text user_id = Returns tt.

(** [d.get(key)]: the value under [key] in a decoded object, if any. *)
Fixpoint dict_get (d : list (str * JVal)) (key : str) : option JVal :=
  match d with
  | [] => None
  | (k, v) :: d' => if Str.eqb k key then Some v else dict_get d' key
  end.

(** [c] adds at most [n] calls of the kind [k] to the trace. *)
Definition bounded {A} (k : Kind) (n : nat) (c : M A) : Prop :=
  forall w, exists evs, trace (snd (c w)) = evs ++ trace w /\ calls k evs <= n.

(** What [extract_and_log_images] does for one match, oldest call first,
    when the sink returns: [present] tells which files are on disk and
    [data] what reading them gives. *)
Definition image_events (E : Env) (present : str -> bool) (data : str -> str)
           (user_id image_path : str) : Trace :=
  let p := path_str E image_path in
  if present p then
    [EvExists p (Returns true);
     EvRead p (Returns (data p));
     EvLog (py "<img src='data:image/png;base64," ++ data p ++ py "'>" ++ nl)
           user_id (Returns tt);
     EvLog nl user_id (Returns tt);
     EvLog (py "---" ++ nl) user_id (Returns tt)]
  else
    [EvExists p (Returns false);
     EvLog (py "Image file not found: " ++ p) user_id (Returns tt)].

(** A sink entry or a generator request made for the user [uid], or a
    call of another kind. *)
Definition addressed_to (uid : str) (ev : Event) : Prop :=
  match ev with
  | EvLog _ u _ => u = uid
  | EvTodoRun _ req _ => req_user_id req = uid
  | _ => True
  end.

(** Every call that [c] adds to the trace satisfies [P]. *)
Definition emits_where {A} (P : Event -> Prop) (c : M A) : Prop :=
  forall w, exists evs, trace (snd (c w)) = evs ++ trace w /\ Forall P evs.

(** The attempts a run of the loop completes, oldest first: the triples
    ([code], [result], [success]) of the turns whose attempt ran to its
    end (lines 128-147), whether or not the review after it returns. *)
Fixpoint completed (E : Env) (self : DataInterpreter) (fuel : nat)
         (max_retry : Z) (plan_status tool_info user_id : str)
         (l : Locals) (w : World) : list (str * str * bool) :=
  if negb (success l) && (counter l <? max_retry)%Z then
    match fuel with
    | O => []
    | S fuel' =>
        match attempt E self (counter l) plan_status tool_info user_id w with
        | (Ok x, _) =>
            x :: match loop_body E self max_retry plan_status tool_info
                                 user_id l w with
                 | (Ok l', w') =>
                     completed E self fuel' max_retry plan_status tool_info
                               user_id l' w'
                 | _ => []
                 end
        | _ => []
        end
    end
  else [].

(** The exception a call ended with, if it raised. *)
Definition failure {A} (r : Resp A) : option PyExc :=
  match r with
  | Returns _ => None
  | Raises e => Some e
  end.

Definition raised (ev : Event) : option PyExc :=
  match ev with
  | EvTodoRun _ _ r => failure r
  | EvExecute _ r => failure r
  | EvTerminate r => failure r
  | EvLog _ _ r => failure r
  | EvReview _ _ r => failure r
  | EvCheckData _ r => failure r
  | EvPlanStatus r => failure r
  | EvToolInfo _ _ r => failure r
  | EvAask _ r => failure r
  | EvExists _ r => failure r
  | EvRead _ r => failure r
  end.

(** Line 182: the report of the image handler, taken by the sink. *)
Definition image_report (E : Env) (image_path user_id : str) (e : PyExc)
  : Event :=
  EvLog (py "Error processing image " ++ image_path ++ py ": " ++ exc_str E e)
        user_id (Returns tt).

(** The calls of [seg], oldest first, all return; or they return up to
    one that raises, and that one is followed by the report of its
    exception, which is the last call of [seg]. *)
Fixpoint failures_reported (E : Env) (image_path user_id : str) (seg : Trace)
  : Prop :=
  match seg with
  | [] => True
  | ev :: rest =>
      match raised ev with
      | None => failures_reported E image_path user_id rest
      | Some e => rest = [image_report E image_path user_id e]
      end
  end.

(** The calls made for one match, oldest first, when the match is handled:
    they start with the test that the file exists, and a failure among them
    is reported. *)
Definition handled (E : Env) (user_id image_path : str) (seg : Trace) : Prop :=
  (exists r rest, seg = EvExists image_path r :: rest)
  /\ failures_reported E image_path user_id seg.

(** ** A concrete environment *)

Module Demo.

(** An environment whose kernel, sink, reviewer and inspection code are
    given; the generator numbers its answers, the other collaborators
    return fixed values. *)
Definition env (kernel : nat -> Resp (str * bool))
           (sink : nat -> str -> Resp unit) (review inspection : str) : Env :=
  mkEnv [py "change"] (py "code") (py "data preprocessing")
        (fun _ => []) (fun p => p) (fun _ => py "error")
        (fun s => if (0 <=? s)%Z then Some WriteAnalysisCode else None)
        (fun u _ => u) (fun s => Returns s) (fun _ => Returns [])
        (fun n _ _ => Returns (py "attempt_" ++ [(48 + N.of_nat n)%N]))
        (fun n _ => kernel n)
        (fun _ => Returns tt)
        (fun n text _ => sink n text)
        (fun _ _ _ => Returns (review, false))
        (fun _ _ => Returns inspection)
        (fun _ => Returns (py "plan status"))
        (fun _ _ _ => Returns [])
        (fun _ _ => Returns [])
        (fun _ _ => Returns false)
        (fun _ _ => Returns []).

(** A kernel that fails [n] times, then succeeds. *)
Definition fails_then_succeeds (n : nat) : nat -> Resp (str * bool) :=
  fun i => if Nat.ltb i n then Returns (py "NameError", false)
           else Returns (py "ok", true).

Definition always_fails : nat -> Resp (str * bool) :=
  fun _ => Returns (py "NameError", false).

Definition quiet_sink : nat -> str -> Resp unit := fun _ _ => Returns tt.

Definition broken_sink : nat -> str -> Resp unit :=
  fun _ _ => Raises (External true "ConnectionError").

(** A sink that takes two entries and is down from then on. *)
Definition late_sink : nat -> str -> Resp unit :=
  fun n _ => if Nat.ltb n 2 then Returns tt
             else Raises (External true "ConnectionError").

(** A sink that only takes the reports of the image handler. *)
Definition picky_sink : nat -> str -> Resp unit :=
  fun _ text =>
    if Str.startswith (py "Error processing image ") text then Returns tt
    else Raises (External true "ConnectionError").

(** [E] with a result that names the images [found], all of them on disk. *)
Definition with_images (E : Env) (found : list str) : Env :=
  mkEnv (CHANGE_WORDS E) (CODE_REVIEW_TRIGGER E) (DATA_PREPROCESS_type_name E)
        (fun _ => found) (path_str E) (exc_str E) (set_state_todo E)
        (REACT_THINK_PROMPT_format E) (parse_code E) (json_loads E)
        (todo_run E) (execute_code_run E) (execute_code_terminate E)
        (log_sink E) (planner_ask_review E) (CheckData_run E)
        (planner_get_plan_status E) (get_recommended_tool_info E) (llm_aask E)
        (fun _ _ => Returns true) (fun _ _ => Returns (py "iVBORw0KGgo=")).

Definition requirement : Message := mkMessage (py "analyse the sales") user None.

Definition load_task : Task := mkTask (py "load the data") (py "eda") true.
Definition clean_task : Task :=
  mkTask (py "clean the data") (py "data preprocessing") false.

(** Nothing is finished yet. *)
Definition first_plan : Plan :=
  mkPlan [mkTask (py "load the data") (py "eda") false]
         (Some (mkTask (py "load the data") (py "eda") false)).

(** One task is finished and the current one preprocesses the data. *)
Definition preprocess_plan : Plan := mkPlan [load_task; clean_task] (Some clean_task).

Definition start (p : Plan) : World :=
  mkWorld [requirement] [] (Some WriteAnalysisCode) 0 p [].

Definition planning : DataInterpreter := mkDataInterpreter true true false false 10.

(** [E] with a model whose answer decodes to the object [d]. *)
Definition with_think (E : Env) (d : list (str * JVal)) : Env :=
  mkEnv (CHANGE_WORDS E) (CODE_REVIEW_TRIGGER E) (DATA_PREPROCESS_type_name E)
        (re_findall_images E) (path_str E) (exc_str E) (set_state_todo E)
        (REACT_THINK_PROMPT_format E) (parse_code E) (fun _ => Returns d)
        (todo_run E) (execute_code_run E) (execute_code_terminate E)
        (log_sink E) (planner_ask_review E) (CheckData_run E)
        (planner_get_plan_status E) (get_recommended_tool_info E) (llm_aask E)
        (path_exists E) (read_b64 E).

(** [E] with a result that names the images [found]; [on_disk] tells which
    of them exist. *)
Definition with_files (E : Env) (found : list str) (on_disk : str -> bool)
  : Env :=
  mkEnv (CHANGE_WORDS E) (CODE_REVIEW_TRIGGER E) (DATA_PREPROCESS_type_name E)
        (fun _ => found) (path_str E) (exc_str E) (set_state_todo E)
        (REACT_THINK_PROMPT_format E) (parse_code E) (json_loads E)
        (todo_run E) (execute_code_run E) (execute_code_terminate E)
        (log_sink E) (planner_ask_review E) (CheckData_run E)
        (planner_get_plan_status E) (get_recommended_tool_info E) (llm_aask E)
        (fun _ p => Returns (on_disk p)) (fun _ _ => Returns (py "iVBORw0KGgo=")).

(** A run that has started: the requirement is in the working memory. *)
Definition started (p : Plan) : World :=
  mkWorld [requirement] [requirement] (Some WriteAnalysisCode) 0 p [].

Definition reacting : DataInterpreter := mkDataInterpreter true false false false 10.

End Demo.

Unset Implicit Arguments.

(** ** Facts on strings *)

Module StrFacts.

Lemma lstrip_nil_iff (s : str) : Str.lstrip s = [] <-> Str.blank s = true.
Proof.
  induction s as [|c s IH]; simpl.
  - tauto.
  - destruct (Str.isspace c) eqn:Hc; simpl.
    + exact IH.
    + split; discriminate.
Qed.

Lemma blank_rev (s : str) : Str.blank (rev s) = Str.blank s.
Proof.
  unfold Str.blank. induction s as [|c s IH]; simpl; [reflexivity|].
  rewrite forallb_app, IH. simpl. rewrite andb_true_r. apply andb_comm.
Qed.

(** What [lstrip] leaves is empty or starts with a visible character. *)
Lemma lstrip_blank (s : str) :
  Str.blank (Str.lstrip s) = true -> Str.lstrip s = [].
Proof.
  induction s as [|c s IH]; simpl; [reflexivity|].
  destruct (Str.isspace c) eqn:Hc; [exact IH|].
  simpl. rewrite Hc. discriminate.
Qed.

(** [not code.strip()] holds exactly for the blank strings. *)
Lemma strip_nil_iff (s : str) : Str.strip s = [] <-> Str.blank s = true.
Proof.
  unfold Str.strip, Str.rstrip. split.
  - intros H.
    assert (Hl : Str.lstrip (rev (Str.lstrip s)) = []).
    { rewrite <- (rev_involutive (Str.lstrip _)), H. reflexivity. }
    apply lstrip_nil_iff in Hl. rewrite blank_rev in Hl.
    apply lstrip_nil_iff, lstrip_blank, Hl.
  - intros H. apply lstrip_nil_iff in H. rewrite H. reflexivity.
Qed.

Lemma eqb_eq (a b : str) : Str.eqb a b = true <-> a = b.
Proof.
  revert b. induction a as [|x a IH]; intros [|y b]; simpl;
    try (split; [discriminate | congruence]); try tauto.
  rewrite andb_true_iff, N.eqb_eq, IH. split.
  - intros [-> ->]. reflexivity.
  - intros H. injection H as -> ->. tauto.
Qed.

End StrFacts.

(** ** Facts on traces *)

Lemma calls_app (k : Kind) (a b : Trace) :
  calls k (a ++ b) = calls k a + calls k b.
Proof. induction a as [|ev a IH]; simpl; [reflexivity|]. rewrite IH. lia. Qed.

Lemma executions_app (a b : Trace) :
  executions (a ++ b) = executions a ++ executions b.
Proof.
  induction a as [|ev a IH]; simpl; [reflexivity|].
  destruct ev as [| ? [[? ?]|] | | | | | | | | |]; simpl; rewrite IH; reflexivity.
Qed.

Lemma requests_app (a b : Trace) :
  requests (a ++ b) = requests a ++ requests b.
Proof.
  induction a as [|ev a IH]; simpl; [reflexivity|].
  destruct ev; simpl; rewrite IH; reflexivity.
Qed.

Lemma only_nil ks : only ks [].
Proof. constructor. Qed.

Lemma only_app ks a b : only ks a -> only ks b -> only ks (a ++ b).
Proof. unfold only. intros. apply Forall_app. split; assumption. Qed.

Lemma only_calls ks k evs :
  only ks evs -> existsb (kind_eqb k) ks = false -> calls k evs = 0.
Proof.
  induction 1 as [|ev evs Hev _ IH]; intros Hk; simpl; [reflexivity|].
  rewrite (IH Hk).
  destruct (kind_eqb (kind_of ev) k) eqn:Heq; [|reflexivity].
  assert (kind_of ev = k) by (destruct (kind_of ev), k; simpl in Heq; congruence).
  subst k. congruence.
Qed.

Lemma only_executions ks evs :
  only ks evs -> existsb (kind_eqb KExecute) ks = false -> executions evs = [].
Proof.
  induction 1 as [|ev evs Hev _ IH]; intros Hk; simpl; [reflexivity|].
  destruct ev; try (apply IH, Hk). simpl in Hev. congruence.
Qed.

Lemma only_requests ks evs :
  only ks evs -> existsb (kind_eqb KTodoRun) ks = false -> requests evs = [].
Proof.
  induction 1 as [|ev evs Hev _ IH]; intros Hk; simpl; [reflexivity|].
  destruct ev; try (apply IH, Hk). simpl in Hev. congruence.
Qed.

Lemma only_mono ks ks' evs :
  (forall k, existsb (kind_eqb k) ks = true -> existsb (kind_eqb k) ks' = true) ->
  only ks evs -> only ks' evs.
Proof. intros Hsub. unfold only. apply Forall_impl. intros ev. apply Hsub. Qed.

Lemma during_with_events evs w w' :
  trace w' = evs ++ trace w -> during w w' = evs.
Proof.
  intros H. unfold during. rewrite H, List.length_app.
  replace (List.length evs + List.length (trace w) - List.length (trace w))
    with (List.length evs) by lia.
  rewrite firstn_app, firstn_all, Nat.sub_diag. simpl. apply app_nil_r.
Qed.

Lemma with_events_nil w : with_events [] w = w.
Proof. destruct w; reflexivity. Qed.

Lemma with_events_app a b w :
  with_events a (with_events b w) = with_events (a ++ b) w.
Proof. unfold with_events; simpl. rewrite app_assoc. reflexivity. Qed.

(** ** Laws of the monad *)

Section Laws.

Context {A B : Type}.

Lemma bind_Ok (c : M A) (k : A -> M B) w a w1 :
  c w = (Ok a, w1) -> bind c k w = k a w1.
Proof. intros H. unfold bind. rewrite H. reflexivity. Qed.

Lemma bind_Exc (c : M A) (k : A -> M B) w e w1 :
  c w = (Exc e, w1) -> bind c k w = (Exc e, w1).
Proof. intros H. unfold bind. rewrite H. reflexivity. Qed.

Lemma bind_Ok_inv (c : M A) (k : A -> M B) w b w' :
  bind c k w = (Ok b, w') ->
  exists a w1, c w = (Ok a, w1) /\ k a w1 = (Ok b, w').
Proof.
  unfold bind. destruct (c w) as [[a| e |] w1]; intros H; try discriminate.
  exists a, w1. split; [reflexivity | exact H].
Qed.

Lemma total_bind (c : M A) (k : A -> M B) :
  total c -> (forall a, total (k a)) -> total (bind c k).
Proof.
  intros Hc Hk w. specialize (Hc w). unfold bind.
  destruct (c w) as [[a| e |] w1]; simpl in *.
  - apply Hk.
  - discriminate.
  - exfalso. apply Hc. reflexivity.
Qed.

Lemma quiet_bind ks (c : M A) (k : A -> M B) :
  quiet ks c -> (forall a, quiet ks (k a)) -> quiet ks (bind c k).
Proof.
  intros Hc Hk w. destruct (Hc w) as (evs & Hw & Hevs). unfold bind.
  destruct (c w) as [[a| e |] w1]; simpl in *; subst w1.
  - destruct (Hk a (with_events evs w)) as (evs' & Hw' & Hevs').
    exists (evs' ++ evs). rewrite Hw', with_events_app.
    split; [reflexivity | apply only_app; assumption].
  - exists evs. split; [reflexivity | assumption].
  - exists evs. split; [reflexivity | assumption].
Qed.

Lemma emits_bind ks (c : M A) (k : A -> M B) :
  emits ks c -> (forall a, emits ks (k a)) -> emits ks (bind c k).
Proof.
  intros Hc Hk w. destruct (Hc w) as (evs & Hw & Hevs). unfold bind.
  destruct (c w) as [[a| e |] w1]; simpl in *.
  - destruct (Hk a w1) as (evs' & Hw' & Hevs').
    exists (evs' ++ evs). rewrite Hw', Hw.
    split; [apply app_assoc | apply only_app; assumption].
  - exists evs. split; assumption.
  - exists evs. split; assumption.
Qed.

(** What follows a step that did not return adds nothing to the trace. *)
Lemma bind_trace ks (c : M A) (k : A -> M B) w :
  (forall a, emits ks (k a)) ->
  exists evs, trace (snd (bind c k w)) = evs ++ trace (snd (c w))
              /\ only ks evs
              /\ ((forall a, fst (c w) <> Ok a) -> evs = []).
Proof.
  intros Hk. unfold bind. destruct (c w) as [[a| e |] w1]; simpl.
  - destruct (Hk a w1) as (evs & Hevs & Honly). exists evs.
    split; [exact Hevs|]. split; [exact Honly|].
    intros H. exfalso. apply (H a). reflexivity.
  - exists []. split; [reflexivity|]. split; [apply only_nil | reflexivity].
  - exists []. split; [reflexivity|]. split; [apply only_nil | reflexivity].
Qed.

End Laws.

Section LeafLaws.

Context {A : Type}.

Lemma total_ret (a : A) : total (ret a).
Proof. intros w. discriminate. Qed.

Lemma total_raise (e : PyExc) : total (raise e : M A).
Proof. intros w. discriminate. Qed.

Lemma total_get (f : World -> A) : total (get f).
Proof. intros w. discriminate. Qed.

Lemma total_call k (oracle : nat -> Resp A) ev : total (call k oracle ev).
Proof. intros w. unfold call. simpl. destruct (oracle _); discriminate. Qed.

Lemma total_try_except (body : M A) handler :
  total body -> (forall e, total (handler e)) -> total (try_except body handler).
Proof.
  intros Hb Hh w. specialize (Hb w). unfold try_except.
  destruct (body w) as [[a| e |] w1]; simpl in *; try assumption.
  destruct (is_Exception e); [apply Hh | discriminate].
Qed.

Lemma quiet_ret ks (a : A) : quiet ks (ret a).
Proof. intros w. exists []. split; [symmetry; apply with_events_nil | apply only_nil]. Qed.

Lemma quiet_raise ks (e : PyExc) : quiet ks (raise e : M A).
Proof. intros w. exists []. split; [symmetry; apply with_events_nil | apply only_nil]. Qed.

Lemma quiet_get ks (f : World -> A) : quiet ks (get f).
Proof. intros w. exists []. split; [symmetry; apply with_events_nil | apply only_nil]. Qed.

Lemma quiet_call ks k (oracle : nat -> Resp A) ev :
  (forall r, existsb (kind_eqb (kind_of (ev r))) ks = true) ->
  quiet ks (call k oracle ev).
Proof.
  intros Hk w. exists [ev (oracle (calls k (trace w)))].
  split; [reflexivity|]. constructor; [apply Hk | constructor].
Qed.

Lemma quiet_try_except ks (body : M A) handler :
  quiet ks body -> (forall e, quiet ks (handler e)) ->
  quiet ks (try_except body handler).
Proof.
  intros Hb Hh w. destruct (Hb w) as (evs & Hw & Hevs). unfold try_except.
  destruct (body w) as [[a| e |] w1]; simpl in *; subst w1;
    try (exists evs; split; [reflexivity | assumption]).
  destruct (is_Exception e).
  - destruct (Hh e (with_events evs w)) as (evs' & Hw' & Hevs').
    exists (evs' ++ evs). rewrite Hw', with_events_app.
    split; [reflexivity | apply only_app; assumption].
  - exists evs. split; [reflexivity | assumption].
Qed.

Lemma quiet_mono ks ks' (c : M A) :
  (forall k, existsb (kind_eqb k) ks = true -> existsb (kind_eqb k) ks' = true) ->
  quiet ks c -> quiet ks' c.
Proof.
  intros Hsub Hc w. destruct (Hc w) as (evs & Hw & Hevs).
  exists evs. split; [exact Hw | exact (only_mono ks ks' evs Hsub Hevs)].
Qed.

Lemma quiet_emits ks (c : M A) : quiet ks c -> emits ks c.
Proof.
  intros Hc w. destruct (Hc w) as (evs & Hw & Hevs). exists evs.
  rewrite Hw. split; [reflexivity | exact Hevs].
Qed.

(** What a quiet step that returned leaves behind. *)
Lemma quiet_Ok ks (c : M A) w a w1 :
  quiet ks c -> c w = (Ok a, w1) ->
  exists evs, w1 = with_events evs w /\ only ks evs.
Proof.
  intros Hc H. destruct (Hc w) as (evs & Hw & Hevs). rewrite H in Hw.
  exists evs. split; assumption.
Qed.

End LeafLaws.

Lemma total_for_each {A} (xs : list A) body :
  (forall x, total (body x)) -> total (for_each xs body).
Proof.
  intros Hb. induction xs as [|x xs IH]; simpl.
  - apply total_ret.
  - apply total_bind; [apply Hb | intros _; exact IH].
Qed.

Lemma quiet_for_each {A} ks (xs : list A) body :
  (forall x, quiet ks (body x)) -> quiet ks (for_each xs body).
Proof.
  intros Hb. induction xs as [|x xs IH]; simpl.
  - apply quiet_ret.
  - apply quiet_bind; [apply Hb | intros _; exact IH].
Qed.

(** ** Frames of the role's coroutines *)

Ltac unfold_leaves :=
  unfold asks_for_change;
  unfold log_execution, execute_run, execute_terminate, ask_review, run_todo,
    run_CheckData, get_plan_status, recommended_tool_info, aask, exists_,
    read_image, working_memory_get, get_memories, first_item, last_item, lift.

Ltac step_match :=
  match goal with
  | |- _ (match ?x with _ => _ end) => destruct x
  | |- _ _ (match ?x with _ => _ end) => destruct x
  end.

Ltac prove_total :=
  unfold_leaves;
  repeat first
    [ apply total_ret | apply total_raise | apply total_get | apply total_call
    | apply total_bind; intros
    | apply total_try_except; intros
    | apply total_for_each; intros
    | step_match ].

Ltac prove_quiet :=
  unfold_leaves;
  repeat first
    [ apply quiet_ret | apply quiet_raise | apply quiet_get
    | apply quiet_call; intros; reflexivity
    | apply quiet_bind; intros
    | apply quiet_try_except; intros
    | apply quiet_for_each; intros
    | step_match ].

Section Frames.

Variable E : Env.
Variable self : DataInterpreter.

Lemma total_log_execution text uid : total (log_execution E text uid).
Proof. prove_total. Qed.

Lemma quiet_log_execution text uid : quiet [KLog] (log_execution E text uid).
Proof. prove_quiet. Qed.

Lemma total_write_code c ps ti uid : total (_write_code E self c ps ti uid).
Proof. unfold _write_code. prove_total. Qed.

Lemma quiet_write_code c ps ti uid :
  quiet [KTodoRun] (_write_code E self c ps ti uid).
Proof. unfold _write_code. prove_quiet. Qed.

Lemma total_extract_and_log_images result uid :
  total (extract_and_log_images E result uid).
Proof.
  unfold extract_and_log_images, image_body, image_handler. prove_total.
Qed.

Lemma quiet_extract_and_log_images result uid :
  quiet [KLog; KExists; KRead] (extract_and_log_images E result uid).
Proof.
  unfold extract_and_log_images, image_body, image_handler. prove_quiet.
Qed.

Lemma total_review_step mr c s : total (review_step E mr c s).
Proof. unfold review_step. prove_total. Qed.

Lemma quiet_review_step mr c s : quiet [KReview] (review_step E mr c s).
Proof. unfold review_step. prove_quiet. Qed.

End Frames.

(** ** The data-state check *)

Section CheckData.

Variable E : Env.
Variable self : DataInterpreter.

Lemma check_data_skipped_cases (p : Plan) (w : World) :
  (check_data_skipped E self p w = (Ok false, w) /\ check_triggered E self p)
  \/ (~ check_triggered E self p
      /\ (check_data_skipped E self p w = (Ok true, w)
          \/ check_data_skipped E self p w = (Exc AttributeError, w))).
Proof.
  unfold check_data_skipped, check_triggered.
  destruct (use_plan self) eqn:Hplan; simpl.
  2:{ right. split; [intros (H & _); discriminate|]. left. reflexivity. }
  destruct (get_finished_tasks p) as [|t0 ts] eqn:Hfin.
  { right. split; [intros (_ & H & _); congruence|]. left. reflexivity. }
  destruct (current_task p) as [t|] eqn:Hcur.
  2:{ right. split; [intros (_ & _ & t & H & _); discriminate|]. right. reflexivity. }
  simpl. rewrite orb_false_r.
  destruct (Str.eqb (task_type t) (DATA_PREPROCESS_type_name E)) eqn:Heq; simpl.
  - left. split; [reflexivity|]. apply StrFacts.eqb_eq in Heq.
    split; [reflexivity|]. split; [discriminate|]. exists t. tauto.
  - right. split.
    + intros (_ & _ & t' & H & Ht'). injection H as <-.
      apply StrFacts.eqb_eq in Ht'. congruence.
    + left. reflexivity.
Qed.

(** Every run of [_check_data] is one of the seven listed. *)
Lemma check_data_cases (w : World) :
  check_data_run E self w (_check_data E self w).
Proof.
  unfold _check_data, get. unfold bind at 1.
  destruct (check_data_skipped_cases (plan w) w)
    as [[Hs Ht] | [Hn [Hs | Hs]]]; unfold bind at 1; rewrite Hs.
  2:{ apply CheckSkipped; assumption. }
  2:{ apply CheckNoCurrentTask; assumption. }
  unfold bind, run_CheckData, execute_run, call, working_memory_add.
  destruct (CheckData_run E _ (plan w)) as [code|e]; simpl.
  2:{ apply CheckGenerationRaised; assumption. }
  destruct (Str.strip code) as [|c0 rest] eqn:Hstrip.
  { apply CheckBlankCode; assumption. }
  assert (Hne : Str.strip code <> []) by (rewrite Hstrip; discriminate).
  destruct (execute_code_run E _ code) as [[result [|]]|e]; simpl.
  - exact (@CheckExecutionSucceeded E self w code result Ht Hne).
  - exact (@CheckExecutionFailed E self w code result Ht Hne).
  - exact (@CheckExecutionRaised E self w code e Ht Hne).
Qed.

End CheckData.

Section CheckDataClaims.

Variable E : Env.
Variable self : DataInterpreter.

Lemma app_one_neq {A} (l : list A) (x : A) : l <> l ++ [x].
Proof.
  intros H. apply (f_equal (@List.length A)) in H.
  rewrite List.length_app in H. simpl in H. lia.
Qed.

(** The run of [_check_data] when the check is triggered, read off the
    answers of the generator of the inspection code and of the execution
    backend. *)
Lemma check_data_triggered_run (w : World) :
  check_triggered E self (plan w) ->
  let generated := CheckData_run E (calls KCheckData (trace w)) (plan w) in
  _check_data E self w
  = match generated with
    | Raises e => (Exc e, with_events [EvCheckData (plan w) generated] w)
    | Returns code =>
        match Str.strip code with
        | [] => (Ok tt, with_events [EvCheckData (plan w) generated] w)
        | _ :: _ =>
            let executed :=
              execute_code_run E (calls KExecute (trace w)) code in
            (match executed with
             | Returns _ => Ok tt
             | Raises e => Exc e
             end,
             with_events [EvExecute code executed;
                          EvCheckData (plan w) generated]
                         (match executed with
                          | Returns (result, true) =>
                              push (data_info_message result) w
                          | _ => w
                          end))
        end
    end.
Proof.
  intros Ht generated. subst generated.
  unfold _check_data, get. unfold bind at 1.
  destruct (check_data_skipped_cases E self (plan w) w)
    as [[Hs _] | [Hn _]]; [|contradiction].
  unfold bind at 1. rewrite Hs.
  unfold bind, run_CheckData, execute_run, call, working_memory_add.
  destruct (CheckData_run E _ (plan w)) as [code|e]; simpl; [|reflexivity].
  destruct (Str.strip code) as [|c0 rest]; [reflexivity|].
  destruct (execute_code_run E _ code) as [[result [|]]|e]; reflexivity.
Qed.

Lemma check_data_untriggered (w : World) :
  ~ check_triggered E self (plan w) -> snd (_check_data E self w) = w.
Proof.
  intros Hn. destruct (check_data_cases E self w); cbn [snd];
    try reflexivity; contradiction.
Qed.

(** C4. [_check_data] appends a message to the working memory exactly
    when planning is enabled, a task is finished, the current task is a
    data-preprocessing one and the execution of the inspection code
    succeeds: the generator of the inspection code answers with a code
    that is not blank and the execution backend, given that code, answers
    [success = True].  The message is then the data-info message of the
    result, the only change to the working memory, and [_check_data]
    returns.  When the backend answers [success = False], [_check_data]
    returns normally and nothing is appended.  The answers are those of the
    environment to the calls [_check_data] makes, not read off its own
    trace. *)
Theorem check_data_appends_iff :
  forall w : World,
    let r := fst (_check_data E self w) in
    let w' := snd (_check_data E self w) in
    let generated := CheckData_run E (calls KCheckData (trace w)) (plan w) in
    let executed := execute_code_run E (calls KExecute (trace w)) in
    let inspected := fun code result success =>
                       generated = Returns code
                       /\ Str.strip code <> []
                       /\ executed code = Returns (result, success) in
    ((exists m, working_memory w' = working_memory w ++ [m]) <->
     (check_triggered E self (plan w)
      /\ exists code result, inspected code result true))
    /\ (forall code result,
          check_triggered E self (plan w) ->
          inspected code result true ->
          r = Ok tt
          /\ w' = with_events [EvExecute code (Returns (result, true));
                               EvCheckData (plan w) (Returns code)]
                              (push (data_info_message result) w))
    /\ (working_memory w' = working_memory w
        \/ exists m, working_memory w' = working_memory w ++ [m])
    /\ (forall code result,
          check_triggered E self (plan w) ->
          inspected code result false ->
          r = Ok tt
          /\ w' = with_events [EvExecute code (Returns (result, false));
                               EvCheckData (plan w) (Returns code)] w).
Proof.
  intros w r w' generated executed inspected.
  assert (Hrun : forall code result success,
             check_triggered E self (plan w) ->
             inspected code result success ->
             _check_data E self w
             = (Ok tt,
                with_events [EvExecute code (Returns (result, success));
                             EvCheckData (plan w) (Returns code)]
                            (if success then push (data_info_message result) w
                             else w))).
  { intros code result success Ht (Hgen & Hne & Hexec).
    rewrite (check_data_triggered_run w Ht). cbv zeta.
    fold generated. rewrite Hgen.
    destruct (Str.strip code) as [|c0 rest]; [contradiction|].
    fold (executed code). rewrite Hexec. destruct success; reflexivity. }
  split; [|split; [|split]].
  - split.
    + intros [m Hm].
      assert (Ht : check_triggered E self (plan w)).
      { destruct (check_data_skipped_cases E self (plan w) w)
          as [[_ Ht] | [Hn _]]; [exact Ht|].
        exfalso. subst w'. rewrite (check_data_untriggered w Hn) in Hm.
        exact (app_one_neq _ _ Hm). }
      split; [exact Ht|].
      subst w'. rewrite (check_data_triggered_run w Ht) in Hm. cbv zeta in Hm.
      fold generated in Hm.
      destruct generated as [code|e] eqn:Hgen;
        [|exfalso; exact (app_one_neq _ _ Hm)].
      destruct (Str.strip code) as [|c0 rest] eqn:Hstrip;
        [exfalso; exact (app_one_neq _ _ Hm)|].
      fold (executed code) in Hm.
      destruct (executed code) as [[result [|]]|e] eqn:Hexec;
        try (exfalso; exact (app_one_neq _ _ Hm)).
      exists code, result. split; [reflexivity|].
      split; [rewrite Hstrip; discriminate | exact Hexec].
    + intros (Ht & code & result & Hin). subst w'.
      rewrite (Hrun code result true Ht Hin). eexists. reflexivity.
  - intros code result Ht Hin. subst r w'.
    rewrite (Hrun code result true Ht Hin). split; reflexivity.
  - subst w'. destruct (check_data_cases E self w); cbn [snd];
      try (left; reflexivity). right. eexists. reflexivity.
  - intros code result Ht Hin. subst r w'.
    rewrite (Hrun code result false Ht Hin). split; reflexivity.
Qed.

End CheckDataClaims.

(** A run of C4: a task is finished, the current one preprocesses the data
    and the backend runs the inspection code with success. *)
Lemma check_data_appends_iff_witness :
  let E := Demo.env (Demo.fails_then_succeeds 0) Demo.quiet_sink (py "no")
                    (py "df.info()") in
  let w := Demo.start Demo.preprocess_plan in
  fst (_check_data E Demo.planning w) = Ok tt
  /\ working_memory (snd (_check_data E Demo.planning w))
     = [data_info_message (py "ok")]
  /\ calls KExecute (trace (snd (_check_data E Demo.planning w))) = 1.
Proof.
  intros E w.
  destruct (check_data_appends_iff E Demo.planning w) as (_ & H & _).
  destruct (H (py "df.info()") (py "ok")) as (Hr & Hw).
  - split; [reflexivity|]. split; [discriminate|].
    exists Demo.clean_task. split; reflexivity.
  - split; [reflexivity|]. split; [vm_compute; discriminate | reflexivity].
  - split; [exact Hr|]. rewrite Hw. split; reflexivity.
Defined.

(** C10. When the generation step of [_check_data] returns a string that
    is empty or made of white space only, [_check_data] returns at once:
    the generation call is the only thing it adds to the world, so the
    execution backend is not called (neither [run] nor [terminate]) and
    the working memory is what it was. *)
Theorem check_data_blank_code :
  forall (E : Env) (self : DataInterpreter) (w : World) (inspection : str),
    In (EvCheckData (plan w) (Returns inspection))
       (during w (snd (_check_data E self w))) ->
    Str.blank inspection = true ->
    _check_data E self w
    = (Ok tt, with_events [EvCheckData (plan w) (Returns inspection)] w)
    /\ working_memory (snd (_check_data E self w)) = working_memory w
    /\ calls KExecute (trace (snd (_check_data E self w)))
       = calls KExecute (trace w)
    /\ calls KTerminate (trace (snd (_check_data E self w)))
       = calls KTerminate (trace w).
Proof.
  intros E self w inspection Hin Hblank.
  apply StrFacts.strip_nil_iff in Hblank.
  destruct (check_data_cases E self w)
    as [Hn | Hn | e Ht | c0 Ht Hb | c0 e Ht Hb | c0 x0 Ht Hb | c0 x0 Ht Hb];
    simpl snd in *.
  all: match type of Hin with
       | context [during ?a (with_events ?evs ?w0)] =>
           rewrite (during_with_events evs a (with_events evs w0) eq_refl) in Hin
       | context [during ?a ?a] =>
           rewrite (during_with_events [] a a eq_refl) in Hin
       end; simpl in Hin.
  all: try (exfalso; intuition discriminate).
  - destruct Hin as [Heq | []]. injection Heq as <-.
    repeat split.
  - exfalso. destruct Hin as [Heq | [Heq | []]]; try discriminate.
    injection Heq as <-. contradiction.
  - exfalso. destruct Hin as [Heq | [Heq | []]]; try discriminate.
    injection Heq as <-. contradiction.
  - exfalso. destruct Hin as [Heq | [Heq | []]]; try discriminate.
    injection Heq as <-. contradiction.
Qed.

(** A run of C10: planning is on, a task is finished, the current task
    preprocesses the data and the generated inspection code is two blanks
    and a line break. *)
Lemma check_data_blank_code_witness :
  let E := Demo.env Demo.always_fails Demo.quiet_sink (py "no") [32; 9; 10]%N in
  let w := Demo.start Demo.preprocess_plan in
  _check_data E Demo.planning w
  = (Ok tt, with_events [EvCheckData (plan w) (Returns [32; 9; 10]%N)] w)
  /\ working_memory (snd (_check_data E Demo.planning w)) = working_memory w
  /\ calls KExecute (trace (snd (_check_data E Demo.planning w)))
     = calls KExecute (trace w)
  /\ calls KTerminate (trace (snd (_check_data E Demo.planning w)))
     = calls KTerminate (trace w).
Proof.
  intros E w.
  apply (check_data_blank_code E Demo.planning w [32; 9; 10]%N).
  - vm_compute. left. reflexivity.
  - reflexivity.
Defined.

(** ** The reactive step *)



(** ** One attempt *)

Section Attempt.

Variable E : Env.
Variable self : DataInterpreter.

Lemma emits_working_memory_add ks m : emits ks (working_memory_add m).
Proof. intros w. exists []. split; [reflexivity | apply only_nil]. Qed.

(** What [_write_code] does, whatever the generator answers: it raises
    before the call, or makes the one call whose request carries the
    reflection flag of line 193. *)
Lemma write_code_cases (c : Z) (ps ti uid : str) (w : World) :
  (exists e, _write_code E self c ps ti uid w = (Exc e, w))
  \/ (exists a m,
        todo w = Some a
        /\ let req := mkWriteReq (content m) ps ti (working_memory w)
                                 ((0 <? c)%Z && use_reflection self) uid in
           let resp := todo_run E (calls KTodoRun (trace w)) a req in
           _write_code E self c ps ti uid w
           = (match resp with
              | Returns code => Ok (code, a)
              | Raises e => Exc e
              end, with_events [EvTodoRun a req resp] w)).
Proof.
  unfold _write_code, bind, get, get_memories, last_item, working_memory_get,
    run_todo, call, emit.
  destruct (todo w) as [a|]; simpl; [|left; eexists; reflexivity].
  destruct (rev (memory w)) as [|m ms]; simpl; [left; eexists; reflexivity|].
  right. exists a, m. split; [reflexivity|]. simpl.
  destruct (todo_run E _ a _); reflexivity.
Qed.

Lemma write_code_Ok (c : Z) (ps ti uid : str) (w : World) code a w1 :
  _write_code E self c ps ti uid w = (Ok (code, a), w1) ->
  todo w = Some a
  /\ exists req,
       w1 = with_events [EvTodoRun a req (Returns code)] w
       /\ req_use_reflection req = ((0 <? c)%Z && use_reflection self).
Proof.
  intros H.
  destruct (write_code_cases c ps ti uid w) as [[e He] | (a' & m & Ha & Hrun)].
  - rewrite He in H. discriminate.
  - simpl in Hrun. rewrite Hrun in H.
    destruct (todo_run E _ a' _) as [code'|e]; [|discriminate].
    injection H as <- <- <-. split; [exact Ha|].
    eexists. split; reflexivity.
Qed.

(** Lines 138-144: the result is logged, with its images when the
    execution succeeded. *)
Lemma quiet_log_result (result uid : str) (s : bool) :
  quiet [KLog; KExists; KRead]
    (if s then
       bind (log_execution E (py "### " ++ [9989%N] ++ py "Execution result" ++ nl) uid)
         (fun _ => bind (log_execution E (fence ++ nl ++ result ++ nl ++ fence ++ nl) uid)
         (fun _ => extract_and_log_images E result uid))
     else
       bind (log_execution E (py "### " ++ [10060%N] ++ py "Execution result" ++ nl) uid)
         (fun _ => log_execution E (fence ++ nl ++ result ++ nl ++ fence ++ nl) uid)).
Proof.
  destruct s.
  - apply quiet_bind; [prove_quiet|]. intros _.
    apply quiet_bind; [prove_quiet|]. intros _.
    apply quiet_extract_and_log_images.
  - prove_quiet.
Qed.

(** An attempt that returned made one call to the generator and one to the
    execution backend, and left the code and the result, in this order, at
    the end of the working memory. *)
Lemma attempt_Ok (c : Z) (ps ti uid : str) (w : World) code result s w' :
  attempt E self c ps ti uid w = (Ok (code, result, s), w') ->
  exists a req evs1 evs2,
    todo w = Some a
    /\ w' = with_events
              (evs2 ++ EvExecute code (Returns (result, s)) :: evs1
                    ++ [EvTodoRun a req (Returns code)])
              (push (mkMessage result user (Some ExecuteNbCode))
                    (push (mkMessage code assistant (Some a)) w))
    /\ only [KLog] evs1
    /\ only [KLog; KExists; KRead] evs2
    /\ req_use_reflection req = ((0 <? c)%Z && use_reflection self).
Proof.
  unfold attempt. intros H.
  apply bind_Ok_inv in H as ([code0 a] & w1 & H1 & H).
  apply write_code_Ok in H1 as (Ha & req & -> & Hflag).
  apply bind_Ok_inv in H as (u1 & w2 & H2 & H).
  apply (quiet_Ok [KLog]) in H2 as (e2 & -> & He2); [|apply quiet_log_execution].
  apply bind_Ok_inv in H as (u2 & w3 & H3 & H).
  apply (quiet_Ok [KLog]) in H3 as (e3 & -> & He3); [|apply quiet_log_execution].
  apply bind_Ok_inv in H as (u3 & w4 & H4 & H).
  unfold working_memory_add in H4. injection H4 as _ <-.
  apply bind_Ok_inv in H as ([r0 s0] & w5 & H5 & H).
  unfold execute_run, call in H5.
  destruct (execute_code_run E _ code0) as [[r1 s1]|e] eqn:Hexec; [|discriminate].
  injection H5 as <- <- <-.
  apply bind_Ok_inv in H as (u4 & w6 & H6 & H).
  apply (quiet_Ok _ _ _ _ _ (quiet_log_result r1 uid s1)) in H6
    as (e6 & -> & He6).
  apply bind_Ok_inv in H as (u5 & w7 & H7 & H).
  unfold working_memory_add in H7. injection H7 as _ <-.
  unfold ret in H. injection H as <- <- <- <-.
  exists a, req, (e3 ++ e2), e6. split; [exact Ha|].
  split; [|split; [apply only_app; assumption | split; assumption]].
  unfold with_events, push, emit. simpl. f_equal.
  repeat (rewrite <- app_assoc; simpl). reflexivity.
Qed.

End Attempt.

(** ** The retry loop *)

Section Loop.

Variable E : Env.
Variable self : DataInterpreter.

Lemma total_working_memory_add m : total (working_memory_add m).
Proof. intros w. discriminate. Qed.

Lemma total_attempt c ps ti uid : total (attempt E self c ps ti uid).
Proof.
  unfold attempt.
  apply total_bind; [apply total_write_code|]. intros [code0 a].
  repeat first
    [ apply total_log_execution | apply total_extract_and_log_images
    | apply total_working_memory_add | apply total_ret
    | apply total_bind; intros
    | unfold execute_run; apply total_call
    | step_match ].
Qed.

Lemma total_loop_body mr ps ti uid l : total (loop_body E self mr ps ti uid l).
Proof.
  unfold loop_body.
  apply total_bind; [apply total_attempt|]. intros [[c0 r0] s0].
  apply total_bind; [apply total_review_step|]. intros c1. apply total_ret.
Qed.

(** The calls of one attempt that returned, counted. *)
Lemma attempt_events a req c0 r0 s0 evs1 evs2 :
  only [KLog] evs1 -> only [KLog; KExists; KRead] evs2 ->
  let evs := evs2 ++ EvExecute c0 (Returns (r0, s0)) :: evs1
                  ++ [EvTodoRun a req (Returns c0)] in
  executions evs = [(c0, r0, s0)]
  /\ requests evs = [req]
  /\ calls KExecute evs = 1
  /\ calls KTodoRun evs = 1
  /\ calls KReview evs = 0.
Proof.
  intros H1 H2 evs. subst evs.
  rewrite executions_app, requests_app, !calls_app. simpl.
  rewrite executions_app, requests_app, !calls_app. simpl.
  rewrite (only_executions _ _ H1 eq_refl), (only_executions _ _ H2 eq_refl).
  rewrite (only_requests _ _ H1 eq_refl), (only_requests _ _ H2 eq_refl).
  rewrite (only_calls _ KExecute _ H1 eq_refl), (only_calls _ KExecute _ H2 eq_refl).
  rewrite (only_calls _ KTodoRun _ H1 eq_refl), (only_calls _ KTodoRun _ H2 eq_refl).
  rewrite (only_calls _ KReview _ H1 eq_refl), (only_calls _ KReview _ H2 eq_refl).
  repeat split.
Qed.

(** A turn of the loop that returned: one attempt, then at most one
    review. *)
Lemma loop_body_Ok mr ps ti uid l w l' w' :
  loop_body E self mr ps ti uid l w = (Ok l', w') ->
  exists a c0 r0 evs,
    todo w = Some a
    /\ w' = with_events evs (pushes (exchange (Some a) (c0, r0, success l')) w)
    /\ executions evs = [(c0, r0, success l')]
    /\ calls KExecute evs = 1
    /\ calls KTodoRun evs = 1
    /\ Forall (fun req => req_use_reflection req
                         = ((0 <? counter l)%Z && use_reflection self))
              (requests evs)
    /\ code l' = Some c0 /\ result l' = Some r0.
Proof.
  unfold loop_body. intros H.
  apply bind_Ok_inv in H as ([[c0 r0] s0] & w1 & H1 & H).
  apply attempt_Ok in H1 as (a & req & evs1 & evs2 & Ha & -> & Ho1 & Ho2 & Hflag).
  apply bind_Ok_inv in H as (c1 & w2 & H2 & H).
  apply (quiet_Ok _ _ _ _ _ (quiet_review_step E mr _ s0)) in H2 as (evs3 & -> & Ho3).
  unfold ret in H. injection H as <- <-. simpl.
  destruct (attempt_events a req c0 r0 s0 evs1 evs2 Ho1 Ho2)
    as (Hex & Hreq & Hk1 & Hk2 & Hk3).
  exists a, c0, r0, (evs3 ++ evs2 ++ EvExecute c0 (Returns (r0, s0)) :: evs1
                          ++ [EvTodoRun a req (Returns c0)]).
  split; [exact Ha|]. split.
  { rewrite with_events_app. unfold with_events, push, pushes. simpl.
    rewrite <- app_assoc. reflexivity. }
  rewrite executions_app, requests_app, (calls_app KExecute),
    (calls_app KTodoRun), Hex, Hreq, Hk1, Hk2.
  rewrite (only_executions _ _ Ho3 eq_refl), (only_requests _ _ Ho3 eq_refl).
  rewrite (only_calls _ KExecute _ Ho3 eq_refl), (only_calls _ KTodoRun _ Ho3 eq_refl).
  simpl.
  repeat split. constructor; [exact Hflag | constructor].
Qed.

Lemma pushes_nil w : pushes [] w = w.
Proof. destruct w. unfold pushes. simpl. rewrite app_nil_r. reflexivity. Qed.

(** The loop, for any environment: as long as no exception escapes, the
    working memory grows by the exchanges of the executions made, oldest
    first, and every call to the execution backend returned. *)
Lemma while_loop_exchanges fuel mr ps ti uid :
  forall l w r w',
    while_loop E self fuel mr ps ti uid l w = (r, w') ->
    (forall e, r <> Exc e) ->
    exists evs,
      w' = with_events evs
             (pushes (flat_map (exchange (todo w)) (rev (executions evs))) w)
      /\ List.length (executions evs) = calls KExecute evs
      /\ calls KTodoRun evs = calls KExecute evs.
Proof.
  induction fuel as [|fuel IH]; intros l w r w' H Hr; simpl in H.
  - exists []. simpl. rewrite pushes_nil, with_events_nil.
    destruct (negb (success l) && (counter l <? mr)%Z);
      injection H as _ <-; repeat split.
  - destruct (negb (success l) && (counter l <? mr)%Z).
    2:{ exists []. simpl. rewrite pushes_nil, with_events_nil.
        injection H as _ <-. repeat split. }
    unfold bind in H.
    destruct (loop_body E self mr ps ti uid l w) as [[l1| e |] w1] eqn:Hbody.
    + apply loop_body_Ok in Hbody
        as (a & c0 & r0 & evs1 & Ha & -> & Hex & Hk & Hg & _).
      apply IH in H as (evs2 & -> & Hlen & Hgen); [|exact Hr].
      exists (evs2 ++ evs1). simpl todo. rewrite Ha. split; [|split].
      * rewrite executions_app, Hex, rev_app_distr. simpl rev. simpl app.
        simpl flat_map. unfold with_events, pushes. simpl.
        rewrite <- !app_assoc. reflexivity.
      * rewrite executions_app, calls_app, List.length_app, Hex, Hk, Hlen.
        reflexivity.
      * rewrite !calls_app, Hk, Hg, Hgen. reflexivity.
    + injection H as <- _. exfalso. exact (Hr e eq_refl).
    + exfalso. apply (total_loop_body mr ps ti uid l w). rewrite Hbody. reflexivity.
Qed.

End Loop.

Section Completed.

Variable E : Env.
Variable self : DataInterpreter.

Lemma bind_Exc_inv {A B} (c : M A) (k : A -> M B) w e w' :
  bind c k w = (Exc e, w') ->
  c w = (Exc e, w')
  \/ exists a w1, c w = (Ok a, w1) /\ k a w1 = (Exc e, w').
Proof.
  unfold bind. destruct (c w) as [[a| e0 |] w1]; intros H.
  - right. exists a, w1. split; [reflexivity | exact H].
  - left. injection H as <- <-. reflexivity.
  - discriminate.
Qed.

Lemma quiet_any {A} ks (c : M A) w r w1 :
  quiet ks c -> c w = (r, w1) ->
  exists evs, w1 = with_events evs w /\ only ks evs.
Proof.
  intros Hc H. destruct (Hc w) as (evs & Hw & Hevs). rewrite H in Hw.
  exists evs. split; assumption.
Qed.

(** An attempt that ran to its end has appended its two messages and the
    backend has returned once, with its code and its result. *)
Lemma attempt_Ok_world c ps ti uid w x w1 :
  attempt E self c ps ti uid w = (Ok x, w1) ->
  exists evs,
    w1 = with_events evs (pushes (exchange (todo w) x) w)
    /\ executions evs = [x].
Proof.
  destruct x as [[c0 r0] s0]. intros H.
  apply attempt_Ok in H as (a & req & evs1 & evs2 & Ha & -> & Ho1 & Ho2 & _).
  destruct (attempt_events a req c0 r0 s0 evs1 evs2 Ho1 Ho2) as (Hex & _).
  eexists. split; [|exact Hex]. rewrite Ha.
  unfold with_events, push, pushes. simpl. rewrite <- app_assoc. reflexivity.
Qed.

(** An attempt that an exception aborts has appended nothing, or its code
    alone; the backend has returned at most once. *)
Lemma attempt_Exc c ps ti uid w e w1 :
  attempt E self c ps ti uid w = (Exc e, w1) ->
  exists evs,
    (w1 = with_events evs w /\ executions evs = [])
    \/ (exists code,
          w1 = with_events evs (push (mkMessage code assistant (todo w)) w)
          /\ List.length (executions evs) <= 1).
Proof.
  unfold attempt. intros H.
  apply bind_Exc_inv in H as [H | ([code0 a] & wa & H1 & H)].
  { destruct (quiet_any [KTodoRun] _ w _ _ (quiet_write_code E self c ps ti uid) H)
      as (evs & -> & Ho).
    exists evs. left. split; [reflexivity|].
    apply (only_executions _ _ Ho eq_refl). }
  apply write_code_Ok in H1 as (Ha & req & -> & _).
  apply bind_Exc_inv in H as [H | (u1 & wb & H2 & H)].
  { destruct (quiet_any [KLog] _ _ _ _ (quiet_log_execution E _ uid) H)
      as (e2 & -> & He2).
    exists (e2 ++ [EvTodoRun a req (Returns code0)]). left.
    split; [rewrite with_events_app; reflexivity|].
    rewrite executions_app, (only_executions _ _ He2 eq_refl). reflexivity. }
  apply (quiet_Ok [KLog]) in H2 as (e2 & -> & He2); [|apply quiet_log_execution].
  apply bind_Exc_inv in H as [H | (u2 & wc & H3 & H)].
  { destruct (quiet_any [KLog] _ _ _ _ (quiet_log_execution E _ uid) H)
      as (e3 & -> & He3).
    exists (e3 ++ e2 ++ [EvTodoRun a req (Returns code0)]). left.
    split; [rewrite !with_events_app, <- app_assoc; reflexivity|].
    rewrite !executions_app, (only_executions _ _ He2 eq_refl),
      (only_executions _ _ He3 eq_refl). reflexivity. }
  apply (quiet_Ok [KLog]) in H3 as (e3 & -> & He3); [|apply quiet_log_execution].
  apply bind_Exc_inv in H as [H | (u3 & wd & H4 & H)]; [discriminate H|].
  unfold working_memory_add in H4. injection H4 as _ <-.
  assert (Hquiet : executions (e3 ++ e2 ++ [EvTodoRun a req (Returns code0)])
                   = []).
  { rewrite !executions_app, (only_executions _ _ He2 eq_refl),
      (only_executions _ _ He3 eq_refl). reflexivity. }
  apply bind_Exc_inv in H as [H | ([r0 s0] & we & H5 & H)].
  { unfold execute_run, call in H.
    destruct (execute_code_run E _ code0) as [[r1 s1]|e0]; [discriminate|].
    injection H as <- <-.
    exists (EvExecute code0 (Raises e0)
              :: e3 ++ e2 ++ [EvTodoRun a req (Returns code0)]).
    right. exists code0. rewrite Ha. split.
    - unfold with_events, push, emit. simpl. f_equal.
      repeat (rewrite <- app_assoc; simpl). reflexivity.
    - cbn [executions]. rewrite Hquiet. simpl. lia. }
  unfold execute_run, call in H5.
  destruct (execute_code_run E _ code0) as [[r1 s1]|e0]; [|discriminate].
  injection H5 as <- <- <-.
  apply bind_Exc_inv in H as [H | (u4 & wf & H6 & H)].
  { destruct (quiet_any _ _ _ _ _ (quiet_log_result E r1 uid s1) H)
      as (e6 & -> & He6).
    exists (e6 ++ EvExecute code0 (Returns (r1, s1))
               :: e3 ++ e2 ++ [EvTodoRun a req (Returns code0)]).
    right. exists code0. rewrite Ha. split.
    - unfold with_events, push, emit. simpl. f_equal.
      repeat (rewrite <- app_assoc; simpl). reflexivity.
    - rewrite executions_app, (only_executions _ _ He6 eq_refl).
      cbn [executions app]. rewrite Hquiet. simpl. lia. }
  apply bind_Exc_inv in H as [H | (u5 & wg & H7 & H)]; discriminate.
Qed.

(** The whole loop, however it ends: the exchanges of the completed
    attempts, then what an aborted attempt left. *)
Lemma while_loop_completed mr ps ti uid :
  forall fuel l w,
    exists evs tail extra,
      snd (while_loop E self fuel mr ps ti uid l w)
      = with_events evs
          (pushes (flat_map (exchange (todo w))
                            (completed E self fuel mr ps ti uid l w) ++ tail) w)
      /\ rev (executions evs)
         = completed E self fuel mr ps ti uid l w ++ extra
      /\ ((tail = [] /\ extra = [])
          \/ exists e code,
               fst (while_loop E self fuel mr ps ti uid l w) = Exc e
               /\ tail = [mkMessage code assistant (todo w)]
               /\ List.length extra <= 1).
Proof.
  assert (Hstop : forall w : World,
             exists evs tail extra,
               w = with_events evs (pushes (flat_map (exchange (todo w)) [] ++ tail) w)
               /\ rev (executions evs) = @nil (str * str * bool) ++ extra
               /\ ((tail = [] /\ extra = [])
                   \/ exists (e : PyExc) (code : str),
                        False /\ tail = [mkMessage code assistant (todo w)]
                        /\ List.length extra <= 1)).
  { intros w. exists [], [], []. simpl. rewrite pushes_nil, with_events_nil.
    split; [reflexivity|]. split; [reflexivity|]. left. split; reflexivity. }
  induction fuel as [|fuel IH]; intros l w; cbn [while_loop completed];
    destruct (negb (success l) && (counter l <? mr)%Z);
    try (destruct (Hstop w) as (evs & tail & extra & H1 & H2 & [H3 | (e & c & [] & _)]);
         exists evs, tail, extra; split; [exact H1|]; split; [exact H2|];
         left; exact H3).
  destruct (attempt E self (counter l) ps ti uid w) as [[x| e |] w1] eqn:Hat.
  - destruct (attempt_Ok_world _ _ _ _ _ _ _ Hat) as (evs1 & -> & Hex1).
    destruct x as [[c0 r0] s0].
    destruct (review_step E mr (counter l + 1) s0
                (with_events evs1 (pushes (exchange (todo w) (c0, r0, s0)) w)))
      as [r2 w2] eqn:Hrev.
    destruct (quiet_any [KReview] _ _ _ _ (quiet_review_step E mr _ s0) Hrev)
      as (evs2 & -> & Ho2).
    pose proof (only_executions _ _ Ho2 eq_refl) as Hex2.
    destruct r2 as [c1| e |].
    + assert (Hlb : loop_body E self mr ps ti uid l w
                    = (Ok (mkLocals c1 s0 (Some c0) (Some r0)),
                       with_events evs2
                         (with_events evs1
                            (pushes (exchange (todo w) (c0, r0, s0)) w)))).
      { unfold loop_body. rewrite (bind_Ok _ _ _ _ _ Hat). cbn beta iota.
        rewrite (bind_Ok _ _ _ _ _ Hrev). reflexivity. }
      rewrite (bind_Ok _ _ _ _ _ Hlb), Hlb.
      set (l' := mkLocals c1 s0 (Some c0) (Some r0)).
      destruct (IH l' (with_events evs2
                         (with_events evs1
                            (pushes (exchange (todo w) (c0, r0, s0)) w))))
        as (evs & tail & extra & H1 & H2 & H3).
      cbn [todo with_events pushes] in H1, H2, H3.
      exists (evs ++ evs2 ++ evs1), tail, extra.
      split; [|split].
      * rewrite H1. unfold with_events, pushes.
        cbn [todo trace memory working_memory state plan flat_map].
        f_equal; rewrite <- ?app_assoc; reflexivity.
      * rewrite !executions_app, Hex2, Hex1, !rev_app_distr, H2. reflexivity.
      * destruct H3 as [H3 | (e & code & He & Ht & Hl)]; [left; exact H3|].
        right. exists e, code. split; [exact He|]. split; assumption.
    + assert (Hlb : loop_body E self mr ps ti uid l w
                    = (Exc e,
                       with_events evs2
                         (with_events evs1
                            (pushes (exchange (todo w) (c0, r0, s0)) w)))).
      { unfold loop_body. rewrite (bind_Ok _ _ _ _ _ Hat). cbn beta iota.
        rewrite (bind_Exc _ _ _ _ _ Hrev). reflexivity. }
      rewrite (bind_Exc _ _ _ _ _ Hlb), Hlb. cbn [fst snd].
      exists (evs2 ++ evs1), [], []. split; [|split].
      * rewrite with_events_app, !app_nil_r. reflexivity.
      * rewrite executions_app, Hex2, Hex1. reflexivity.
      * left. split; reflexivity.
    + exfalso. apply (total_review_step E mr (counter l + 1) s0
                        (with_events evs1
                           (pushes (exchange (todo w) (c0, r0, s0)) w))).
      rewrite Hrev. reflexivity.
  - assert (Hlb : loop_body E self mr ps ti uid l w = (Exc e, w1))
      by (unfold loop_body; apply bind_Exc; exact Hat).
    rewrite (bind_Exc _ _ _ _ _ Hlb). cbn [fst snd].
    destruct (attempt_Exc _ _ _ _ _ _ _ Hat)
      as (evs & [(-> & Hex) | (code & -> & Hlen)]).
    + exists evs, [], []. simpl. rewrite pushes_nil, Hex.
      split; [reflexivity|]. split; [reflexivity|]. left. split; reflexivity.
    + exists evs, [mkMessage code assistant (todo w)], (rev (executions evs)).
      split; [reflexivity|]. split; [reflexivity|].
      right. exists e, code. split; [reflexivity|]. split; [reflexivity|].
      rewrite List.length_rev. exact Hlen.
  - exfalso. apply (total_attempt E self (counter l) ps ti uid w).
    rewrite Hat. reflexivity.
Qed.

End Completed.

(** C3, amended.  Take any run of the loop of [_write_and_exec_code], in
    any environment and however it ends, and let K attempts run to their
    end in it.  For each of them, oldest first, the loop has appended the
    code with the role [assistant] and at once the result of its execution
    with the role [user], whether the execution succeeded or failed, and
    the execution backend has returned once, with that code and that
    result.  When no exception escapes, these 2K messages are all the loop
    has appended, and the backend and the generator have been called K
    times each.  When an exception aborts an attempt, that attempt leaves
    at most one more message, its code without a result, and at most one
    more execution. *)
Theorem loop_appends_two_messages_per_attempt :
  forall (E : Env) (self : DataInterpreter) (fuel : nat) (max_retry : Z)
         (plan_status tool_info user_id : str) (l : Locals) (w : World),
    let run := while_loop E self fuel max_retry plan_status tool_info
                          user_id l w in
    let w' := snd run in
    let done := completed E self fuel max_retry plan_status tool_info
                          user_id l w in
    let K := List.length done in
    exists tail extra,
      working_memory w'
      = working_memory w ++ flat_map (exchange (todo w)) done ++ tail
      /\ List.length (flat_map (exchange (todo w)) done) = 2 * K
      /\ rev (executions (during w w')) = done ++ extra
      /\ ((tail = [] /\ extra = [])
          \/ exists e code,
               fst run = Exc e
               /\ tail = [mkMessage code assistant (todo w)]
               /\ List.length extra <= 1)
      /\ ((forall e, fst run <> Exc e) ->
          List.length (working_memory w')
          = List.length (working_memory w) + 2 * K
          /\ calls KExecute (during w w') = K
          /\ calls KTodoRun (during w w') = K).
Proof.
  intros E self fuel mr ps ti uid l w run w' done K.
  destruct (while_loop_completed E self mr ps ti uid fuel l w)
    as (evs & tail & extra & Hw & Hex & Hcases).
  fold run in Hw, Hcases. fold w' in Hw. fold done in Hw, Hex.
  assert (Hd : during w w' = evs).
  { apply during_with_events. rewrite Hw. reflexivity. }
  assert (Hall : forall xs, List.length (flat_map (exchange (todo w)) xs)
                            = 2 * List.length xs).
  { induction xs as [|[[c0 r0] s0] xs IH]; simpl; [reflexivity|].
    rewrite IH. lia. }
  exists tail, extra. rewrite Hd.
  split; [rewrite Hw; reflexivity|]. split; [apply Hall|].
  split; [exact Hex|]. split; [exact Hcases|].
  intros Hno.
  destruct Hcases as [(-> & ->) | (e & code & He & _)];
    [|exfalso; exact (Hno e He)].
  rewrite app_nil_r in Hex. rewrite app_nil_r in Hw.
  destruct run as [r w1] eqn:Hrun. cbn [fst snd] in *. subst w'.
  destruct (while_loop_exchanges E self fuel mr ps ti uid l w r w1 Hrun Hno)
    as (evs' & Hw1 & Hlen & Hgen).
  assert (Heq : evs' = evs).
  { rewrite Hw in Hw1. apply (f_equal trace) in Hw1.
    cbn [trace with_events pushes] in Hw1. apply app_inv_tail in Hw1.
    symmetry. exact Hw1. }
  subst evs'.
  assert (HK : List.length (executions evs) = K).
  { rewrite <- (List.length_rev (executions evs)), Hex. reflexivity. }
  split; [|split].
  - rewrite Hw. cbn [working_memory with_events pushes].
    rewrite List.length_app, Hall. reflexivity.
  - rewrite <- Hlen. exact HK.
  - rewrite Hgen, <- Hlen. exact HK.
Qed.

(** A run of C3: the first execution fails, the second succeeds; two
    attempts are completed and four messages appended. *)
Lemma loop_appends_two_messages_per_attempt_witness :
  let E := Demo.env (Demo.fails_then_succeeds 1) Demo.quiet_sink (py "no")
                    (py "df.info()") in
  let w := Demo.start Demo.first_plan in
  let l := mkLocals 0 false None None in
  let w' := snd (while_loop E Demo.planning 5 3 [] [] (py "u") l w) in
  completed E Demo.planning 5 3 [] [] (py "u") l w
  = [(py "attempt_0", py "NameError", false); (py "attempt_1", py "ok", true)]
  /\ working_memory w'
     = [mkMessage (py "attempt_0") assistant (Some WriteAnalysisCode);
        mkMessage (py "NameError") user (Some ExecuteNbCode);
        mkMessage (py "attempt_1") assistant (Some WriteAnalysisCode);
        mkMessage (py "ok") user (Some ExecuteNbCode)]
  /\ calls KExecute (during w w') = 2
  /\ calls KTodoRun (during w w') = 2.
Proof.
  intros E w l w'.
  assert (Hdone : completed E Demo.planning 5 3 [] [] (py "u") l w
                  = [(py "attempt_0", py "NameError", false);
                     (py "attempt_1", py "ok", true)])
    by (vm_compute; reflexivity).
  destruct (loop_appends_two_messages_per_attempt E Demo.planning 5 3 [] []
              (py "u") l w) as (tail & extra & Hwm & _ & _ & _ & Hno).
  destruct Hno as (_ & Hk & Hg); [intros e; vm_compute; discriminate|].
  rewrite Hdone in Hk, Hg.
  split; [exact Hdone|]. split; [vm_compute; reflexivity|].
  split; [exact Hk | exact Hg].
Defined.

(** C3 as stated fails when an attempt is aborted.  The backend succeeds
    at once and the sink is down from its third entry on: the code is
    generated, logged, appended and executed, and the entry that announces
    the result raises.  One attempt, one execution, and one message: the
    code, with no result after it. *)
Lemma sink_failure_leaves_a_code_without_its_result :
  let E := Demo.env (Demo.fails_then_succeeds 0) Demo.late_sink (py "no")
                    (py "df.info()") in
  let w := Demo.start Demo.first_plan in
  let run := _write_and_exec_code E Demo.planning 5 3 (py "u") w in
  fst run = Exc (External true "ConnectionError")
  /\ executions (during w (snd run)) = [(py "attempt_0", py "ok", true)]
  /\ calls KTodoRun (during w (snd run)) = 1
  /\ working_memory (snd run)
     = working_memory w
       ++ [mkMessage (py "attempt_0") assistant (Some WriteAnalysisCode)].
Proof. vm_compute. repeat split. Qed.

(** ** Runs in a cooperative environment *)

Section Returns.

Context {A B : Type}.

Lemma returns_ret (a : A) : returns (ret a).
Proof. intros w. exists a. reflexivity. Qed.

Lemma returns_bind (c : M A) (k : A -> M B) :
  returns c -> (forall a, returns (k a)) -> returns (bind c k).
Proof.
  intros Hc Hk w. destruct (Hc w) as (a & Ha). unfold bind.
  destruct (c w) as [[a'| e |] w1]; simpl in Ha; try discriminate.
  apply Hk.
Qed.

Lemma returns_call k (oracle : nat -> Resp A) ev :
  (forall n, exists a, oracle n = Returns a) -> returns (call k oracle ev).
Proof.
  intros H w. unfold call. destruct (H (calls k (trace w))) as (a & ->).
  exists a. reflexivity.
Qed.

Lemma returns_catchable (c : M A) : returns c -> catchable c.
Proof. intros H w. destruct (H w) as (a & ->). exact I. Qed.

Lemma catchable_bind (c : M A) (k : A -> M B) :
  catchable c -> (forall a, catchable (k a)) -> catchable (bind c k).
Proof.
  intros Hc Hk w. specialize (Hc w). unfold bind.
  destruct (c w) as [[a| e |] w1]; simpl in *; [apply Hk | exact Hc | exact Hc].
Qed.

Lemma catchable_call k (oracle : nat -> Resp A) ev :
  (forall n, benign (oracle n) = true) -> catchable (call k oracle ev).
Proof.
  intros H w. unfold call. simpl. specialize (H (calls k (trace w))).
  destruct (oracle _); [exact I | exact H].
Qed.

Lemma returns_try_except (body : M A) handler :
  catchable body -> (forall e, returns (handler e)) ->
  returns (try_except body handler).
Proof.
  intros Hb Hh w. specialize (Hb w). unfold try_except.
  destruct (body w) as [[a| e |] w1]; simpl in *.
  - exists a. reflexivity.
  - rewrite Hb. apply Hh.
  - contradiction.
Qed.

(** A quiet coroutine that returns. *)
Lemma returns_quiet_run ks (c : M A) w :
  returns c -> quiet ks c ->
  exists a evs, c w = (Ok a, with_events evs w) /\ only ks evs.
Proof.
  intros Hr Hq. destruct (Hr w) as (a & Ha). destruct (Hq w) as (evs & Hw & He).
  exists a, evs. split; [|exact He].
  destruct (c w) as [r w1]. simpl in *. subst. reflexivity.
Qed.

End Returns.

Lemma returns_for_each {A} (xs : list A) body :
  (forall x, returns (body x)) -> returns (for_each xs body).
Proof.
  intros Hb. induction xs as [|x xs IH]; simpl.
  - apply returns_ret.
  - apply returns_bind; [apply Hb | intros _; exact IH].
Qed.

Section Progress.

Variable E : Env.
Variable self : DataInterpreter.
Hypothesis Hcoop : cooperative E.

Lemma returns_log_execution text uid : returns (log_execution E text uid).
Proof.
  apply returns_call. intros n. exists tt. apply (sink_returns Hcoop).
Qed.

(** With a sink that returns, whatever goes wrong with an image is caught
    and reported, and the helper returns. *)
Lemma returns_extract_and_log_images result uid :
  returns (extract_and_log_images E result uid).
Proof.
  unfold extract_and_log_images. apply returns_for_each. intros p.
  apply returns_try_except.
  - unfold image_body. apply catchable_bind.
    + apply catchable_call. intros n. apply (exists_benign Hcoop).
    + intros [|].
      * apply catchable_bind;
          [apply catchable_call; intros n; apply (read_benign Hcoop)|].
        intros data. apply returns_catchable.
        repeat (apply returns_bind; [apply returns_log_execution | intros _]).
        apply returns_log_execution.
      * apply returns_catchable, returns_log_execution.
  - intros e. apply returns_log_execution.
Qed.

Lemma log_execution_run text uid w :
  log_execution E text uid w
  = (Ok tt, with_events [EvLog text uid (Returns tt)] w).
Proof.
  unfold log_execution, call. rewrite (sink_returns Hcoop). reflexivity.
Qed.

Lemma rev_nil_inv {X} (l : list X) : rev l = [] -> l = [].
Proof.
  intros H. apply (f_equal (@rev X)) in H. rewrite rev_involutive in H. exact H.
Qed.

Lemma write_code_run c ps ti uid w a :
  todo w = Some a -> memory w <> [] ->
  exists code req,
    _write_code E self c ps ti uid w
    = (Ok (code, a), with_events [EvTodoRun a req (Returns code)] w).
Proof.
  intros Ha Hmem.
  destruct (write_code_cases E self c ps ti uid w) as [[e He] | (a' & m & Ha' & Hrun)].
  - exfalso. revert He.
    unfold _write_code, bind, get, get_memories, last_item, working_memory_get,
      run_todo, call. rewrite Ha. simpl.
    destruct (rev (memory w)) as [|m ms] eqn:Hrev.
    + apply rev_nil_inv in Hrev. contradiction.
    + simpl. destruct (generator_returns Hcoop (calls KTodoRun (trace w)) a
                         (mkWriteReq (content m) ps ti (working_memory w)
                            ((0 <? c)%Z && use_reflection self) uid)) as (code & ->).
      discriminate.
  - simpl in Hrun. rewrite Ha in Ha'. injection Ha' as <-.
    destruct (generator_returns Hcoop (calls KTodoRun (trace w)) a
                (mkWriteReq (content m) ps ti (working_memory w)
                   ((0 <? c)%Z && use_reflection self) uid)) as (code & Hc).
    rewrite Hc in Hrun. eexists. eexists. exact Hrun.
Qed.

(** In a cooperative environment an attempt returns, with the flag the
    execution backend gives to its call. *)
Lemma attempt_run c ps ti uid w a s :
  todo w = Some a -> memory w <> [] ->
  execution_flag E (calls KExecute (trace w)) s ->
  exists code result w',
    attempt E self c ps ti uid w = (Ok (code, result, s), w').
Proof.
  intros Ha Hmem Hflag. unfold attempt.
  destruct (write_code_run c ps ti uid w a Ha Hmem) as (code & req & Hw).
  rewrite (bind_Ok _ _ _ _ _ Hw).
  rewrite (bind_Ok _ _ _ _ _ (log_execution_run _ _ _)).
  rewrite (bind_Ok _ _ _ _ _ (log_execution_run _ _ _)).
  unfold working_memory_add at 1. unfold bind at 1.
  destruct (Hflag code) as (result & Hexec).
  unfold execute_run at 1, call. unfold bind at 1. simpl calls. rewrite Hexec.
  match goal with
  | |- context [bind (if s then ?c1 else ?c2) ?k ?w0] =>
      destruct (returns_quiet_run [KLog; KExists; KRead]
                  (if s then c1 else c2) w0) as ([] & evs & Hlog & _)
  end.
  { destruct s.
    - repeat (apply returns_bind; [apply returns_log_execution | intros _]).
      apply returns_extract_and_log_images.
    - apply returns_bind; [apply returns_log_execution | intros _].
      apply returns_log_execution. }
  { apply quiet_log_result. }
  rewrite (bind_Ok _ _ _ _ _ Hlog).
  unfold working_memory_add, bind, ret. eexists. eexists. eexists. reflexivity.
Qed.

End Progress.

Section LoopRuns.

Variable E : Env.
Variable self : DataInterpreter.
Hypothesis Hcoop : cooperative E.

(** An attempt in a cooperative environment, with the world it leaves. *)
Lemma attempt_run_world c ps ti uid w a s :
  todo w = Some a -> memory w <> [] ->
  execution_flag E (calls KExecute (trace w)) s ->
  exists c0 r0 evs,
    attempt E self c ps ti uid w
    = (Ok (c0, r0, s),
       with_events evs (pushes (exchange (Some a) (c0, r0, s)) w))
    /\ executions evs = [(c0, r0, s)]
    /\ calls KExecute evs = 1
    /\ calls KReview evs = 0.
Proof.
  intros Ha Hmem Hflag.
  destruct (attempt_run E self Hcoop c ps ti uid w a s Ha Hmem Hflag)
    as (c0 & r0 & w' & Hrun).
  destruct (attempt_Ok E self c ps ti uid w c0 r0 s w' Hrun)
    as (a' & req & evs1 & evs2 & Ha' & -> & Ho1 & Ho2 & _).
  rewrite Ha in Ha'. injection Ha' as <-.
  destruct (attempt_events a req c0 r0 s evs1 evs2 Ho1 Ho2)
    as (Hex & _ & Hk & _ & Hrv).
  eexists c0, r0, _. split; [|split; [exact Hex | split; [exact Hk | exact Hrv]]].
  rewrite Hrun. f_equal. unfold with_events, push, pushes. simpl.
  rewrite <- app_assoc. reflexivity.
Qed.

(** A turn that ends without a review: the execution succeeded, or retries
    are left. *)
Lemma loop_body_run mr ps ti uid l w a s :
  todo w = Some a -> memory w <> [] ->
  execution_flag E (calls KExecute (trace w)) s ->
  s = true \/ (counter l + 1 < mr)%Z ->
  exists c0 r0 evs,
    loop_body E self mr ps ti uid l w
    = (Ok (mkLocals (counter l + 1) s (Some c0) (Some r0)),
       with_events evs (pushes (exchange (Some a) (c0, r0, s)) w))
    /\ executions evs = [(c0, r0, s)]
    /\ calls KExecute evs = 1
    /\ calls KReview evs = 0.
Proof.
  intros Ha Hmem Hflag Hno.
  destruct (attempt_run_world (counter l) ps ti uid w a s Ha Hmem Hflag)
    as (c0 & r0 & evs & Hrun & Hex & Hk & Hrv).
  exists c0, r0, evs. split; [|split; [exact Hex | split; [exact Hk | exact Hrv]]].
  unfold loop_body. rewrite (bind_Ok _ _ _ _ _ Hrun).
  unfold review_step.
  replace (negb s && (mr <=? counter l + 1)%Z) with false.
  - reflexivity.
  - destruct Hno as [-> | Hlt]; [reflexivity|].
    symmetry. apply andb_false_intro2. apply Z.leb_gt. exact Hlt.
Qed.

(** The turn that exhausts the retries: the reviewer is asked once, and
    the counter goes back to 0 when the answer holds [CHANGE_WORDS[0]]. *)
Lemma loop_body_review mr ps ti uid l w a review b cw cws :
  todo w = Some a -> memory w <> [] ->
  execution_flag E (calls KExecute (trace w)) false ->
  (mr <= counter l + 1)%Z ->
  planner_ask_review E (calls KReview (trace w)) false (CODE_REVIEW_TRIGGER E)
  = Returns (review, b) ->
  CHANGE_WORDS E = cw :: cws ->
  exists c0 r0 evs,
    loop_body E self mr ps ti uid l w
    = (Ok (mkLocals (if Str.contains cw review then 0 else counter l + 1)%Z
                    false (Some c0) (Some r0)),
       with_events evs (pushes (exchange (Some a) (c0, r0, false)) w))
    /\ executions evs = [(c0, r0, false)]
    /\ calls KExecute evs = 1
    /\ calls KReview evs = 1.
Proof.
  intros Ha Hmem Hflag Hge Hrev Hcw.
  destruct (attempt_run_world (counter l) ps ti uid w a false Ha Hmem Hflag)
    as (c0 & r0 & evs & Hrun & Hex & Hk & Hrv).
  exists c0, r0,
    (EvReview false (CODE_REVIEW_TRIGGER E) (Returns (review, b)) :: evs).
  split; [|split; [|split]].
  - unfold loop_body. rewrite (bind_Ok _ _ _ _ _ Hrun).
    unfold review_step.
    replace (negb false && (mr <=? counter l + 1)%Z) with true
      by (symmetry; apply Z.leb_le; exact Hge).
    unfold ask_review, call, asks_for_change, first_item, bind, ret.
    simpl trace. rewrite calls_app, Hrv. simpl. rewrite Hrev, Hcw.
    destruct (Str.contains cw review); reflexivity.
  - simpl. exact Hex.
  - simpl. exact Hk.
  - simpl. rewrite Hrv. reflexivity.
Qed.

End LoopRuns.

Section WhileRuns.

Variable E : Env.
Variable self : DataInterpreter.
Hypothesis Hcoop : cooperative E.

Lemma while_loop_turn fuel mr ps ti uid l w :
  success l = false -> (counter l < mr)%Z ->
  while_loop E self (S fuel) mr ps ti uid l w
  = bind (loop_body E self mr ps ti uid l)
         (while_loop E self fuel mr ps ti uid) w.
Proof.
  intros Hs Hc. simpl. rewrite Hs. simpl.
  replace (counter l <? mr)%Z with true by (symmetry; apply Z.ltb_lt; exact Hc).
  reflexivity.
Qed.

Lemma while_loop_done fuel mr ps ti uid l w :
  success l = true \/ (mr <= counter l)%Z ->
  while_loop E self fuel mr ps ti uid l w = (Ok l, w).
Proof.
  intros H.
  assert (Hc : negb (success l) && (counter l <? mr)%Z = false).
  { destruct H as [-> | H]; [reflexivity|].
    apply andb_false_intro2. apply Z.ltb_ge. exact H. }
  destruct fuel; simpl; rewrite Hc; reflexivity.
Qed.

Lemma with_events_pushes_trace evs ms w :
  trace (with_events evs (pushes ms w)) = evs ++ trace w.
Proof. reflexivity. Qed.

(** [N] failures, then a success, with retries to spare. *)
Lemma while_loop_succeeds mr ps ti uid a :
  forall N fuel l w,
    todo w = Some a -> memory w <> [] ->
    success l = false ->
    (counter l + Z.of_nat N < mr)%Z ->
    N < fuel ->
    (forall i, i < N ->
               execution_flag E (calls KExecute (trace w) + i) false) ->
    execution_flag E (calls KExecute (trace w) + N) true ->
    exists c0 r0 evs ms,
      while_loop E self fuel mr ps ti uid l w
      = (Ok (mkLocals (counter l + Z.of_nat N + 1) true (Some c0) (Some r0)),
         with_events evs (pushes (ms ++ exchange (Some a) (c0, r0, true)) w))
      /\ calls KExecute evs = N + 1
      /\ calls KReview evs = 0
      /\ hd_error (executions evs) = Some (c0, r0, true)
      /\ List.length ms = 2 * N.
Proof.
  induction N as [|N IH]; intros fuel l w Ha Hmem Hs Hc Hfuel Hfail Hok;
    destruct fuel as [|fuel]; try lia.
  - rewrite Nat.add_0_r in Hok.
    destruct (loop_body_run E self Hcoop mr ps ti uid l w a true Ha Hmem Hok
                (or_introl eq_refl))
      as (c0 & r0 & evs & Hrun & Hex & Hk & Hrv).
    exists c0, r0, evs, [].
    rewrite while_loop_turn by (assumption || lia).
    rewrite (bind_Ok _ _ _ _ _ Hrun).
    rewrite while_loop_done by (left; reflexivity).
    rewrite Hex, Hk, Hrv. simpl. rewrite Z.add_0_r. repeat split.
  - assert (H0 : execution_flag E (calls KExecute (trace w)) false).
    { rewrite <- (Nat.add_0_r (calls _ _)). apply Hfail. lia. }
    destruct (loop_body_run E self Hcoop mr ps ti uid l w a false Ha Hmem H0)
      as (c0 & r0 & evs & Hrun & Hex & Hk & Hrv); [right; lia|].
    rewrite while_loop_turn by (assumption || lia).
    rewrite (bind_Ok _ _ _ _ _ Hrun).
    destruct (IH fuel (mkLocals (counter l + 1) false (Some c0) (Some r0))
                (with_events evs (pushes (exchange (Some a) (c0, r0, false)) w)))
      as (c1 & r1 & evs' & ms & Hrun' & Hk' & Hrv' & Hhd & Hlen).
    + exact Ha.
    + exact Hmem.
    + reflexivity.
    + simpl counter. lia.
    + lia.
    + intros i Hi. rewrite with_events_pushes_trace, calls_app, Hk.
      replace (1 + calls KExecute (trace w) + i)
        with (calls KExecute (trace w) + S i) by lia.
      apply Hfail. lia.
    + rewrite with_events_pushes_trace, calls_app, Hk.
      replace (1 + calls KExecute (trace w) + N)
        with (calls KExecute (trace w) + S N) by lia.
      exact Hok.
    + exists c1, r1, (evs' ++ evs), (exchange (Some a) (c0, r0, false) ++ ms).
      rewrite Hrun'. simpl counter.
      split; [|split; [|split; [|split]]].
      * f_equal.
        { f_equal. f_equal. lia. }
        { unfold with_events, pushes. simpl. rewrite <- !app_assoc. reflexivity. }
      * rewrite calls_app, Hk, Hk'. lia.
      * rewrite calls_app, Hrv, Hrv'. reflexivity.
      * rewrite executions_app. destruct (executions evs'); [discriminate|exact Hhd].
      * rewrite List.length_app, Hlen. simpl. lia.
Qed.

(** [k + 1] attempts are left, all fail, and the reviewer's answer does
    not hold [CHANGE_WORDS[0]]. *)
Lemma while_loop_exhausts mr ps ti uid a review b cw cws :
  CHANGE_WORDS E = cw :: cws ->
  Str.contains cw review = false ->
  forall k fuel l w,
    todo w = Some a -> memory w <> [] ->
    success l = false ->
    (counter l + Z.of_nat k + 1 = mr)%Z ->
    k < fuel ->
    (forall i, i <= k ->
               execution_flag E (calls KExecute (trace w) + i) false) ->
    planner_ask_review E (calls KReview (trace w)) false (CODE_REVIEW_TRIGGER E)
    = Returns (review, b) ->
    exists c0 r0 evs ms,
      while_loop E self fuel mr ps ti uid l w
      = (Ok (mkLocals mr false (Some c0) (Some r0)),
         with_events evs (pushes (ms ++ exchange (Some a) (c0, r0, false)) w))
      /\ calls KExecute evs = k + 1
      /\ calls KReview evs = 1
      /\ hd_error (executions evs) = Some (c0, r0, false)
      /\ List.length ms = 2 * k.
Proof.
  intros Hcw Hno.
  induction k as [|k IH]; intros fuel l w Ha Hmem Hs Hc Hfuel Hfail Hrev;
    destruct fuel as [|fuel]; try lia.
  - assert (H0 : execution_flag E (calls KExecute (trace w)) false).
    { rewrite <- (Nat.add_0_r (calls _ _)). apply Hfail. lia. }
    destruct (loop_body_review E self Hcoop mr ps ti uid l w a review b cw cws
                Ha Hmem H0) as (c0 & r0 & evs & Hrun & Hex & Hk & Hrv);
      [lia | exact Hrev | exact Hcw |].
    rewrite Hno in Hrun.
    exists c0, r0, evs, [].
    rewrite while_loop_turn by (assumption || lia).
    rewrite (bind_Ok _ _ _ _ _ Hrun).
    rewrite while_loop_done by (right; simpl; lia).
    rewrite Hex, Hk, Hrv. simpl.
    replace (counter l + 1)%Z with mr by lia. repeat split.
  - assert (H0 : execution_flag E (calls KExecute (trace w)) false).
    { rewrite <- (Nat.add_0_r (calls _ _)). apply Hfail. lia. }
    destruct (loop_body_run E self Hcoop mr ps ti uid l w a false Ha Hmem H0)
      as (c0 & r0 & evs & Hrun & Hex & Hk & Hrv); [right; lia|].
    rewrite while_loop_turn by (assumption || lia).
    rewrite (bind_Ok _ _ _ _ _ Hrun).
    destruct (IH fuel (mkLocals (counter l + 1) false (Some c0) (Some r0))
                (with_events evs (pushes (exchange (Some a) (c0, r0, false)) w)))
      as (c1 & r1 & evs' & ms & Hrun' & Hk' & Hrv' & Hhd & Hlen).
    + exact Ha.
    + exact Hmem.
    + reflexivity.
    + simpl counter. lia.
    + lia.
    + intros i Hi. rewrite with_events_pushes_trace, calls_app, Hk.
      replace (1 + calls KExecute (trace w) + i)
        with (calls KExecute (trace w) + S i) by lia.
      apply Hfail. lia.
    + rewrite with_events_pushes_trace, calls_app, Hrv. exact Hrev.
    + exists c1, r1, (evs' ++ evs), (exchange (Some a) (c0, r0, false) ++ ms).
      rewrite Hrun'.
      split; [|split; [|split; [|split]]].
      * f_equal. unfold with_events, pushes. simpl.
        rewrite <- !app_assoc. reflexivity.
      * rewrite calls_app, Hk, Hk'. lia.
      * rewrite calls_app, Hrv, Hrv'. reflexivity.
      * rewrite executions_app. destruct (executions evs'); [discriminate|exact Hhd].
      * rewrite List.length_app, Hlen. simpl. lia.
Qed.

End WhileRuns.

(** ** The whole of [_write_and_exec_code] *)

Section Prelude.

Variable E : Env.
Variable self : DataInterpreter.

(** Lines 111-125, when they return: the plan status and the tool
    information are asked for, and the data check makes at most one call
    to the execution backend and appends at most one message. *)
Lemma prelude_Ok w ps ti w0 :
  prelude E self w = (Ok (ps, ti), w0) ->
  exists evs ms,
    w0 = with_events evs (pushes ms w)
    /\ calls KReview evs = 0
    /\ calls KTodoRun evs = 0
    /\ calls KExecute evs <= 1
    /\ (~ check_triggered E self (plan w) -> calls KExecute evs = 0).
Proof.
  unfold prelude. intros H.
  apply bind_Ok_inv in H as (ps0 & w1 & H1 & H).
  apply (quiet_Ok [KPlanStatus]) in H1 as (e1 & -> & Ho1);
    [|destruct (use_plan self); prove_quiet].
  apply bind_Ok_inv in H as (ti0 & w2 & H2 & H).
  apply (quiet_Ok [KToolInfo]) in H2 as (e2 & -> & Ho2);
    [|destruct (tool_recommender self); prove_quiet].
  apply bind_Ok_inv in H as ([] & w3 & H3 & H).
  unfold ret in H. injection H as _ _ <-.
  rewrite with_events_app in H3.
  assert (Hq : forall k, existsb (kind_eqb k) [KPlanStatus; KToolInfo] = false ->
                         calls k (e2 ++ e1) = 0).
  { intros k Hk. apply (only_calls [KPlanStatus; KToolInfo]); [|exact Hk].
    apply only_app; [revert Ho2 | revert Ho1]; apply only_mono;
      intros k'; destruct k'; simpl; congruence. }
  pose proof (check_data_cases E self (with_events (e2 ++ e1) w)) as Hc.
  rewrite H3 in Hc. simpl plan in Hc.
  inversion Hc as [Hn | Hn | e Ht | c0 Ht Hb | c0 e Ht Hb | c0 x0 Ht Hb | c0 x0 Ht Hb];
    subst.
  - exists (e2 ++ e1), []. rewrite pushes_nil.
    rewrite !Hq by reflexivity. repeat split; lia.
  - exists ([EvCheckData (plan w) (Returns c0)] ++ e2 ++ e1), [].
    rewrite pushes_nil, with_events_app.
    split; [reflexivity|]. simpl. rewrite !Hq by reflexivity.
    repeat split; lia.
  - exists ([EvExecute c0 (Returns (x0, false));
             EvCheckData (plan w) (Returns c0)] ++ e2 ++ e1), [].
    rewrite pushes_nil, with_events_app.
    split; [reflexivity|]. simpl. rewrite !Hq by reflexivity.
    repeat split; try lia. intros Hn. contradiction.
  - exists ([EvExecute c0 (Returns (x0, true));
             EvCheckData (plan w) (Returns c0)] ++ e2 ++ e1),
      [data_info_message x0].
    split.
    { unfold with_events, push, pushes. simpl. rewrite <- app_assoc. reflexivity. }
    simpl. rewrite !Hq by reflexivity.
    repeat split; try lia. intros Hn. contradiction.
Qed.

End Prelude.

Lemma demo_cooperative kernel review inspection :
  cooperative (Demo.env kernel Demo.quiet_sink review inspection).
Proof.
  constructor; intros; try reflexivity. eexists. reflexivity.
Qed.

(** C1, amended.  In a cooperative environment, let the lines before the
    loop return and let the execution backend fail [N] times in a row and
    then succeed, with [N < max_retry].  Then [_write_and_exec_code]
    returns [(code, result, True)], where [code] and [result] are those of
    the last call to the execution backend; its loop made exactly [N + 1]
    calls to the backend and stopped there; the reviewer was not asked.
    Over the whole function the backend was called [N + 1] times, and once
    more when the data check that precedes the loop ran its inspection
    code: never when that check is not triggered. *)
Theorem write_and_exec_code_succeeds_after_failures :
  forall (E : Env) (self : DataInterpreter) (fuel : nat) (max_retry : Z)
         (user_id : str) (w w0 : World) (a : Action) (ps ti : str) (N : nat),
    cooperative E ->
    todo w = Some a -> memory w <> [] ->
    prelude E self w = (Ok (ps, ti), w0) ->
    (Z.of_nat N < max_retry)%Z -> N < fuel ->
    (forall i, i < N ->
               execution_flag E (calls KExecute (trace w0) + i) false) ->
    execution_flag E (calls KExecute (trace w0) + N) true ->
    exists code result w',
      _write_and_exec_code E self fuel max_retry user_id w
      = (Ok (code, result, true), w')
      /\ calls KExecute (during w0 w') = N + 1
      /\ calls KExecute (during w w') = calls KExecute (during w w0) + N + 1
      /\ calls KExecute (during w w0) <= 1
      /\ (~ check_triggered E self (plan w) ->
          calls KExecute (during w w') = N + 1)
      /\ calls KReview (during w w') = 0
      /\ hd_error (executions (trace w')) = Some (code, result, true)
      /\ exists before,
           working_memory w' = before ++ exchange (Some a) (code, result, true).
Proof.
  intros E self fuel mr uid w w0 a ps ti N Hcoop Ha Hmem Hpre HN Hfuel Hfail Hok.
  destruct (prelude_Ok E self w ps ti w0 Hpre)
    as (evs0 & ms0 & -> & Hrv0 & _ & Hk0 & Hnt).
  destruct (while_loop_succeeds E self Hcoop mr ps ti uid a N fuel
              (mkLocals 0 false None None) (with_events evs0 (pushes ms0 w))
              Ha Hmem eq_refl HN Hfuel Hfail Hok)
    as (c0 & r0 & evs & ms & Hrun & Hk & Hrv & Hhd & _).
  set (w0 := with_events evs0 (pushes ms0 w)) in *.
  set (w' := with_events evs
               (pushes (ms ++ exchange (Some a) (c0, r0, true)) w0)) in *.
  exists c0, r0, w'.
  split.
  { unfold _write_and_exec_code. rewrite (bind_Ok _ _ _ _ _ Hpre).
    rewrite (bind_Ok _ _ _ _ _ Hrun). reflexivity. }
  assert (H1 : during w0 w' = evs) by (apply during_with_events; reflexivity).
  assert (H2 : during w w' = evs ++ evs0)
    by (apply during_with_events; simpl; apply app_assoc).
  assert (H3 : during w w0 = evs0) by (apply during_with_events; reflexivity).
  rewrite H1, H2, H3.
  rewrite !calls_app, Hk, Hrv, Hrv0.
  split; [reflexivity|]. split; [lia|]. split; [exact Hk0|].
  split; [intros Hn; rewrite (Hnt Hn); lia|]. split; [reflexivity|].
  split.
  - simpl trace. rewrite executions_app.
    destruct (executions evs); [discriminate | exact Hhd].
  - exists ((working_memory w ++ ms0) ++ ms). simpl.
    rewrite <- !app_assoc. reflexivity.
Qed.

(** A run of C1: nothing is finished yet, the first execution fails and the
    second succeeds. *)
Lemma write_and_exec_code_succeeds_after_failures_witness :
  let E := Demo.env (Demo.fails_then_succeeds 1) Demo.quiet_sink (py "no")
                    (py "df.info()") in
  let w := Demo.start Demo.first_plan in
  let w0 := snd (prelude E Demo.planning w) in
  exists code result w',
    _write_and_exec_code E Demo.planning 5 3 (py "u") w
    = (Ok (code, result, true), w')
    /\ calls KExecute (during w0 w') = 1 + 1
    /\ calls KExecute (during w w') = calls KExecute (during w w0) + 1 + 1
    /\ calls KExecute (during w w0) <= 1
    /\ (~ check_triggered E Demo.planning (plan w) ->
        calls KExecute (during w w') = 1 + 1)
    /\ calls KReview (during w w') = 0
    /\ hd_error (executions (trace w')) = Some (code, result, true)
    /\ exists before,
         working_memory w'
         = before ++ exchange (Some WriteAnalysisCode) (code, result, true).
Proof.
  intros E w w0.
  apply (write_and_exec_code_succeeds_after_failures E Demo.planning 5 3
           (py "u") w w0 WriteAnalysisCode (py "plan status") [] 1).
  - apply demo_cooperative.
  - reflexivity.
  - discriminate.
  - reflexivity.
  - lia.
  - lia.
  - intros i Hi code. exists (py "NameError").
    destruct i as [|i]; [reflexivity | lia].
  - intros code. exists (py "ok"). reflexivity.
Defined.

(** C1 as stated fails when the data check runs: nothing fails ([N = 0]),
    the execution backend succeeds at every call, and yet
    [_write_and_exec_code] calls it twice, once for the inspection code and
    once for the attempt. *)
Lemma write_and_exec_code_counts_the_data_check :
  let E := Demo.env (Demo.fails_then_succeeds 0) Demo.quiet_sink (py "no")
                    (py "df.info()") in
  let w := Demo.start Demo.preprocess_plan in
  let run := _write_and_exec_code E Demo.planning 5 3 (py "u") w in
  (forall n code, execute_code_run E n code = Returns (py "ok", true))
  /\ fst run = Ok (py "attempt_0", py "ok", true)
  /\ calls KExecute (during w (snd run)) = 2
  /\ calls KExecute (during w (snd run)) <> 0 + 1.
Proof.
  intros E w run. split; [intros n code; reflexivity|].
  vm_compute. split; [reflexivity|]. split; [reflexivity | discriminate].
Qed.

(** C2, amended.  In a cooperative environment, let the lines before the
    loop return, let [max_retry] be positive, let the execution backend
    fail at each of the [max_retry] calls the loop makes, and let the
    reviewer's answer not hold [CHANGE_WORDS[0]].  Then
    [_write_and_exec_code] returns [(code, result, False)], where [code]
    and [result] are those of the last call to the execution backend; its
    loop made exactly [max_retry] calls to the backend and the reviewer was
    asked exactly once.  Over the whole function the backend was called
    [max_retry] times, and once more when the data check that precedes the
    loop ran its inspection code: never when that check is not triggered. *)
Theorem write_and_exec_code_gives_up_after_max_retry :
  forall (E : Env) (self : DataInterpreter) (fuel : nat) (max_retry : Z)
         (user_id : str) (w w0 : World) (a : Action) (ps ti : str)
         (review : str) (confirmed : bool) (cw : str) (cws : list str),
    cooperative E ->
    todo w = Some a -> memory w <> [] ->
    prelude E self w = (Ok (ps, ti), w0) ->
    (0 < max_retry)%Z -> Z.to_nat max_retry <= fuel ->
    (forall i, i < Z.to_nat max_retry ->
               execution_flag E (calls KExecute (trace w0) + i) false) ->
    planner_ask_review E (calls KReview (trace w)) false (CODE_REVIEW_TRIGGER E)
    = Returns (review, confirmed) ->
    CHANGE_WORDS E = cw :: cws ->
    Str.contains cw review = false ->
    exists code result w',
      _write_and_exec_code E self fuel max_retry user_id w
      = (Ok (code, result, false), w')
      /\ calls KExecute (during w0 w') = Z.to_nat max_retry
      /\ calls KExecute (during w w')
         = calls KExecute (during w w0) + Z.to_nat max_retry
      /\ calls KExecute (during w w0) <= 1
      /\ (~ check_triggered E self (plan w) ->
          calls KExecute (during w w') = Z.to_nat max_retry)
      /\ calls KReview (during w w') = 1
      /\ hd_error (executions (trace w')) = Some (code, result, false)
      /\ exists before,
           working_memory w' = before ++ exchange (Some a) (code, result, false).
Proof.
  intros E self fuel mr uid w w0 a ps ti review b cw cws Hcoop Ha Hmem Hpre Hmr
    Hfuel Hfail Hrev Hcw Hno.
  destruct (prelude_Ok E self w ps ti w0 Hpre)
    as (evs0 & ms0 & -> & Hrv0 & _ & Hk0 & Hnt).
  set (w0 := with_events evs0 (pushes ms0 w)) in *.
  destruct (while_loop_exhausts E self Hcoop mr ps ti uid a review b cw cws
              Hcw Hno (Z.to_nat mr - 1) fuel (mkLocals 0 false None None) w0)
    as (c0 & r0 & evs & ms & Hrun & Hk & Hrv & Hhd & _).
  { exact Ha. }
  { exact Hmem. }
  { reflexivity. }
  { simpl counter. lia. }
  { lia. }
  { intros i Hi. apply Hfail. lia. }
  { subst w0. rewrite with_events_pushes_trace, calls_app, Hrv0. exact Hrev. }
  set (w' := with_events evs
               (pushes (ms ++ exchange (Some a) (c0, r0, false)) w0)) in *.
  exists c0, r0, w'.
  split.
  { unfold _write_and_exec_code. rewrite (bind_Ok _ _ _ _ _ Hpre).
    rewrite (bind_Ok _ _ _ _ _ Hrun). reflexivity. }
  assert (H1 : during w0 w' = evs) by (apply during_with_events; reflexivity).
  assert (H2 : during w w' = evs ++ evs0)
    by (apply during_with_events; simpl; apply app_assoc).
  assert (H3 : during w w0 = evs0) by (apply during_with_events; reflexivity).
  rewrite H1, H2, H3.
  rewrite !calls_app, Hk, Hrv, Hrv0.
  split; [lia|]. split; [lia|]. split; [exact Hk0|].
  split; [intros Hn; rewrite (Hnt Hn); lia|]. split; [reflexivity|].
  split.
  - simpl trace. rewrite executions_app.
    destruct (executions evs); [discriminate | exact Hhd].
  - exists ((working_memory w ++ ms0) ++ ms). simpl.
    rewrite <- !app_assoc. reflexivity.
Qed.

(** A run of C2: nothing is finished yet, every execution fails and the
    reviewer answers "no". *)
Lemma write_and_exec_code_gives_up_after_max_retry_witness :
  let E := Demo.env Demo.always_fails Demo.quiet_sink (py "no")
                    (py "df.info()") in
  let w := Demo.start Demo.first_plan in
  let w0 := snd (prelude E Demo.planning w) in
  exists code result w',
    _write_and_exec_code E Demo.planning 5 3 (py "u") w
    = (Ok (code, result, false), w')
    /\ calls KExecute (during w0 w') = Z.to_nat 3
    /\ calls KExecute (during w w') = calls KExecute (during w w0) + Z.to_nat 3
    /\ calls KExecute (during w w0) <= 1
    /\ (~ check_triggered E Demo.planning (plan w) ->
        calls KExecute (during w w') = Z.to_nat 3)
    /\ calls KReview (during w w') = 1
    /\ hd_error (executions (trace w')) = Some (code, result, false)
    /\ exists before,
         working_memory w'
         = before ++ exchange (Some WriteAnalysisCode) (code, result, false).
Proof.
  intros E w w0.
  apply (write_and_exec_code_gives_up_after_max_retry E Demo.planning 5 3
           (py "u") w w0 WriteAnalysisCode (py "plan status") [] (py "no")
           false (py "change") []).
  - apply demo_cooperative.
  - reflexivity.
  - discriminate.
  - reflexivity.
  - lia.
  - vm_compute. lia.
  - intros i Hi code. exists (py "NameError"). reflexivity.
  - reflexivity.
  - reflexivity.
  - reflexivity.
Defined.

(** C2 as stated fails when the data check runs: with [max_retry = 3],
    an execution backend that always fails and a reviewer who answers "no",
    [_write_and_exec_code] returns a failure after one review, but has
    called the backend four times: once for the inspection code and three
    times for the attempts. *)
Lemma write_and_exec_code_exhaustion_counts_the_data_check :
  let E := Demo.env Demo.always_fails Demo.quiet_sink (py "no")
                    (py "df.info()") in
  let w := Demo.start Demo.preprocess_plan in
  let run := _write_and_exec_code E Demo.planning 5 3 (py "u") w in
  (forall n code, execute_code_run E n code = Returns (py "NameError", false))
  /\ Str.contains (py "change") (py "no") = false
  /\ fst run = Ok (py "attempt_2", py "NameError", false)
  /\ calls KReview (during w (snd run)) = 1
  /\ calls KExecute (during w (snd run)) = 4
  /\ calls KExecute (during w (snd run)) <> Z.to_nat 3.
Proof.
  intros E w run. split; [intros n code; reflexivity|].
  vm_compute. repeat split; discriminate.
Qed.

(** ** The human review *)

(** C8. Take the turn of the loop that exhausts the retries: the counter
    is one short of [max_retry], the execution fails, and the reviewer
    answers [review].  The reviewer is asked once.  When [review] holds
    [CHANGE_WORDS[0]], the turn ends with the counter at 0 and the loop
    takes one more turn from there, with the counter at 0.  For any other
    answer the loop ends with [success = False] and the function returns
    the code and the result of this last attempt, with [False].  The test
    is on [CHANGE_WORDS[0]]: it is the test for a word of [CHANGE_WORDS]
    when the list has one word. *)
Theorem review_resets_the_counter_or_ends_the_task :
  forall (E : Env) (self : DataInterpreter) (fuel : nat) (max_retry : Z)
         (ps ti user_id : str) (l : Locals) (w : World) (a : Action)
         (review : str) (confirmed : bool) (cw : str) (cws : list str),
    cooperative E ->
    todo w = Some a -> memory w <> [] ->
    success l = false ->
    (0 <= counter l < max_retry)%Z -> (max_retry <= counter l + 1)%Z ->
    execution_flag E (calls KExecute (trace w)) false ->
    planner_ask_review E (calls KReview (trace w)) false (CODE_REVIEW_TRIGGER E)
    = Returns (review, confirmed) ->
    CHANGE_WORDS E = cw :: cws ->
    exists code result w1,
      calls KReview (during w w1) = 1
      /\ calls KExecute (during w w1) = 1
      /\ hd_error (executions (trace w1)) = Some (code, result, false)
      /\ (Str.contains cw review = true ->
          loop_body E self max_retry ps ti user_id l w
          = (Ok (mkLocals 0 false (Some code) (Some result)), w1)
          /\ while_loop E self (S (S fuel)) max_retry ps ti user_id l w
             = bind (loop_body E self max_retry ps ti user_id
                               (mkLocals 0 false (Some code) (Some result)))
                    (while_loop E self fuel max_retry ps ti user_id) w1)
      /\ (Str.contains cw review = false ->
          while_loop E self (S fuel) max_retry ps ti user_id l w
          = (Ok (mkLocals (counter l + 1) false (Some code) (Some result)), w1)
          /\ return_locals (mkLocals (counter l + 1) false (Some code)
                                     (Some result)) w1
             = (Ok (code, result, false), w1))
      /\ (cws = [] -> holds_change_word E review = Str.contains cw review).
Proof.
  intros E self fuel mr ps ti uid l w a review b cw cws Hcoop Ha Hmem Hs Hc Hge
    Hfail Hrev Hcw.
  destruct (loop_body_review E self Hcoop mr ps ti uid l w a review b cw cws
              Ha Hmem Hfail Hge Hrev Hcw)
    as (c0 & r0 & evs & Hrun & Hex & Hk & Hrv).
  set (w1 := with_events evs (pushes (exchange (Some a) (c0, r0, false)) w)) in *.
  exists c0, r0, w1.
  assert (Hd : during w w1 = evs) by (apply during_with_events; reflexivity).
  rewrite Hd, Hk, Hrv.
  split; [reflexivity|]. split; [reflexivity|]. split.
  { simpl trace. rewrite executions_app, Hex. reflexivity. }
  split; [|split].
  - intros Hyes. rewrite Hyes in Hrun. split; [exact Hrun|].
    rewrite while_loop_turn by (assumption || lia).
    rewrite (bind_Ok _ _ _ _ _ Hrun).
    apply while_loop_turn; simpl; [reflexivity | lia].
  - intros Hno. rewrite Hno in Hrun. split; [|reflexivity].
    rewrite while_loop_turn by (assumption || lia).
    rewrite (bind_Ok _ _ _ _ _ Hrun).
    apply while_loop_done. right. simpl. lia.
  - intros ->. unfold holds_change_word. rewrite Hcw. simpl.
    apply orb_false_r.
Qed.

(** A run of C8: the third attempt fails and the reviewer asks for a
    change. *)
Lemma review_resets_the_counter_or_ends_the_task_witness :
  let E := Demo.env Demo.always_fails Demo.quiet_sink (py "please change it")
                    (py "df.info()") in
  let w := Demo.start Demo.first_plan in
  let l := mkLocals 2 false None None in
  exists code result w1,
    calls KReview (during w w1) = 1
    /\ calls KExecute (during w w1) = 1
    /\ hd_error (executions (trace w1)) = Some (code, result, false)
    /\ (Str.contains (py "change") (py "please change it") = true ->
        loop_body E Demo.planning 3 [] [] (py "u") l w
        = (Ok (mkLocals 0 false (Some code) (Some result)), w1)
        /\ while_loop E Demo.planning 2 3 [] [] (py "u") l w
           = bind (loop_body E Demo.planning 3 [] [] (py "u")
                             (mkLocals 0 false (Some code) (Some result)))
                  (while_loop E Demo.planning 0 3 [] [] (py "u")) w1)
    /\ (Str.contains (py "change") (py "please change it") = false ->
        while_loop E Demo.planning 1 3 [] [] (py "u") l w
        = (Ok (mkLocals (counter l + 1) false (Some code) (Some result)), w1)
        /\ return_locals (mkLocals (counter l + 1) false (Some code)
                                   (Some result)) w1
           = (Ok (code, result, false), w1))
    /\ (@nil str = [] -> holds_change_word E (py "please change it")
                   = Str.contains (py "change") (py "please change it")).
Proof.
  intros E w l.
  apply (review_resets_the_counter_or_ends_the_task E Demo.planning 0 3 [] []
           (py "u") l w WriteAnalysisCode (py "please change it") false
           (py "change") []).
  - apply demo_cooperative.
  - reflexivity.
  - discriminate.
  - reflexivity.
  - simpl. lia.
  - simpl. lia.
  - intros code. exists (py "NameError"). reflexivity.
  - reflexivity.
  - reflexivity.
Defined.

(** ** Reflection *)

Lemma only_all_kinds evs : only all_kinds evs.
Proof.
  induction evs as [|ev evs IH]; constructor; [|exact IH].
  destruct ev; reflexivity.
Qed.

Section Reflection.

Variable E : Env.
Variable self : DataInterpreter.

Ltac emits_leaf :=
  first
    [ apply emits_working_memory_add
    | apply quiet_emits; solve [prove_quiet]
    | apply quiet_emits; eapply quiet_mono;
      [|apply quiet_extract_and_log_images];
      intros k; destruct k; simpl; congruence
    | apply quiet_emits; eapply quiet_mono;
      [|apply quiet_review_step];
      intros k; destruct k; simpl; congruence ].

Ltac emits_steps :=
  repeat first [ emits_leaf | apply emits_bind; intros | step_match ].

(** A turn of the loop makes at most one request to the generator, with
    the flag of line 193, and makes one when it returns. *)
Lemma loop_body_requests mr ps ti uid l w :
  exists evs,
    trace (snd (loop_body E self mr ps ti uid l w)) = evs ++ trace w
    /\ Forall (fun req => req_use_reflection req
                          = ((0 <? counter l)%Z && use_reflection self))
              (requests evs)
    /\ List.length (requests evs) <= 1
    /\ (forall l', fst (loop_body E self mr ps ti uid l w) = Ok l' ->
                   requests evs <> []).
Proof.
  destruct (write_code_cases E self (counter l) ps ti uid w)
    as [[e He] | (a & m & Ha & Hrun)].
  - assert (Hat : attempt E self (counter l) ps ti uid w = (Exc e, w))
      by (unfold attempt; apply bind_Exc; exact He).
    exists []. unfold loop_body. rewrite (bind_Exc _ _ _ _ _ Hat).
    split; [reflexivity|]. split; [constructor|]. split; [simpl; lia|].
    intros l' H. discriminate.
  - simpl in Hrun.
    set (req := mkWriteReq (content m) ps ti (working_memory w)
                           ((0 <? counter l)%Z && use_reflection self) uid) in *.
    set (resp := todo_run E (calls KTodoRun (trace w)) a req) in *.
    unfold loop_body.
    match goal with
    | |- context [bind (attempt E self ?c ps ti uid) ?k w] =>
        destruct (bind_trace [KReview] (attempt E self c ps ti uid) k w)
          as (evs3 & H3 & Ho3 & _)
    end.
    { intros [[c0 r0] s0]. emits_steps. }
    rewrite H3. unfold attempt.
    match goal with
    | |- context [bind (_write_code E self ?c ps ti uid) ?k w] =>
        destruct (bind_trace [KLog; KExecute; KExists; KRead]
                    (_write_code E self c ps ti uid) k w)
          as (evs2 & H2 & Ho2 & _)
    end.
    { intros [c0 a0]. emits_steps. }
    rewrite H2, Hrun. simpl trace.
    exists (evs3 ++ evs2 ++ [EvTodoRun a req resp]).
    rewrite <- !app_assoc. split; [reflexivity|].
    rewrite !requests_app, (only_requests _ _ Ho3 eq_refl),
      (only_requests _ _ Ho2 eq_refl). simpl.
    split; [constructor; [reflexivity | constructor]|].
    split; [simpl; lia | discriminate].
Qed.

(** Lines 191-204: [_write_code] raises before any call when [rc.todo]
    or the role memory is empty, and otherwise calls the generator once,
    with the request of line 197. *)
Lemma write_code_exact (c : Z) (ps ti uid : str) (w : World) :
  _write_code E self c ps ti uid w
  = match todo w, rev (memory w) with
    | None, _ => (Exc AttributeError, w)
    | Some _, [] => (Exc IndexError, w)
    | Some a, m :: _ =>
        let req := mkWriteReq (content m) ps ti (working_memory w)
                              ((0 <? c)%Z && use_reflection self) uid in
        let resp := todo_run E (calls KTodoRun (trace w)) a req in
        (match resp with
         | Returns code => Ok (code, a)
         | Raises e => Exc e
         end, with_events [EvTodoRun a req resp] w)
    end.
Proof.
  unfold _write_code, bind, get, get_memories, last_item, working_memory_get,
    run_todo, call, emit.
  destruct (todo w) as [a|]; simpl; [|reflexivity].
  destruct (rev (memory w)) as [|m ms]; simpl; [reflexivity|].
  destruct (todo_run E _ a _); reflexivity.
Qed.

(** The requests of one turn of the loop: none when [_write_code] raises
    before its call, and otherwise the one of line 197, whatever follows
    in the turn. *)
Lemma loop_body_asks mr ps ti uid l w :
  requests (during w (snd (loop_body E self mr ps ti uid l w)))
  = match todo w, rev (memory w) with
    | Some a, m :: _ =>
        [mkWriteReq (content m) ps ti (working_memory w)
                    ((0 <? counter l)%Z && use_reflection self) uid]
    | _, _ => []
    end.
Proof.
  pose proof (write_code_exact (counter l) ps ti uid w) as Hrun.
  assert (Hnone : forall e,
             _write_code E self (counter l) ps ti uid w = (Exc e, w) ->
             requests (during w (snd (loop_body E self mr ps ti uid l w)))
             = []).
  { intros e He.
    assert (Hat : attempt E self (counter l) ps ti uid w = (Exc e, w))
      by (unfold attempt; apply bind_Exc; exact He).
    unfold loop_body. rewrite (bind_Exc _ _ _ _ _ Hat). cbn [snd].
    rewrite (during_with_events [] w w eq_refl). reflexivity. }
  destruct (todo w) as [a|]; [|exact (Hnone _ Hrun)].
  destruct (rev (memory w)) as [|m ms]; [exact (Hnone _ Hrun)|].
  cbv zeta in Hrun.
  set (req := mkWriteReq (content m) ps ti (working_memory w)
                         ((0 <? counter l)%Z && use_reflection self) uid) in *.
  set (resp := todo_run E (calls KTodoRun (trace w)) a req) in *.
  unfold loop_body.
  match goal with
  | |- context [bind (attempt E self ?c ps ti uid) ?k w] =>
      destruct (bind_trace [KReview] (attempt E self c ps ti uid) k w)
        as (evs3 & H3 & Ho3 & _)
  end.
  { intros [[c0 r0] s0]. emits_steps. }
  unfold attempt in H3.
  match type of H3 with
  | context [bind (_write_code E self ?c ps ti uid) ?k w] =>
      destruct (bind_trace [KLog; KExecute; KExists; KRead]
                  (_write_code E self c ps ti uid) k w)
        as (evs2 & H2 & Ho2 & _)
  end.
  { intros [c0 a0]. emits_steps. }
  rewrite H2, Hrun in H3. cbn [snd trace with_events] in H3.
  rewrite (during_with_events (evs3 ++ evs2 ++ [EvTodoRun a req resp]) w).
  - rewrite !requests_app, (only_requests _ _ Ho3 eq_refl),
      (only_requests _ _ Ho2 eq_refl). reflexivity.
  - unfold attempt. rewrite H3, <- !app_assoc. reflexivity.
Qed.

Lemma length_requests (tr : Trace) :
  List.length (requests tr) = calls KTodoRun tr.
Proof.
  induction tr as [|ev tr IH]; simpl; [reflexivity|].
  destruct ev; simpl; rewrite IH; reflexivity.
Qed.

Lemma emits_loop_body mr ps ti uid l :
  emits all_kinds (loop_body E self mr ps ti uid l).
Proof.
  intros w. destruct (loop_body_requests mr ps ti uid l w) as (evs & H & _).
  exists evs. split; [exact H | apply only_all_kinds].
Qed.

Lemma emits_while_loop fuel mr ps ti uid :
  forall l, emits all_kinds (while_loop E self fuel mr ps ti uid l).
Proof.
  induction fuel as [|fuel IH]; intros l; simpl;
    destruct (negb (success l) && (counter l <? mr)%Z).
  - intros w. exists []. split; [reflexivity | apply only_nil].
  - apply quiet_emits, quiet_ret.
  - apply emits_bind; [apply emits_loop_body | exact IH].
  - apply quiet_emits, quiet_ret.
Qed.

(** The oldest request of a run of the loop carries the flag of its first
    turn. *)
Lemma while_loop_first_request fuel mr ps ti uid l w :
  exists evs,
    trace (snd (while_loop E self fuel mr ps ti uid l w)) = evs ++ trace w
    /\ (first_request_flag evs = None
        \/ first_request_flag evs
           = Some ((0 <? counter l)%Z && use_reflection self)).
Proof.
  destruct fuel as [|fuel].
  { simpl. destruct (negb (success l) && (counter l <? mr)%Z);
      exists []; split; try reflexivity; left; reflexivity. }
  change (while_loop E self (S fuel) mr ps ti uid l)
    with (if negb (success l) && (counter l <? mr)%Z
          then bind (loop_body E self mr ps ti uid l)
                    (while_loop E self fuel mr ps ti uid)
          else ret l).
  destruct (negb (success l) && (counter l <? mr)%Z).
  2:{ exists []. split; [reflexivity | left; reflexivity]. }
  destruct (loop_body_requests mr ps ti uid l w)
    as (evs1 & H1 & Hflag & _ & Hne).
  destruct (bind_trace all_kinds (loop_body E self mr ps ti uid l)
              (while_loop E self fuel mr ps ti uid) w
              (emits_while_loop fuel mr ps ti uid))
    as (evs2 & H2 & _ & Hstop).
  exists (evs2 ++ evs1). rewrite H2, H1, app_assoc. split; [reflexivity|].
  unfold first_request_flag. rewrite requests_app, rev_app_distr.
  destruct (requests evs1) as [|r rs] eqn:Hreq.
  - left. rewrite Hstop; [reflexivity|].
    intros l' Hl'. exact (Hne l' Hl' eq_refl).
  - right.
    assert (Hall : Forall (fun req => req_use_reflection req
                             = ((0 <? counter l)%Z && use_reflection self))
                          (rev (r :: rs))).
    { apply Forall_forall. intros x Hx. apply in_rev in Hx.
      revert x Hx. apply Forall_forall. exact Hflag. }
    destruct (rev (r :: rs)) as [|x xs] eqn:Hrev.
    + apply rev_nil_inv in Hrev. discriminate.
    + simpl. inversion Hall as [|? ? Hx _]. rewrite Hx. reflexivity.
Qed.

Lemma emits_check_data :
  emits [KPlanStatus; KToolInfo; KCheckData; KExecute] (_check_data E self).
Proof.
  intros w.
  destruct (check_data_cases E self w); simpl snd;
    try (exists []; split; [reflexivity | apply only_nil]);
    (eexists; split; [reflexivity|]; repeat constructor).
Qed.

Lemma emits_prelude :
  emits [KPlanStatus; KToolInfo; KCheckData; KExecute] (prelude E self).
Proof.
  unfold prelude.
  apply emits_bind; [step_match; apply quiet_emits; prove_quiet|]. intros ps0.
  apply emits_bind; [step_match; apply quiet_emits; prove_quiet|]. intros ti0.
  apply emits_bind; [apply emits_check_data|]. intros _.
  apply quiet_emits, quiet_ret.
Qed.

End Reflection.

(** With reflection on, the second attempt is reflective and the first is
    not. *)
Example reflective_second_attempt :
  let E := Demo.env (Demo.fails_then_succeeds 1) Demo.quiet_sink (py "no")
                    (py "df.info()") in
  let self := mkDataInterpreter true true true false 10 in
  let w := Demo.start Demo.first_plan in
  map req_use_reflection
      (rev (requests (trace (snd (_write_and_exec_code E self 5 3 (py "u") w)))))
  = [false; true].
Proof. vm_compute. reflexivity. Qed.

(** ** Teardown of the session *)

(** C7, amended.  When the inherited plan-and-act loop raises an
    exception that is an instance of [Exception], [_plan_and_act] calls
    [terminate] on the execution backend, after everything the loop did,
    and then raises the same exception again (or the one [terminate]
    raised, if it failed itself). *)
Theorem plan_and_act_terminates_on_Exception :
  forall (E : Env) (super_plan_and_act : str -> M Message) (user_id : str)
         (w w1 : World) (e : PyExc),
    super_plan_and_act user_id w = (Exc e, w1) ->
    is_Exception e = true ->
    let answer := execute_code_terminate E (calls KTerminate (trace w1)) in
    _plan_and_act E super_plan_and_act user_id w
    = (Exc (match answer with
            | Returns _ => e
            | Raises e' => e'
            end),
       with_events [EvTerminate answer] w1)
    /\ calls KTerminate
         (trace (snd (_plan_and_act E super_plan_and_act user_id w)))
       = calls KTerminate (trace w1) + 1.
Proof.
  intros E super uid w w1 e Hsuper He answer.
  assert (Hrun : _plan_and_act E super uid w
                 = (Exc (match answer with
                         | Returns _ => e
                         | Raises e' => e'
                         end), with_events [EvTerminate answer] w1)).
  { unfold _plan_and_act, try_except. rewrite Hsuper, He.
    unfold bind, execute_terminate, call. fold answer.
    destruct answer; reflexivity. }
  split; [exact Hrun|]. rewrite Hrun. simpl. lia.
Qed.

(** A run of C7: the loop fails with a [ValueError] after one call to the
    execution backend. *)
Lemma plan_and_act_terminates_on_Exception_witness :
  let E := Demo.env Demo.always_fails Demo.quiet_sink (py "no")
                    (py "df.info()") in
  let super := fun (_ : str) (w : World) =>
                 (@Exc Message (External true "ValueError"),
                  emit (EvExecute (py "x") (Returns (py "boom", false))) w) in
  let w := Demo.start Demo.first_plan in
  _plan_and_act E super (py "u") w
  = (Exc (External true "ValueError"),
     with_events [EvTerminate (Returns tt);
                  EvExecute (py "x") (Returns (py "boom", false))] w)
  /\ calls KTerminate (trace (snd (_plan_and_act E super (py "u") w))) = 0 + 1.
Proof.
  intros E super w.
  exact (plan_and_act_terminates_on_Exception E super (py "u") w
           (emit (EvExecute (py "x") (Returns (py "boom", false))) w)
           (External true "ValueError") eq_refl eq_refl).
Defined.

(** C7 as stated fails for the exceptions that are not instances of
    [Exception]: a [KeyboardInterrupt] raised in the loop leaves
    [_plan_and_act] without any call to [terminate]. *)
Lemma plan_and_act_skips_teardown_on_BaseException :
  let E := Demo.env Demo.always_fails Demo.quiet_sink (py "no")
                    (py "df.info()") in
  let super := fun (_ : str) (w : World) =>
                 (@Exc Message (External false "KeyboardInterrupt"), w) in
  let w := Demo.start Demo.first_plan in
  super (py "u") w = (Exc (External false "KeyboardInterrupt"), w)
  /\ _plan_and_act E super (py "u") w
     = (Exc (External false "KeyboardInterrupt"), w)
  /\ calls KTerminate (trace (snd (_plan_and_act E super (py "u") w))) = 0.
Proof. intros E super w. repeat split. Qed.

(** ** Failures of the logging sink *)

Lemma startswith_app (p s : str) : Str.startswith p (p ++ s) = true.
Proof.
  induction p as [|c p IH]; simpl; [reflexivity|].
  rewrite N.eqb_refl. exact IH.
Qed.

Section ImageFailures.

Variable E : Env.
Variable uid : str.
Hypothesis Hsink : forall n text u, benign (log_sink E n text u) = true.
Hypothesis Hexists : forall n p, benign (path_exists E n p) = true.
Hypothesis Hread : forall n p, benign (read_b64 E n p) = true.
Hypothesis Hreports : reports_pass E.

Lemma failures_reported_calm p seg :
  Forall (fun ev => raised ev = None) seg -> failures_reported E p uid seg.
Proof.
  induction 1 as [|ev seg Hev _ IH]; simpl; [exact I|]. rewrite Hev. exact IH.
Qed.

Lemma failures_reported_one p calm ev e :
  Forall (fun ev => raised ev = None) calm -> raised ev = Some e ->
  failures_reported E p uid (calm ++ [ev; image_report E p uid e]).
Proof.
  intros Hcalm Hev. induction Hcalm as [|ev0 calm H0 _ IH]; simpl.
  - rewrite Hev. reflexivity.
  - rewrite H0. exact IH.
Qed.

Lemma image_handler_run p e w :
  image_handler E p uid e w = (Ok tt, with_events [image_report E p uid e] w).
Proof.
  unfold image_handler, log_execution, call, image_report, emit.
  rewrite Hreports by apply startswith_app. reflexivity.
Qed.

(** The body of [try] for one match: its calls, oldest first, start with
    the existence test; they all return, or the last one raises the
    [Exception] the body ends with. *)
Lemma image_body_run p w :
  exists seg,
    snd (image_body E p uid w) = with_events (rev seg) w
    /\ (exists r rest, seg = EvExists p r :: rest)
    /\ match fst (image_body E p uid w) with
       | Ok _ => Forall (fun ev => raised ev = None) seg
       | Exc e =>
           is_Exception e = true
           /\ exists calm ev,
                seg = calm ++ [ev]
                /\ Forall (fun ev => raised ev = None) calm
                /\ raised ev = Some e
       | OutOfFuel => False
       end.
Proof.
  unfold image_body, exists_, read_image, log_execution, call, bind, emit.
  repeat match goal with
         | |- context [path_exists E ?n p] =>
             let B := fresh "B" in
             pose proof (Hexists n p) as B;
             destruct (path_exists E n p) as [[|]|?e]; cbn [fst snd benign] in *
         | |- context [read_b64 E ?n p] =>
             let B := fresh "B" in
             pose proof (Hread n p) as B;
             destruct (read_b64 E n p) as [?data|?e]; cbn [fst snd benign] in *
         | |- context [log_sink E ?n ?t uid] =>
             let B := fresh "B" in
             pose proof (Hsink n t uid) as B;
             destruct (log_sink E n t uid) as [[]|?e]; cbn [fst snd benign] in *
         end.
  all: rewrite ?with_events_app; cbn [app].
  all: match goal with
       | |- exists seg, with_events ?evs _ = _ /\ _ =>
           exists (rev evs); split; [rewrite rev_involutive; reflexivity|];
           cbn [rev app]
       end.
  all: split; [eexists; eexists; reflexivity|].
  all: try (repeat constructor; fail).
  all: split; [assumption|].
  all: match goal with
       | |- exists calm ev, ?seg = _ /\ _ =>
           exists (removelast seg), (last seg (EvExists [] (Returns true)))
       end.
  all: cbn [removelast last app].
  all: split; [reflexivity|]; split; [repeat constructor | reflexivity].
Qed.

(** One match: the body runs, and when it fails the handler reports the
    failure; the step returns. *)
Lemma image_step_handled p w :
  exists seg,
    try_except (image_body E p uid) (image_handler E p uid) w
    = (Ok tt, with_events (rev seg) w)
    /\ handled E uid p seg.
Proof.
  destruct (image_body_run p w) as (seg & Hw & Hhd & Hres).
  unfold try_except.
  destruct (image_body E p uid w) as [[[]| e |] wb]; cbn [fst snd] in *;
    [| |contradiction].
  - exists seg. subst wb. split; [reflexivity|].
    split; [exact Hhd | apply failures_reported_calm; exact Hres].
  - destruct Hres as (Hexc & calm & ev & -> & Hcalm & Hev). rewrite Hexc.
    rewrite image_handler_run. subst wb.
    exists (calm ++ [ev; image_report E p uid e]). split.
    + rewrite with_events_app, !rev_app_distr. reflexivity.
    + split; [|apply failures_reported_one; assumption].
      destruct Hhd as (r & rest & Hseg).
      destruct calm as [|c0 calm]; simpl in Hseg |- *;
        injection Hseg as -> _; eexists; eexists; reflexivity.
Qed.

Lemma for_each_image_handled (xs : list str) :
  forall w,
    exists segs,
      for_each xs (fun image_path =>
                     try_except (image_body E (path_str E image_path) uid)
                                (image_handler E (path_str E image_path) uid)) w
      = (Ok tt, with_events (rev (List.concat segs)) w)
      /\ Forall2 (handled E uid) (map (path_str E) xs) segs.
Proof.
  induction xs as [|x xs IH]; intros w.
  - exists []. simpl. rewrite with_events_nil. split; [reflexivity|constructor].
  - destruct (image_step_handled (path_str E x) w) as (seg & Hstep & Hseg).
    destruct (IH (with_events (rev seg) w)) as (segs & Hrest & Hsegs).
    exists (seg :: segs). split; [|constructor; assumption].
    simpl for_each. rewrite (bind_Ok _ _ _ _ _ Hstep), Hrest.
    rewrite with_events_app. simpl List.concat. rewrite rev_app_distr. reflexivity.
Qed.

End ImageFailures.

(** C9, amended.  In [extract_and_log_images], whatever [Exception] is
    raised while an image is processed, by [log_execution] or by the file
    system, is caught by the handler of that image, which reports it
    through one more call to [log_execution].  When these reports go
    through, the helper handles every match and returns: its calls fall
    into one segment per match, in the order of the matches; each segment
    starts with the test that the file of its match exists, and when a call
    of the segment raises, the next and last call of the segment is the
    report "Error processing image <path>: <exception>" for that match.
    All the helper has done is call the sink and the file system: the
    working memory and the rest of the role's state are untouched and the
    execution backend is not called. *)
Theorem image_logging_failures_are_caught :
  forall (E : Env) (result user_id : str) (w : World),
    (forall n text uid, benign (log_sink E n text uid) = true) ->
    (forall n p, benign (path_exists E n p) = true) ->
    (forall n p, benign (read_b64 E n p) = true) ->
    reports_pass E ->
    exists evs segs,
      extract_and_log_images E result user_id w = (Ok tt, with_events evs w)
      /\ only [KLog; KExists; KRead] evs
      /\ calls KExecute evs = 0
      /\ rev evs = List.concat segs
      /\ Forall2 (handled E user_id)
                 (map (path_str E) (re_findall_images E result)) segs.
Proof.
  intros E result uid w Hsink Hexists Hread Hreports.
  destruct (for_each_image_handled E uid Hsink Hexists Hread Hreports
              (re_findall_images E result) w) as (segs & Hrun & Hsegs).
  fold (extract_and_log_images E result uid w) in Hrun.
  destruct (quiet_extract_and_log_images E result uid w) as (evs & Hw & Ho).
  rewrite Hrun in Hw. cbn [snd] in Hw.
  assert (Heq : evs = rev (List.concat segs)).
  { apply (f_equal trace) in Hw. cbn [trace with_events] in Hw.
    apply app_inv_tail in Hw. symmetry. exact Hw. }
  subst evs.
  exists (rev (List.concat segs)), segs.
  split; [exact Hrun|]. split; [exact Ho|].
  split; [apply (only_calls _ _ _ Ho); reflexivity|].
  split; [apply rev_involutive | exact Hsegs].
Qed.

(** A run of C9: the result names two images; the sink refuses everything
    but the reports of the handler, so logging either image fails, and
    both failures are reported. *)
Lemma image_logging_failures_are_caught_witness :
  let E := Demo.with_images
             (Demo.env Demo.always_fails Demo.picky_sink (py "no")
                       (py "df.info()"))
             [py "a.png"; py "b.png"] in
  let w := Demo.start Demo.first_plan in
  exists evs segs,
    extract_and_log_images E (py "Image saved to: a.png" ++ nl ++ py "Image saved to: b.png") (py "u") w
    = (Ok tt, with_events evs w)
    /\ only [KLog; KExists; KRead] evs
    /\ calls KExecute evs = 0
    /\ rev evs = List.concat segs
    /\ Forall2 (handled E (py "u")) [py "a.png"; py "b.png"] segs.
Proof.
  intros E w.
  apply (image_logging_failures_are_caught E (py "Image saved to: a.png" ++ nl ++ py "Image saved to: b.png")
           (py "u") w).
  - intros n text uid. simpl. unfold Demo.picky_sink.
    destruct (Str.startswith _ text); reflexivity.
  - intros n p. reflexivity.
  - intros n p. reflexivity.
  - intros n text uid H. simpl. unfold Demo.picky_sink. rewrite H. reflexivity.
Defined.

(** In that run the sink fails once per image and each failure is
    reported. *)
Example image_failures_are_reported :
  let E := Demo.with_images
             (Demo.env Demo.always_fails Demo.picky_sink (py "no")
                       (py "df.info()"))
             [py "a.png"; py "b.png"] in
  let w := Demo.start Demo.first_plan in
  let run := extract_and_log_images E (py "Image saved to: a.png" ++ nl ++ py "Image saved to: b.png") (py "u") w in
  fst run = Ok tt
  /\ map (fun ev => match ev with
                   | EvLog _ _ (Returns _) => 1
                   | EvLog _ _ (Raises _) => 2
                   | _ => 0
                   end) (rev (trace (snd run)))
     = [0; 0; 2; 1; 0; 0; 2; 1].
Proof. vm_compute. split; reflexivity. Qed.

(** The calls to [log_execution] of the loop itself are not guarded: when
    the first of an attempt raises, the attempt raises the same exception
    and the code is not executed. *)
Lemma attempt_propagates_sink_failure
      (E : Env) (self : DataInterpreter) (c : Z) (ps ti uid : str)
      (w w1 : World) (code0 : str) (a : Action) (e : PyExc) :
  _write_code E self c ps ti uid w = (Ok (code0, a), w1) ->
  log_sink E (calls KLog (trace w1)) (py "### Code to be executed" ++ nl) uid
  = Raises e ->
  attempt E self c ps ti uid w
  = (Exc e, with_events [EvLog (py "### Code to be executed" ++ nl) uid
                               (Raises e)] w1).
Proof.
  intros Hw Hlog. unfold attempt. rewrite (bind_Ok _ _ _ _ _ Hw).
  apply bind_Exc. unfold log_execution, call. rewrite Hlog. reflexivity.
Qed.

(** C9 as stated fails in the retry loop: with an execution backend that
    succeeds at once, [_write_and_exec_code] returns a success when the
    sink works, and raises the exception of the sink, before any call to
    the backend, when the sink fails. *)
Lemma sink_failure_aborts_the_retry_loop :
  let kernel := Demo.fails_then_succeeds 0 in
  let w := Demo.start Demo.first_plan in
  let good := _write_and_exec_code
                (Demo.env kernel Demo.quiet_sink (py "no") (py "df.info()"))
                Demo.planning 5 3 (py "u") w in
  let bad := _write_and_exec_code
               (Demo.env kernel Demo.broken_sink (py "no") (py "df.info()"))
               Demo.planning 5 3 (py "u") w in
  fst good = Ok (py "attempt_0", py "ok", true)
  /\ fst bad = Exc (External true "ConnectionError")
  /\ calls KExecute (trace (snd bad)) = 0.
Proof. vm_compute. repeat split. Qed.

(** ** More on the reactive step *)

Lemma getitem_dict_get (d : list (str * JVal)) (key : str) (w : World) :
  getitem d key w
  = match dict_get d key with
    | Some v => (Ok v, w)
    | None => (Exc KeyError, w)
    end.
Proof.
  induction d as [|[k v] d IH]; simpl; [reflexivity|].
  destruct (Str.eqb k key); [reflexivity | exact IH].
Qed.

(** X1. Whenever [_think] returns, the role memory holds the user
    requirement [m0] as its first message, and the state [_think] leaves
    agrees with its answer: 0 when the answer is truthy, -1 otherwise
    ([0], [0.0], the empty string, list and dict and [None] are not), with
    [todo] the action of that state; the role memory and the plan are
    untouched.  On an empty working memory the model is not asked, the
    answer is [True] and the working memory becomes [[m0]].  Otherwise the
    model is asked exactly once, with the prompt made of the requirement
    and the working memory; its answer decodes to an object whose
    ["thoughts"] is a string and whose ["state"] is the value returned, and
    the one message appended to the working memory is the thoughts, with
    the role "assistant". *)
Theorem think_state_follows_answer :
  forall (E : Env) (w w' : World) (v : JVal),
    _think E w = (Ok v, w') ->
    exists m0 ms,
      memory w = m0 :: ms
      /\ state w' = (if truthy v then 0 else -1)%Z
      /\ todo w' = set_state_todo E (state w')
      /\ memory w' = memory w
      /\ plan w' = plan w
      /\ ((working_memory w = []
           /\ v = JBool true
           /\ working_memory w' = [m0]
           /\ trace w' = trace w)
          \/ (working_memory w <> []
              /\ let prompt := REACT_THINK_PROMPT_format
                                 E (content m0) (working_memory w) in
                 exists rsp text d thoughts,
                   llm_aask E (calls KAask (trace w)) prompt = Returns rsp
                   /\ parse_code E rsp = Returns text
                   /\ json_loads E text = Returns d
                   /\ dict_get d (py "thoughts") = Some (JStr thoughts)
                   /\ dict_get d (py "state") = Some v
                   /\ working_memory w'
                      = working_memory w ++ [mkMessage thoughts assistant None]
                   /\ trace w' = EvAask prompt (Returns rsp) :: trace w)).
Proof.
  intros E w w' v.
  unfold _think, get_memories, working_memory_get, get, first_item.
  unfold bind at 1. unfold bind at 1.
  destruct (memory w) as [|m0 ms] eqn:Hmem; [discriminate|].
  unfold ret at 1. unfold bind at 1.
  destruct (working_memory w) as [|c0 cs] eqn:Hwm.
  - unfold bind, ret, working_memory_add, _set_state, push. simpl.
    rewrite Hmem, Hwm. intros H. injection H as <- <-. simpl.
    exists m0, ms. rewrite Hmem.
    repeat (split; [reflexivity|]). left. repeat split.
  - unfold bind at 1. unfold aask, call.
    destruct (llm_aask E _ _) as [rsp|e] eqn:Hask; [|discriminate].
    unfold bind at 1. unfold lift at 1.
    destruct (parse_code E rsp) as [text|e] eqn:Hparse; [|discriminate].
    unfold ret at 1. unfold bind at 1. unfold lift at 1.
    destruct (json_loads E text) as [d|e] eqn:Hjson; [|discriminate].
    unfold ret at 1. unfold bind at 1. rewrite getitem_dict_get.
    destruct (dict_get d (py "thoughts")) as [t|] eqn:Hthoughts;
      [|discriminate].
    unfold bind at 1. unfold new_message.
    destruct t as [b|s0|z| |f|items|members]; try discriminate.
    unfold ret at 1. unfold bind at 1. unfold working_memory_add at 1.
    unfold bind at 1. rewrite getitem_dict_get.
    destruct (dict_get d (py "state")) as [v0|] eqn:Hstate; [|discriminate].
    unfold bind at 1.
    destruct (truthy v0) eqn:Htruthy; unfold _set_state, ret, push, emit,
      with_events; simpl; intros H; injection H as <- <-; simpl;
      rewrite Htruthy, Hwm; exists m0, ms;
      (split; [reflexivity|]); (split; [reflexivity|]);
      (split; [reflexivity|]); (split; [exact Hmem|]);
      (split; [reflexivity|]); right; (split; [discriminate|]);
      exists rsp, text, d, s0; repeat split; assumption.
Qed.

(** A run of X1: the run has started, and the model answers with its
    thoughts and the state [0.0]. *)
Lemma think_state_follows_answer_witness :
  let E := Demo.with_think
             (Demo.env Demo.always_fails Demo.quiet_sink (py "no")
                       (py "df.info()"))
             [(py "thoughts", JStr (py "the report is complete"));
              (py "state", JFloat PrimFloat.zero)] in
  let w := Demo.started Demo.first_plan in
  let w' := snd (_think E w) in
  fst (_think E w) = Ok (JFloat PrimFloat.zero)
  /\ state w' = (-1)%Z
  /\ todo w' = None
  /\ working_memory w'
     = [Demo.requirement;
        mkMessage (py "the report is complete") assistant None].
Proof.
  intros E w w'.
  destruct (think_state_follows_answer E w w' (JFloat PrimFloat.zero) eq_refl)
    as (m0 & ms & _ & Hs & Ht & _ & _ & [(Hwm & _) | (_ & H)]).
  - discriminate.
  - destruct H as (rsp & text & d & thoughts & _ & _ & Hd & Hth & _ & Hw' & _).
    injection Hd as <-. injection Hth as <-.
    split; [reflexivity|]. split; [exact Hs|]. split; [|exact Hw'].
    rewrite Ht, Hs. reflexivity.
Defined.

(** X2. When the working memory is not empty and the answer of the model
    decodes to an object, a missing key makes [_think] raise [KeyError]:
    at once when ["thoughts"] is missing; after the thoughts have been
    appended to the working memory when only ["state"] is missing.  In both
    cases the model has been asked and the state of the role is not set. *)
Theorem think_missing_key :
  forall (E : Env) (w : World) (m0 : Message) (ms : list Message)
         (rsp text : str) (d : list (str * JVal)),
    memory w = m0 :: ms ->
    working_memory w <> [] ->
    let prompt := REACT_THINK_PROMPT_format E (content m0) (working_memory w) in
    llm_aask E (calls KAask (trace w)) prompt = Returns rsp ->
    parse_code E rsp = Returns text ->
    json_loads E text = Returns d ->
    let asked := with_events [EvAask prompt (Returns rsp)] w in
    (dict_get d (py "thoughts") = None ->
     _think E w = (Exc KeyError, asked))
    /\ (forall thoughts,
          dict_get d (py "thoughts") = Some (JStr thoughts) ->
          dict_get d (py "state") = None ->
          _think E w
          = (Exc KeyError, push (mkMessage thoughts assistant None) asked)).
Proof.
  intros E w m0 ms rsp text d Hmem Hwm prompt Hask Hparse Hjson asked.
  subst prompt asked.
  unfold _think, get_memories, working_memory_get, get, first_item, aask, call,
    lift, bind.
  rewrite Hmem. simpl.
  destruct (working_memory w) as [|c0 cs] eqn:Hw; [contradiction|].
  rewrite Hask, Hparse. simpl. rewrite Hjson. simpl.
  rewrite getitem_dict_get. split.
  - intros ->. reflexivity.
  - intros thoughts -> Hstate. simpl. rewrite getitem_dict_get, Hstate.
    reflexivity.
Qed.

(** A run of X2: the answer has thoughts and no state. *)
Lemma think_missing_key_witness :
  let E := Demo.with_think
             (Demo.env Demo.always_fails Demo.quiet_sink (py "no")
                       (py "df.info()"))
             [(py "thoughts", JStr (py "plot the residuals"))] in
  let w := Demo.started Demo.first_plan in
  fst (_think E w) = Exc KeyError
  /\ working_memory (snd (_think E w))
     = [Demo.requirement; mkMessage (py "plot the residuals") assistant None]
  /\ state (snd (_think E w)) = state w.
Proof.
  intros E w.
  destruct (think_missing_key E w Demo.requirement [] [] []
              [(py "thoughts", JStr (py "plot the residuals"))]
              eq_refl ltac:(discriminate) eq_refl eq_refl eq_refl)
    as (_ & H).
  rewrite (H (py "plot the residuals") eq_refl eq_refl).
  repeat split.
Defined.

(** ** Counting calls *)

Section Bounds.

Context {A B : Type}.

Lemma bounded_weaken k n m (c : M A) : n <= m -> bounded k n c -> bounded k m c.
Proof.
  intros Hnm Hc w. destruct (Hc w) as (evs & H & Hn). exists evs.
  split; [exact H | lia].
Qed.

Lemma bounded_emits k ks (c : M A) :
  existsb (kind_eqb k) ks = false -> emits ks c -> bounded k 0 c.
Proof.
  intros Hk Hc w. destruct (Hc w) as (evs & H & Ho). exists evs.
  split; [exact H|]. rewrite (only_calls ks k evs Ho Hk). lia.
Qed.

Lemma bounded_quiet k ks (c : M A) :
  existsb (kind_eqb k) ks = false -> quiet ks c -> bounded k 0 c.
Proof. intros Hk Hc. apply (bounded_emits k ks); [exact Hk | apply quiet_emits, Hc]. Qed.

Lemma bounded_call k k' (oracle : nat -> Resp A) ev : bounded k 1 (call k' oracle ev).
Proof.
  intros w. exists [ev (oracle (calls k' (trace w)))]. split; [reflexivity|].
  simpl. destruct (kind_eqb _ k); lia.
Qed.

Lemma bounded_bind k n m (c : M A) (f : A -> M B) :
  bounded k n c -> (forall a, bounded k m (f a)) -> bounded k (n + m) (bind c f).
Proof.
  intros Hc Hf w. destruct (Hc w) as (evs & H & Hn). unfold bind.
  destruct (c w) as [[a| e |] w1]; simpl in *.
  - destruct (Hf a w1) as (evs' & H' & Hm). exists (evs' ++ evs).
    rewrite H', H, calls_app. split; [apply app_assoc | lia].
  - exists evs. split; [exact H | lia].
  - exists evs. split; [exact H | lia].
Qed.

Lemma bounded_try_except k n m (body : M A) handler :
  bounded k n body -> (forall e, bounded k m (handler e)) ->
  bounded k (n + m) (try_except body handler).
Proof.
  intros Hb Hh w. destruct (Hb w) as (evs & H & Hn). unfold try_except.
  destruct (body w) as [[a| e |] w1]; simpl in *;
    try (exists evs; split; [exact H | lia]).
  destruct (is_Exception e).
  - destruct (Hh e w1) as (evs' & H' & Hm). exists (evs' ++ evs).
    rewrite H', H, calls_app. split; [apply app_assoc | lia].
  - exists evs. split; [exact H | lia].
Qed.

End Bounds.

Lemma bounded_for_each {A} k n (xs : list A) body :
  (forall x, bounded k n (body x)) ->
  bounded k (n * List.length xs) (for_each xs body).
Proof.
  intros Hb. induction xs as [|x xs IH]; simpl.
  - intros w. exists []. split; [reflexivity | simpl; lia].
  - apply (bounded_weaken k (n + n * List.length xs)); [lia|].
    apply bounded_bind; [apply Hb | intros _; exact IH].
Qed.

(** ** More on the image helper *)

Section Images.

Variable E : Env.

Lemma bounded_log_execution k text uid : bounded k 1 (log_execution E text uid).
Proof. apply bounded_call. Qed.

Lemma bounded_image_step k n_body (p uid : str) :
  bounded k n_body (image_body E p uid) ->
  bounded k (n_body + 1)
          (try_except (image_body E p uid) (image_handler E p uid)).
Proof.
  intros Hb. apply bounded_try_except; [exact Hb|]. intros e.
  apply bounded_log_execution.
Qed.

Lemma bounded_image_body_logs p uid : bounded KLog 3 (image_body E p uid).
Proof.
  unfold image_body.
  apply (bounded_bind KLog 0 3).
  { apply (bounded_quiet KLog [KExists]); [reflexivity | prove_quiet]. }
  intros [|]; [|apply (bounded_weaken KLog 1); [lia | apply bounded_log_execution]].
  apply (bounded_bind KLog 0 3).
  { apply (bounded_quiet KLog [KRead]); [reflexivity | prove_quiet]. }
  intros data.
  apply (bounded_bind KLog 1 2); [apply bounded_log_execution | intros _].
  apply (bounded_bind KLog 1 1); [apply bounded_log_execution | intros _].
  apply bounded_log_execution.
Qed.

Lemma bounded_image_body_exists p uid : bounded KExists 1 (image_body E p uid).
Proof.
  unfold image_body.
  apply (bounded_bind KExists 1 0); [apply bounded_call|].
  intros b. apply (bounded_quiet KExists [KLog; KRead]); [reflexivity|].
  destruct b; prove_quiet.
Qed.

Lemma bounded_image_body_read p uid : bounded KRead 1 (image_body E p uid).
Proof.
  unfold image_body.
  apply (bounded_bind KRead 0 1).
  { apply (bounded_quiet KRead [KExists]); [reflexivity | prove_quiet]. }
  intros [|].
  - apply (bounded_bind KRead 1 0); [apply bounded_call|].
    intros data. apply (bounded_quiet KRead [KLog]); [reflexivity | prove_quiet].
  - apply (bounded_weaken KRead 0); [lia|].
    apply (bounded_quiet KRead [KLog]); [reflexivity | prove_quiet].
Qed.

(** X3. For any environment, [extract_and_log_images] leaves the role's
    state alone and only calls the sink and the file system: for a result
    that names [n] images, at most [n] existence tests, at most [n] reads
    and at most [4 n] calls to the sink (three entries for an image, and
    one report if something fails). *)
Theorem extract_and_log_images_footprint :
  forall (result user_id : str) (w : World),
    let n := List.length (re_findall_images E result) in
    exists evs,
      snd (extract_and_log_images E result user_id w) = with_events evs w
      /\ only [KLog; KExists; KRead] evs
      /\ calls KExists evs <= n
      /\ calls KRead evs <= n
      /\ calls KLog evs <= 4 * n.
Proof.
  intros result uid w n.
  destruct (quiet_extract_and_log_images E result uid w) as (evs & Hw & Ho).
  exists evs. split; [exact Hw|]. split; [exact Ho|].
  assert (Hcount : forall k m,
             (forall p, bounded k m
                          (try_except (image_body E p uid)
                                      (image_handler E p uid))) ->
             calls k evs <= m * n).
  { intros k m Hb.
    destruct (bounded_for_each k m (re_findall_images E result)
                (fun image_path =>
                   try_except (image_body E (path_str E image_path) uid)
                              (image_handler E (path_str E image_path) uid))
                (fun x => Hb (path_str E x)) w) as (evs' & H' & Hn).
    change (for_each _ _ w) with (extract_and_log_images E result uid w) in H'.
    rewrite Hw in H'. simpl in H'. apply app_inv_tail in H'. subst evs'.
    exact Hn. }
  split; [|split].
  - rewrite <- (Nat.mul_1_l n). apply Hcount. intros p.
    apply (bounded_try_except KExists 1 0);
      [apply bounded_image_body_exists|].
    intros e. apply (bounded_quiet KExists [KLog]); [reflexivity|].
    unfold image_handler. prove_quiet.
  - rewrite <- (Nat.mul_1_l n). apply Hcount. intros p.
    apply (bounded_try_except KRead 1 0); [apply bounded_image_body_read|].
    intros e. apply (bounded_quiet KRead [KLog]); [reflexivity|].
    unfold image_handler. prove_quiet.
  - apply Hcount. intros p.
    apply (bounded_image_step KLog 3), bounded_image_body_logs.
Qed.

End Images.

Section ImageRuns.

Variable E : Env.

Lemma image_step_raises (p uid : str) (w : World) (e : PyExc) :
  fst (try_except (image_body E p uid) (image_handler E p uid) w) = Exc e ->
  is_Exception e = false
  \/ exists text tr,
       trace (snd (try_except (image_body E p uid) (image_handler E p uid) w))
       = EvLog text uid (Raises e) :: tr
       /\ Str.startswith (py "Error processing image ") text = true.
Proof.
  unfold try_except.
  destruct (image_body E p uid w) as [[u| eb |] wb]; cbn [fst snd];
    try discriminate.
  destruct (is_Exception eb) eqn:Hb.
  - unfold image_handler, log_execution, call.
    set (text := py "Error processing image " ++ p ++ py ": " ++ exc_str E eb).
    destruct (log_sink E (calls KLog (trace wb)) text uid) as [u|e'];
      cbn [fst snd]; [discriminate|].
    intros H. injection H as <-. right. exists text, (trace wb).
    split; [reflexivity | apply startswith_app].
  - cbn [fst snd]. intros H. injection H as <-. left. exact Hb.
Qed.

Lemma for_each_image_raises (uid : str) (xs : list str) :
  forall (w : World) (e : PyExc),
    let step := fun image_path =>
                  try_except (image_body E (path_str E image_path) uid)
                             (image_handler E (path_str E image_path) uid) in
    fst (for_each xs step w) = Exc e ->
    is_Exception e = false
    \/ exists text tr,
         trace (snd (for_each xs step w)) = EvLog text uid (Raises e) :: tr
         /\ Str.startswith (py "Error processing image ") text = true.
Proof.
  induction xs as [|x xs IH]; intros w e step; simpl; [discriminate|].
  unfold bind.
  pose proof (image_step_raises (path_str E x) uid w) as Hstep.
  fold (step x) in Hstep.
  destruct (step x w) as [[u| e' |] w1]; simpl in *.
  - apply IH.
  - intros H. injection H as <-. apply Hstep. reflexivity.
  - discriminate.
Qed.

(** X4. The only exceptions that leave [extract_and_log_images] are those
    that are not instances of [Exception], and those raised by the sink
    when the handler reports a failure: in that case the last call made is
    the report ("Error processing image ...") that failed. *)
Theorem extract_and_log_images_raises_from_the_report :
  forall (result user_id : str) (w : World) (e : PyExc),
    fst (extract_and_log_images E result user_id w) = Exc e ->
    is_Exception e = false
    \/ exists text tr,
         trace (snd (extract_and_log_images E result user_id w))
         = EvLog text user_id (Raises e) :: tr
         /\ Str.startswith (py "Error processing image ") text = true.
Proof.
  intros result uid w e. unfold extract_and_log_images.
  apply for_each_image_raises.
Qed.

(** X5. When the sink returns and the file system answers, the log of
    [extract_and_log_images] is fixed by the files on disk: for each match
    in turn, an image tag with the content in base 64, a line break and a
    rule when the file exists, and one line "Image file not found: ..."
    when it does not; paths are written as [str(Path(...))].  The helper
    then returns. *)
Theorem extract_and_log_images_log :
  forall (present : str -> bool) (data : str -> str) (result user_id : str)
         (w : World),
    (forall n text uid, log_sink E n text uid = Returns tt) ->
    (forall n p, path_exists E n p = Returns (present p)) ->
    (forall n p, read_b64 E n p = Returns (data p)) ->
    extract_and_log_images E result user_id w
    = (Ok tt,
       with_events
         (rev (flat_map (image_events E present data user_id)
                        (re_findall_images E result))) w).
Proof.
  intros present data result uid w Hsink Hexists Hread.
  unfold extract_and_log_images.
  generalize (re_findall_images E result) as xs. intros xs. revert w.
  induction xs as [|x xs IH]; intros w.
  - simpl. rewrite with_events_nil. reflexivity.
  - simpl for_each. simpl flat_map. rewrite rev_app_distr, <- with_events_app.
    assert (Hstep : try_except (image_body E (path_str E x) uid)
                               (image_handler E (path_str E x) uid) w
                    = (Ok tt, with_events
                                (rev (image_events E present data uid x)) w)).
    { unfold try_except, image_body, image_events, exists_, read_image,
        log_execution, call, bind. rewrite Hexists. simpl.
      destruct (present (path_str E x)); simpl.
      - rewrite Hread. simpl. rewrite !Hsink. simpl. reflexivity.
      - rewrite Hsink. simpl. reflexivity. }
    rewrite (bind_Ok _ _ _ _ _ Hstep). apply IH.
Qed.

End ImageRuns.

(** A run of X4: the image is on disk, and the sink is down. *)
Lemma extract_and_log_images_raises_from_the_report_witness :
  let E := Demo.with_files
             (Demo.env Demo.always_fails Demo.broken_sink (py "no")
                       (py "df.info()"))
             [py "a.png"] (fun _ => true) in
  let w := Demo.start Demo.first_plan in
  let run := extract_and_log_images E (py "Image saved to: a.png") (py "u") w in
  fst run = Exc (External true "ConnectionError")
  /\ exists text tr,
       trace (snd run)
       = EvLog text (py "u") (Raises (External true "ConnectionError")) :: tr
       /\ Str.startswith (py "Error processing image ") text = true.
Proof.
  intros E w run. split; [reflexivity|].
  destruct (extract_and_log_images_raises_from_the_report E
              (py "Image saved to: a.png") (py "u") w
              (External true "ConnectionError") eq_refl) as [H | H].
  - discriminate.
  - exact H.
Defined.

(** A run of X5: two images are named and the first one only is on disk. *)
Lemma extract_and_log_images_log_witness :
  let E := Demo.with_files
             (Demo.env Demo.always_fails Demo.quiet_sink (py "no")
                       (py "df.info()"))
             [py "a.png"; py "b.png"] (Str.eqb (py "a.png")) in
  let w := Demo.start Demo.first_plan in
  extract_and_log_images E (py "Image saved to: a.png" ++ nl ++ py "Image saved to: b.png") (py "u") w
  = (Ok tt,
     with_events
       (rev (flat_map (image_events E (Str.eqb (py "a.png"))
                                    (fun _ => py "iVBORw0KGgo=") (py "u"))
                      [py "a.png"; py "b.png"])) w).
Proof.
  intros E w.
  apply (extract_and_log_images_log E (Str.eqb (py "a.png"))
           (fun _ => py "iVBORw0KGgo=") (py "Image saved to: a.png" ++ nl ++ py "Image saved to: b.png") (py "u") w).
  - intros n text uid. reflexivity.
  - intros n p. reflexivity.
  - intros n p. reflexivity.
Defined.

(** ** More on the data check, the prelude and the teardown *)

(** X6. For any environment, [_check_data] asks for inspection code at
    most once, calls the execution backend at most once and only after
    that, and appends at most one message, only after a call to the
    backend; it calls no other collaborator (nothing goes to the sink, the
    reviewer is not asked) and leaves the rest of the role's state alone. *)
Theorem check_data_footprint :
  forall (E : Env) (self : DataInterpreter) (w : World),
    exists evs ms,
      snd (_check_data E self w) = with_events evs (pushes ms w)
      /\ only [KCheckData; KExecute] evs
      /\ List.length ms <= calls KExecute evs
      /\ calls KExecute evs <= calls KCheckData evs
      /\ calls KCheckData evs <= 1.
Proof.
  intros E self w.
  destruct (check_data_cases E self w)
    as [Hn | Hn | e Ht | c0 Ht Hb | c0 e Ht Hb | c0 x0 Ht Hb | c0 x0 Ht Hb];
    cbn [snd].
  1,2: exists [], []; rewrite pushes_nil, with_events_nil;
       repeat split; try apply only_nil; simpl; lia.
  1-4: eexists; exists []; rewrite pushes_nil;
       (split; [reflexivity|]); repeat split; try (simpl; lia);
       repeat constructor.
  eexists. exists [data_info_message x0].
  split; [reflexivity|]. repeat split; try (simpl; lia). repeat constructor.
Qed.

(** X7. [_plan_and_act] calls [terminate] exactly when the inherited loop
    raises an instance of [Exception].  When the loop returns, or raises
    another kind of exception, [_plan_and_act] ends as the loop did, in the
    world the loop left: after a plan that succeeds the session of the
    execution backend is kept. *)
Theorem plan_and_act_terminates_exactly_on_Exception :
  forall (E : Env) (super_plan_and_act : str -> M Message) (user_id : str)
         (w : World),
    let r := fst (super_plan_and_act user_id w) in
    let w1 := snd (super_plan_and_act user_id w) in
    let out := _plan_and_act E super_plan_and_act user_id w in
    (calls KTerminate (trace (snd out)) = calls KTerminate (trace w1) + 1
     <-> exists e, r = Exc e /\ is_Exception e = true)
    /\ (calls KTerminate (trace (snd out)) = calls KTerminate (trace w1)
        <-> forall e, r = Exc e -> is_Exception e = false)
    /\ ((forall e, r = Exc e -> is_Exception e = false) -> out = (r, w1)).
Proof.
  intros E super uid w r w1 out. subst r w1 out.
  unfold _plan_and_act, try_except.
  destruct (super uid w) as [[rsp| e |] w1]; cbn [fst snd].
  - split; [|split].
    + split; [lia | intros (e & H & _); discriminate].
    + split; [intros _ e H; discriminate | reflexivity].
    + reflexivity.
  - destruct (is_Exception e) eqn:He.
    + unfold bind, execute_terminate, call.
      destruct (execute_code_terminate E _) as [[]|e']; cbn [fst snd];
        (split; [|split];
         [ split;
           [ intros _; exists e; split; [reflexivity | exact He]
           | intros _; simpl; lia ]
         | split;
           [ intros H; simpl in H; lia
           | intros H; specialize (H e eq_refl); congruence ]
         | intros H; specialize (H e eq_refl); congruence ]).
    + cbn [snd]. split; [|split].
      * split; [lia|]. intros (e' & H & He'). injection H as <-. congruence.
      * split; [|reflexivity]. intros _ e' H. injection H as <-. exact He.
      * reflexivity.
  - split; [|split].
    + split; [lia | intros (e & H & _); discriminate].
    + split; [intros _ e H; discriminate | reflexivity].
    + reflexivity.
Qed.

(** X8. When planning is off (the reactive strategy), the lines of
    [_write_and_exec_code] before its loop never ask the planner, never
    generate or execute inspection code and leave the working memory as it
    is: the plan status is the empty string; without a recommender nothing
    is called at all, and with one the only call is the recommendation,
    made for the content of the last message of the working memory (or the
    empty string) and no plan. *)
Theorem prelude_without_plan :
  forall (E : Env) (self : DataInterpreter) (w : World),
    use_plan self = false ->
    (tool_recommender self = false -> prelude E self w = (Ok ([], []), w))
    /\ (tool_recommender self = true ->
        let context := match rev (working_memory w) with
                       | [] => []
                       | m :: _ => content m
                       end in
        let answer := get_recommended_tool_info E (calls KToolInfo (trace w))
                                                context None in
        prelude E self w
        = (match answer with
           | Returns tool_info => Ok ([], tool_info)
           | Raises e => Exc e
           end, with_events [EvToolInfo context None answer] w)).
Proof.
  intros E self w Hplan.
  assert (Hcheck : forall w0, _check_data E self w0 = (Ok tt, w0)).
  { intros w0. unfold _check_data, check_data_skipped, get, bind.
    rewrite Hplan. reflexivity. }
  unfold prelude. rewrite Hplan. split.
  - intros ->. unfold bind, ret. rewrite Hcheck. reflexivity.
  - intros ->. cbn zeta.
    unfold bind at 1. unfold ret at 1.
    unfold working_memory_get, get, last_item, recommended_tool_info, call.
    unfold bind at 1. unfold bind at 1.
    destruct (working_memory w) as [|m0 ms] eqn:Hwm.
    + simpl rev. unfold ret at 1. unfold bind at 1. unfold bind at 1.
      destruct (get_recommended_tool_info E _ [] None) as [ti|e];
        [|reflexivity].
      unfold bind. rewrite Hcheck. reflexivity.
    + unfold bind at 1.
      destruct (rev (m0 :: ms)) as [|m rest] eqn:Hrev.
      { apply rev_nil_inv in Hrev. discriminate. }
      unfold ret at 1. unfold bind at 1. unfold ret at 1. unfold bind at 1.
      unfold bind at 1.
      destruct (get_recommended_tool_info E _ (content m) None) as [ti|e];
        [|reflexivity].
      unfold bind. rewrite Hcheck. reflexivity.
Qed.

(** A run of X8: the reactive strategy, with the recommender of the
    example. *)
Lemma prelude_without_plan_witness :
  let E := Demo.env Demo.always_fails Demo.quiet_sink (py "no")
                    (py "df.info()") in
  let self := mkDataInterpreter true false false true 10 in
  let w := Demo.started Demo.preprocess_plan in
  prelude E self w
  = (Ok ([], []),
     with_events [EvToolInfo (py "analyse the sales") None (Returns [])] w)
  /\ prelude E Demo.reacting w = (Ok ([], []), w).
Proof.
  intros E self w.
  destruct (prelude_without_plan E self w eq_refl) as (_ & H1).
  destruct (prelude_without_plan E Demo.reacting w eq_refl) as (H2 & _).
  split; [exact (H1 eq_refl) | exact (H2 eq_refl)].
Defined.

(** ** The retry loop in any environment *)

Section AnyEnvironment.

Variable E : Env.
Variable self : DataInterpreter.

Lemma bounded_working_memory_add k m : bounded k 0 (working_memory_add m).
Proof. intros w. exists []. split; [reflexivity | simpl; lia]. Qed.

Lemma bounded_ret {A} k (a : A) : bounded k 0 (ret a).
Proof. intros w. exists []. split; [reflexivity | simpl; lia]. Qed.

Lemma emits_attempt c ps ti uid :
  emits [KTodoRun; KLog; KExecute; KExists; KRead] (attempt E self c ps ti uid).
Proof.
  unfold attempt.
  apply emits_bind.
  { apply quiet_emits. unfold _write_code. prove_quiet. }
  intros [c0 a].
  apply emits_bind; [apply quiet_emits; prove_quiet | intros _].
  apply emits_bind; [apply quiet_emits; prove_quiet | intros _].
  apply emits_bind; [apply emits_working_memory_add | intros _].
  apply emits_bind; [apply quiet_emits; prove_quiet | intros [r0 s0]].
  apply emits_bind.
  { apply quiet_emits. eapply quiet_mono; [|apply quiet_log_result].
    intros k; destruct k; simpl; congruence. }
  intros _.
  apply emits_bind; [apply emits_working_memory_add | intros _].
  apply quiet_emits, quiet_ret.
Qed.

Lemma bounded_attempt_execute c ps ti uid :
  bounded KExecute 1 (attempt E self c ps ti uid).
Proof.
  unfold attempt.
  apply (bounded_bind KExecute 0 1).
  { apply (bounded_quiet KExecute [KTodoRun]); [reflexivity|].
    apply quiet_write_code. }
  intros [c0 a].
  apply (bounded_bind KExecute 0 1).
  { apply (bounded_quiet KExecute [KLog]); [reflexivity | prove_quiet]. }
  intros _.
  apply (bounded_bind KExecute 0 1).
  { apply (bounded_quiet KExecute [KLog]); [reflexivity | prove_quiet]. }
  intros _.
  apply (bounded_bind KExecute 0 1); [apply bounded_working_memory_add|].
  intros _.
  apply (bounded_bind KExecute 1 0); [apply bounded_call|].
  intros [r0 s0].
  apply (bounded_bind KExecute 0 0).
  { apply (bounded_quiet KExecute [KLog; KExists; KRead]); [reflexivity|].
    apply quiet_log_result. }
  intros _.
  apply (bounded_bind KExecute 0 0); [apply bounded_working_memory_add|].
  intros _. apply bounded_ret.
Qed.

Lemma bounded_review_step mr c s : bounded KReview 1 (review_step E mr c s).
Proof.
  unfold review_step. destruct (negb s && (mr <=? c)%Z).
  - apply (bounded_bind KReview 1 0); [apply bounded_call|].
    intros [review b].
    apply (bounded_quiet KReview []); [reflexivity | prove_quiet].
  - apply (bounded_weaken KReview 0); [lia | apply bounded_ret].
Qed.

(** What the review leaves when it returns: nothing when the execution
    succeeded or retries are left, one call to the reviewer otherwise. *)
Lemma review_step_Ok mr c s w c1 w1 :
  review_step E mr c s w = (Ok c1, w1) ->
  (w1 = w /\ c1 = c /\ (s = true \/ (c < mr)%Z))
  \/ (s = false /\ (mr <= c)%Z
      /\ exists review b cw cws,
           w1 = with_events [EvReview false (CODE_REVIEW_TRIGGER E)
                                      (Returns (review, b))] w
           /\ CHANGE_WORDS E = cw :: cws
           /\ c1 = if Str.contains cw review then 0%Z else c).
Proof.
  unfold review_step.
  destruct (negb s && (mr <=? c)%Z) eqn:Hcond.
  - apply andb_true_iff in Hcond as (Hs & Hc).
    apply negb_true_iff in Hs. apply Z.leb_le in Hc.
    unfold ask_review, call, asks_for_change, first_item, bind.
    destruct (planner_ask_review E _ false _) as [[review b]|e];
      [|discriminate].
    destruct (CHANGE_WORDS E) as [|cw cws] eqn:Hcw; [discriminate|].
    unfold ret. intros H. right. split; [exact Hs|]. split; [exact Hc|].
    exists review, b, cw, cws.
    destruct (Str.contains cw review); injection H as <- <-;
      repeat split.
  - unfold ret. intros H. injection H as <- <-. left.
    split; [reflexivity|]. split; [reflexivity|].
    apply andb_false_iff in Hcond as [Hs | Hc].
    + left. apply negb_false_iff in Hs. exact Hs.
    + right. apply Z.leb_gt in Hc. exact Hc.
Qed.

(** One turn of the loop, whatever the environment does. *)
Lemma loop_body_outcome mr ps ti uid l w :
  exists evs,
    trace (snd (loop_body E self mr ps ti uid l w)) = evs ++ trace w
    /\ calls KExecute evs <= 1
    /\ calls KReview evs <= 1
    /\ fst (loop_body E self mr ps ti uid l w) <> OutOfFuel
    /\ forall l',
         fst (loop_body E self mr ps ti uid l w) = Ok l' ->
         calls KExecute evs = 1
         /\ (exists c0 r0,
               code l' = Some c0 /\ result l' = Some r0
               /\ hd_error (executions evs) = Some (c0, r0, success l'))
         /\ ((calls KReview evs = 0
              /\ counter l' = (counter l + 1)%Z
              /\ (success l' = true \/ (counter l + 1 < mr)%Z))
             \/ (success l' = false /\ (mr <= counter l + 1)%Z
                 /\ exists review b cw cws tr,
                      evs = EvReview false (CODE_REVIEW_TRIGGER E)
                                     (Returns (review, b)) :: tr
                      /\ calls KReview tr = 0
                      /\ CHANGE_WORDS E = cw :: cws
                      /\ counter l'
                         = if Str.contains cw review then 0%Z
                           else (counter l + 1)%Z)).
Proof.
  assert (Hexec : bounded KExecute 1 (loop_body E self mr ps ti uid l)).
  { unfold loop_body.
    apply (bounded_bind KExecute 1 0); [apply bounded_attempt_execute|].
    intros [[c0 r0] s0].
    apply (bounded_quiet KExecute [KReview]); [reflexivity|].
    apply quiet_bind; [apply quiet_review_step | intros c1; apply quiet_ret]. }
  assert (Hrev : bounded KReview 1 (loop_body E self mr ps ti uid l)).
  { unfold loop_body.
    apply (bounded_bind KReview 0 1).
    { apply (bounded_emits KReview [KTodoRun; KLog; KExecute; KExists; KRead]);
        [reflexivity | apply emits_attempt]. }
    intros [[c0 r0] s0].
    apply (bounded_bind KReview 1 0); [apply bounded_review_step|].
    intros c1. apply bounded_ret. }
  destruct (Hexec w) as (evs & Htr & Hk).
  destruct (Hrev w) as (evs' & Htr' & Hr).
  rewrite Htr in Htr'. apply app_inv_tail in Htr'. subst evs'.
  exists evs. split; [exact Htr|]. split; [exact Hk|]. split; [exact Hr|].
  split; [apply total_loop_body|].
  intros l' Hok.
  destruct (loop_body E self mr ps ti uid l w) as [r w'] eqn:Hrun.
  cbn [fst snd] in *. subst r.
  pose proof Hrun as Hrun'. unfold loop_body in Hrun'.
  apply bind_Ok_inv in Hrun' as ([[c0 r0] s0] & w1 & H1 & H).
  apply attempt_Ok in H1
    as (a & req & evs1 & evs2 & Ha & -> & Ho1 & Ho2 & _).
  destruct (attempt_events a req c0 r0 s0 evs1 evs2 Ho1 Ho2)
    as (Hex & _ & Hk1 & _ & Hrv1).
  apply bind_Ok_inv in H as (c1 & w2 & H2 & H).
  unfold ret in H. injection H as <- <-. cbn [code result success counter].
  apply review_step_Ok in H2 as [(-> & -> & Hwhy) | (Hs & Hge & review & b & cw & cws & -> & Hcw & ->)].
  - simpl in Htr. apply app_inv_tail in Htr. subst evs.
    rewrite Hex, Hk1, Hrv1. split; [reflexivity|].
    split; [exists c0, r0; repeat split|]. left. repeat split. exact Hwhy.
  - simpl in Htr.
    change (EvReview false (CODE_REVIEW_TRIGGER E) (Returns (review, b))
              :: (evs2 ++ EvExecute c0 (Returns (r0, s0)) :: evs1
                       ++ [EvTodoRun a req (Returns c0)]) ++ trace w)
      with ((EvReview false (CODE_REVIEW_TRIGGER E) (Returns (review, b))
               :: evs2 ++ EvExecute c0 (Returns (r0, s0)) :: evs1
                       ++ [EvTodoRun a req (Returns c0)]) ++ trace w) in Htr.
    apply app_inv_tail in Htr. subst evs.
    cbn [calls kind_of kind_eqb executions]. rewrite Hex, Hk1.
    split; [reflexivity|]. split; [exists c0, r0; repeat split|].
    right. split; [exact Hs|]. split; [exact Hge|].
    eexists review, b, cw, cws, _. split; [reflexivity|].
    split; [exact Hrv1|]. split; [exact Hcw | reflexivity].
Qed.

End AnyEnvironment.

Section LoopInvariants.

Variable E : Env.
Variable self : DataInterpreter.

Lemma total_check_data : total (_check_data E self).
Proof.
  intros w. destruct (check_data_cases E self w); simpl; discriminate.
Qed.

Lemma total_prelude : total (prelude E self).
Proof.
  unfold prelude.
  apply total_bind; [destruct (use_plan self); prove_total | intros ps0].
  apply total_bind; [destruct (tool_recommender self); prove_total | intros ti0].
  apply total_bind; [apply total_check_data | intros _; apply total_ret].
Qed.

Lemma bounded_write_code_requests c ps ti uid :
  bounded KTodoRun 1 (_write_code E self c ps ti uid).
Proof.
  unfold _write_code.
  apply (bounded_bind KTodoRun 0 1).
  { apply (bounded_quiet KTodoRun []); [reflexivity | prove_quiet]. }
  intros [a|].
  2:{ apply (bounded_weaken KTodoRun 0); [lia|].
      apply (bounded_quiet KTodoRun []); [reflexivity | prove_quiet]. }
  apply (bounded_bind KTodoRun 0 1).
  { apply (bounded_quiet KTodoRun []); [reflexivity | prove_quiet]. }
  intros mem.
  apply (bounded_bind KTodoRun 0 1).
  { apply (bounded_quiet KTodoRun []); [reflexivity | prove_quiet]. }
  intros m.
  apply (bounded_bind KTodoRun 0 1).
  { apply (bounded_quiet KTodoRun []); [reflexivity | prove_quiet]. }
  intros wm.
  apply (bounded_bind KTodoRun 1 0); [apply bounded_call|].
  intros code0. apply bounded_ret.
Qed.

Lemma bounded_loop_body_execute mr ps ti uid l :
  bounded KExecute 1 (loop_body E self mr ps ti uid l).
Proof.
  intros w.
  destruct (loop_body_outcome E self mr ps ti uid l w)
    as (evs & Htr & Hk & _).
  exists evs. split; assumption.
Qed.

Lemma bounded_loop_body_requests mr ps ti uid l :
  bounded KTodoRun 1 (loop_body E self mr ps ti uid l).
Proof.
  unfold loop_body.
  apply (bounded_bind KTodoRun 1 0).
  - unfold attempt.
    apply (bounded_bind KTodoRun 1 0); [apply bounded_write_code_requests|].
    intros [c0 a].
    apply (bounded_emits KTodoRun [KLog; KExecute; KExists; KRead]);
      [reflexivity|].
    apply emits_bind; [apply quiet_emits; prove_quiet | intros _].
    apply emits_bind; [apply quiet_emits; prove_quiet | intros _].
    apply emits_bind; [apply emits_working_memory_add | intros _].
    apply emits_bind; [apply quiet_emits; prove_quiet | intros [r0 s0]].
    apply emits_bind.
    { apply quiet_emits. eapply quiet_mono; [|apply quiet_log_result].
      intros k; destruct k; simpl; congruence. }
    intros _.
    apply emits_bind; [apply emits_working_memory_add | intros _].
    apply quiet_emits, quiet_ret.
  - intros [[c0 r0] s0].
    apply (bounded_quiet KTodoRun [KReview]); [reflexivity|].
    apply quiet_bind; [apply quiet_review_step | intros c1; apply quiet_ret].
Qed.

(** The retries of a run of the loop, whatever its outcome: a kind of call
    that a turn makes at most once is made at most [max_retry - counter]
    times before the first review and [max_retry] times after each. *)
Lemma while_loop_bound k mr ps ti uid :
  (forall l, bounded k 1 (loop_body E self mr ps ti uid l)) ->
  forall fuel l w,
  exists evs,
    trace (snd (while_loop E self fuel mr ps ti uid l w)) = evs ++ trace w
    /\ calls k evs
       <= Z.to_nat (mr - counter l) + Z.to_nat mr * calls KReview evs.
Proof.
  intros Hk. induction fuel as [|fuel IH]; intros l w; simpl;
    destruct (negb (success l) && (counter l <? mr)%Z) eqn:Hcond;
    try (exists []; split; [reflexivity | simpl; lia]).
  apply andb_true_iff in Hcond as (_ & Hc). apply Z.ltb_lt in Hc.
  destruct (loop_body_outcome E self mr ps ti uid l w)
    as (evs1 & Htr1 & _ & Hr1 & _ & Hok).
  destruct (Hk l w) as (evsk & Htrk & Hk1).
  rewrite Htr1 in Htrk. apply app_inv_tail in Htrk. subst evsk.
  unfold bind.
  destruct (loop_body E self mr ps ti uid l w) as [[l1| e |] w1];
    cbn [fst snd] in *.
  - destruct (IH l1 w1) as (evs2 & Htr2 & Hb2).
    exists (evs2 ++ evs1). rewrite Htr2, Htr1, !calls_app.
    split; [apply app_assoc|].
    destruct (Hok l1 eq_refl)
      as (_ & _ & [(Hr0 & Hc1 & _)
                  | (_ & _ & review & b & cw & cws & tr & Hev & Hrt & _ & Hc1)]).
    + rewrite Hc1 in Hb2. rewrite Hr0. lia.
    + assert (Hone : calls KReview evs1 = 1)
        by (rewrite Hev; simpl; rewrite Hrt; reflexivity).
      rewrite Hone.
      destruct (Str.contains cw review); rewrite Hc1 in Hb2; lia.
  - exists evs1. split; [exact Htr1 | lia].
  - exists evs1. split; [exact Htr1 | lia].
Qed.

(** A run of the loop that returns: the locals it leaves are those of its
    last turn, and a failure is only left by a turn whose review did not
    ask for a change. *)
Lemma while_loop_Ok mr ps ti uid :
  forall fuel l w l' w',
    (0 <= counter l)%Z ->
    while_loop E self fuel mr ps ti uid l w = (Ok l', w') ->
    exists evs,
      trace w' = evs ++ trace w
      /\ (0 <= counter l')%Z
      /\ (counter l' <= counter l + Z.of_nat (calls KExecute evs))%Z
      /\ negb (success l') && (counter l' <? mr)%Z = false
      /\ ((evs = [] /\ l' = l)
          \/ exists c0 r0,
               code l' = Some c0 /\ result l' = Some r0
               /\ hd_error (executions evs) = Some (c0, r0, success l')
               /\ (success l' = true
                   \/ exists review b cw cws tr,
                        evs = EvReview false (CODE_REVIEW_TRIGGER E)
                                       (Returns (review, b)) :: tr
                        /\ CHANGE_WORDS E = cw :: cws
                        /\ Str.contains cw review = false)).
Proof.
  induction fuel as [|fuel IH]; intros l w l' w' H0 H; simpl in H;
    destruct (negb (success l) && (counter l <? mr)%Z) eqn:Hcond;
    try discriminate;
    try (unfold ret in H; injection H as <- <-; exists [];
         split; [reflexivity|]; split; [exact H0|];
         split; [simpl; lia|]; split; [exact Hcond|];
         left; split; reflexivity).
  apply andb_true_iff in Hcond as (_ & Hlt0). apply Z.ltb_lt in Hlt0.
  apply bind_Ok_inv in H as (l1 & w1 & H1 & H).
  destruct (loop_body_outcome E self mr ps ti uid l w)
    as (evs1 & Htr1 & _ & _ & _ & Hok).
  rewrite H1 in Htr1, Hok. cbn [fst snd] in Htr1, Hok.
  destruct (Hok l1 eq_refl) as (Hk1 & (c1 & r1 & Hc1 & Hr1 & Hhd1) & Hcases).
  assert (H01 : (0 <= counter l1 <= counter l + 1)%Z).
  { destruct Hcases
      as [(_ & -> & _)
         | (_ & _ & review & b & cw & cws & tr & _ & _ & _ & ->)]; [lia|].
    destruct (Str.contains cw review); lia. }
  destruct (IH l1 w1 l' w' (proj1 H01) H)
    as (evs2 & Htr2 & H0' & Hle & Hexit & Hlast).
  exists (evs2 ++ evs1).
  split; [rewrite Htr2, Htr1; apply app_assoc|].
  split; [exact H0'|]. split; [rewrite calls_app; lia|].
  split; [exact Hexit|]. right.
  destruct Hlast as [(-> & ->) | (c0 & r0 & Hc & Hr & Hhd & Hwhy)].
  - exists c1, r1. simpl app.
    split; [exact Hc1|]. split; [exact Hr1|]. split; [exact Hhd1|].
    destruct (success l1) eqn:Hs; [left; reflexivity | right].
    simpl in Hexit. apply Z.ltb_ge in Hexit.
    destruct Hcases
      as [(_ & Hcnt & [Hs' | Hlt])
         | (_ & Hge & review & b & cw & cws & tr & Hev & _ & Hcw & Hcnt)];
      [congruence | lia |].
    exists review, b, cw, cws, tr.
    split; [exact Hev|]. split; [exact Hcw|].
    destruct (Str.contains cw review); [lia | reflexivity].
  - exists c0, r0. split; [exact Hc|]. split; [exact Hr|]. split.
    + rewrite executions_app.
      destruct (executions evs2); [discriminate | exact Hhd].
    + destruct Hwhy as [Hs | (review & b & cw & cws & tr & -> & Hcw & Hno)];
        [left; exact Hs | right].
      exists review, b, cw, cws, (tr ++ evs1).
      split; [reflexivity|]. split; assumption.
Qed.

End LoopInvariants.

(** ** [_write_and_exec_code] in any environment *)

Section WholeFunction.

Variable E : Env.
Variable self : DataInterpreter.

Lemma bounded_check_data_execute : bounded KExecute 1 (_check_data E self).
Proof.
  intros w.
  destruct (check_data_cases E self w); cbn [snd];
    try (exists []; split; [reflexivity | simpl; lia]);
    (eexists; split; [reflexivity | simpl; lia]).
Qed.

Lemma bounded_prelude_execute : bounded KExecute 1 (prelude E self).
Proof.
  unfold prelude.
  apply (bounded_bind KExecute 0 1).
  { apply (bounded_quiet KExecute [KPlanStatus]); [reflexivity|].
    destruct (use_plan self); prove_quiet. }
  intros ps0.
  apply (bounded_bind KExecute 0 1).
  { apply (bounded_quiet KExecute [KToolInfo]); [reflexivity|].
    destruct (tool_recommender self); prove_quiet. }
  intros ti0.
  apply (bounded_bind KExecute 1 0); [apply bounded_check_data_execute|].
  intros _. apply bounded_ret.
Qed.

Lemma return_locals_world l w : snd (return_locals l w) = w.
Proof.
  unfold return_locals. destruct (code l), (result l); reflexivity.
Qed.

(** The calls of [_write_and_exec_code], whatever its outcome. *)
Lemma write_and_exec_code_calls fuel mr uid w :
  let w' := snd (_write_and_exec_code E self fuel mr uid w) in
  calls KExecute (during w w')
  <= 1 + Z.to_nat mr * (1 + calls KReview (during w w'))
  /\ calls KTodoRun (during w w')
     <= Z.to_nat mr * (1 + calls KReview (during w w')).
Proof.
  intros w'. subst w'.
  destruct (bounded_prelude_execute w) as (e0 & Ht0 & Hk0).
  destruct (emits_prelude E self w) as (e0' & Ht0' & Ho0).
  rewrite Ht0 in Ht0'. apply app_inv_tail in Ht0'. subst e0'.
  pose proof (only_calls _ KReview e0 Ho0 eq_refl) as Hr0.
  pose proof (only_calls _ KTodoRun e0 Ho0 eq_refl) as Hg0.
  unfold _write_and_exec_code, bind.
  destruct (prelude E self w) as [[[ps ti]| e |] w0]; cbn [fst snd] in *.
  2,3: rewrite (during_with_events e0 w w0 Ht0); lia.
  destruct (while_loop_bound E self KExecute mr ps ti uid
              (bounded_loop_body_execute E self mr ps ti uid) fuel
              (mkLocals 0 false None None) w0) as (e1 & Ht1 & Hb1).
  destruct (while_loop_bound E self KTodoRun mr ps ti uid
              (bounded_loop_body_requests E self mr ps ti uid) fuel
              (mkLocals 0 false None None) w0) as (e1' & Ht1' & Hg1).
  rewrite Ht1 in Ht1'. apply app_inv_tail in Ht1'. subst e1'.
  cbn [counter] in Hb1, Hg1. rewrite Z.sub_0_r in Hb1, Hg1.
  assert (Hd : forall w1,
             trace w1 = e1 ++ trace w0 -> during w w1 = e1 ++ e0).
  { intros w1 H. apply during_with_events. rewrite H, Ht0. apply app_assoc. }
  destruct (while_loop E self fuel mr ps ti uid _ w0) as [[l| e |] w1];
    cbn [fst snd] in *; try rewrite return_locals_world;
    rewrite (Hd w1 Ht1), !calls_app; lia.
Qed.

(** What a call that returns has done. *)
Lemma write_and_exec_code_Ok fuel mr uid w c r s w' :
  _write_and_exec_code E self fuel mr uid w = (Ok (c, r, s), w') ->
  (0 < mr)%Z
  /\ hd_error (executions (during w w')) = Some (c, r, s)
  /\ (exists before,
        working_memory w' = before ++ exchange (todo w) (c, r, s))
  /\ (s = false ->
      (mr <= Z.of_nat (calls KExecute (during w w')))%Z
      /\ exists review b cw cws tr,
           during w w' = EvReview false (CODE_REVIEW_TRIGGER E)
                                  (Returns (review, b)) :: tr
           /\ CHANGE_WORDS E = cw :: cws
           /\ Str.contains cw review = false).
Proof.
  unfold _write_and_exec_code. intros H.
  apply bind_Ok_inv in H as ([ps ti] & w0 & Hpre & H).
  apply bind_Ok_inv in H as (l & w1 & Hloop & H).
  unfold return_locals in H.
  destruct (code l) as [c0|] eqn:Hc; [|discriminate].
  destruct (result l) as [r0|] eqn:Hr; [|discriminate].
  unfold ret in H. injection H as <- <- <- <-.
  apply prelude_Ok in Hpre as (evs0 & ms & -> & _).
  destruct (while_loop_Ok E self mr ps ti uid fuel
              (mkLocals 0 false None None) _ _ _ (Z.le_refl 0) Hloop)
    as (evs & Htr & _ & Hle & Hexit & Hlast).
  destruct Hlast as [(_ & ->) | (c1 & r1 & Hc1 & Hr1 & Hhd & Hwhy)];
    [discriminate|].
  rewrite Hc in Hc1. injection Hc1 as <-.
  rewrite Hr in Hr1. injection Hr1 as <-.
  destruct (while_loop_exchanges E self fuel mr ps ti uid _ _ _ _ Hloop)
    as (evs' & Hw1 & _); [intros e; discriminate|].
  assert (Heq : evs' = evs).
  { rewrite Hw1 in Htr. cbn [trace with_events pushes] in Htr.
    apply app_inv_tail in Htr. exact Htr. }
  subst evs'.
  assert (Hd : during w w1 = evs ++ evs0).
  { apply during_with_events. rewrite Htr. cbn [trace with_events pushes].
    apply app_assoc. }
  rewrite Hd. split; [|split; [|split]].
  - destruct (Z.ltb_spec 0 mr) as [Hpos | Hneg]; [exact Hpos|].
    rewrite while_loop_done in Hloop by (right; simpl; lia).
    injection Hloop as <- _. discriminate.
  - rewrite executions_app.
    destruct (executions evs); [discriminate | exact Hhd].
  - rewrite Hw1. cbn [working_memory with_events pushes todo].
    destruct (executions evs) as [|x xs]; [discriminate|].
    simpl in Hhd. injection Hhd as ->.
    cbn [rev]. rewrite flat_map_app. cbn [flat_map]. rewrite app_nil_r.
    eexists. rewrite !app_assoc. reflexivity.
  - intros Hs. rewrite Hs in Hexit. cbn [negb andb] in Hexit.
    apply Z.ltb_ge in Hexit. cbn [counter] in Hle.
    split; [rewrite calls_app; lia|].
    destruct Hwhy as [Ht | (review & b & cw & cws & tr & -> & Hcw & Hno)];
      [congruence|].
    exists review, b, cw, cws, (tr ++ evs0).
    split; [reflexivity|]. split; assumption.
Qed.

End WholeFunction.

(** ** Reflection *)

(** C5. Every attempt of the retry loop whose [rc.todo] and role memory
    are set invokes the generator, exactly once, and the request is
    reflective if and only if the attempt counter is greater than 0 and
    [use_reflection] is set; so does every attempt that runs to its end.
    (An attempt makes no request only when [_write_code] raises before its
    call, for want of a todo or of a requirement.)  The first request of a
    call to [_write_and_exec_code], that of the first attempt, is never
    reflective, and a call that returns has made one. *)
Theorem reflection_only_after_the_first_attempt :
  forall (E : Env) (self : DataInterpreter) (fuel : nat) (max_retry : Z)
         (ps ti user_id : str) (l : Locals) (w : World),
    let turn := loop_body E self max_retry ps ti user_id l w in
    let asked := requests (during w (snd turn)) in
    let reflective := (0 <? counter l)%Z && use_reflection self in
    let call := _write_and_exec_code E self fuel max_retry user_id w in
    (reflective = true <-> (0 < counter l)%Z /\ use_reflection self = true)
    /\ (asked = []
        \/ exists req, asked = [req] /\ req_use_reflection req = reflective)
    /\ (todo w <> None -> memory w <> [] ->
        exists req, asked = [req] /\ req_use_reflection req = reflective)
    /\ (forall l', fst turn = Ok l' ->
        exists req, asked = [req] /\ req_use_reflection req = reflective)
    /\ (first_request_flag (during w (snd call)) = None
        \/ first_request_flag (during w (snd call)) = Some false)
    /\ (forall x, fst call = Ok x ->
        first_request_flag (during w (snd call)) = Some false).
Proof.
  intros E self fuel mr ps ti uid l w turn asked reflective call.
  assert (Hasked : asked
                   = match todo w, rev (memory w) with
                     | Some a, m :: _ =>
                         [mkWriteReq (content m) ps ti (working_memory w)
                                     reflective uid]
                     | _, _ => []
                     end)
    by (apply loop_body_asks).
  assert (Hcall : exists evs0 evs,
             trace (snd call) = (evs ++ evs0) ++ trace w
             /\ requests evs0 = []
             /\ (first_request_flag evs = None
                 \/ first_request_flag evs = Some false)
             /\ (forall x, fst call = Ok x -> requests evs <> [])).
  { subst call.
    destruct (emits_prelude E self w) as (evs0 & H0 & Ho0).
    pose proof (only_requests _ _ Ho0 eq_refl) as Hr0.
    unfold _write_and_exec_code.
    destruct (prelude E self w) as [[[ps0 ti0]| e |] w0] eqn:Hpre;
      cbn [snd] in H0.
    2:{ rewrite (bind_Exc _ _ _ _ _ Hpre). exists evs0, [].
        split; [exact H0|]. split; [exact Hr0|].
        split; [left; reflexivity | intros x Hx; discriminate Hx]. }
    2:{ exfalso. apply (total_prelude E self w). rewrite Hpre. reflexivity. }
    rewrite (bind_Ok _ _ _ _ _ Hpre). cbn beta iota.
    destruct (while_loop_first_request E self fuel mr ps0 ti0 uid
                (mkLocals 0 false None None) w0) as (evs & H & Hflag).
    exists evs0, evs. unfold bind.
    destruct (while_loop E self fuel mr ps0 ti0 uid _ w0) as [r w1] eqn:Hrun.
    cbn [snd] in H.
    split.
    { destruct r as [l'| e |]; cbn [snd];
        try rewrite return_locals_world; rewrite H, H0; apply app_assoc. }
    split; [exact Hr0|]. split; [exact Hflag|].
    intros x Hx.
    destruct r as [l'| e |]; try discriminate Hx.
    unfold return_locals in Hx.
    destruct (code l') as [c0|] eqn:Hc; [|destruct (result l'); discriminate].
    destruct (while_loop_Ok E self mr ps0 ti0 uid fuel
                (mkLocals 0 false None None) _ _ _ (Z.le_refl 0) Hrun)
      as (evs' & Htr' & _ & _ & _ & Hlast).
    rewrite H in Htr'. apply app_inv_tail in Htr'. subst evs'.
    destruct Hlast as [(_ & ->) | (c1 & r1 & _ & _ & Hhd & _)];
      [discriminate|].
    destruct (while_loop_exchanges E self fuel mr ps0 ti0 uid _ _ _ _ Hrun)
      as (evs' & Hw1 & Hlen & Hgen); [intros e; discriminate|].
    assert (Heq : evs' = evs).
    { rewrite Hw1 in H. cbn [trace with_events pushes] in H.
      apply app_inv_tail in H. exact H. }
    subst evs'. intros Hnil.
    apply (f_equal (@List.length WriteReq)) in Hnil.
    rewrite length_requests, Hgen, <- Hlen in Hnil.
    destruct (executions evs); discriminate. }
  split; [|split; [|split; [|split; [|split]]]].
  - subst reflective. rewrite andb_true_iff, Z.ltb_lt. reflexivity.
  - rewrite Hasked. destruct (todo w); [|left; reflexivity].
    destruct (rev (memory w)); [left; reflexivity|].
    right. eexists. split; reflexivity.
  - intros Htodo Hmem. rewrite Hasked.
    destruct (todo w); [|contradiction].
    destruct (rev (memory w)) eqn:Hrev;
      [apply rev_nil_inv in Hrev; contradiction|].
    eexists. split; reflexivity.
  - intros l' Hok.
    destruct (loop_body_requests E self mr ps ti uid l w)
      as (evs & H & _ & _ & Hne).
    specialize (Hne l' Hok). subst asked turn.
    rewrite (during_with_events evs w _ H) in Hasked.
    rewrite (during_with_events evs w _ H).
    rewrite Hasked in *.
    destruct (todo w); [|contradiction].
    destruct (rev (memory w)); [contradiction|].
    eexists. split; reflexivity.
  - destruct Hcall as (evs0 & evs & Htr & Hr0 & Hflag & _).
    rewrite (during_with_events (evs ++ evs0) w _ Htr).
    unfold first_request_flag in *.
    rewrite requests_app, Hr0, app_nil_r. exact Hflag.
  - intros x Hx. destruct Hcall as (evs0 & evs & Htr & Hr0 & Hflag & Hne).
    rewrite (during_with_events (evs ++ evs0) w _ Htr).
    unfold first_request_flag in *.
    rewrite requests_app, Hr0, app_nil_r.
    destruct Hflag as [Hnone | Hsome]; [|exact Hsome].
    exfalso. apply (Hne x Hx).
    destruct (rev (requests evs)) eqn:Hrev; [|discriminate].
    apply rev_nil_inv in Hrev. exact Hrev.
Qed.

(** A run of C5, with reflection on: the request of an attempt is
    reflective when the counter is 1, and is not when it is 0. *)
Lemma reflection_only_after_the_first_attempt_witness :
  let E := Demo.env (Demo.fails_then_succeeds 1) Demo.quiet_sink (py "no")
                    (py "df.info()") in
  let self := mkDataInterpreter true true true false 10 in
  let w := Demo.start Demo.first_plan in
  let asked := fun c =>
                 requests (during w (snd (loop_body E self 3 [] [] (py "u")
                                            (mkLocals c false None None) w))) in
  (exists req, asked 1%Z = [req] /\ req_use_reflection req = true)
  /\ (exists req, asked 0%Z = [req] /\ req_use_reflection req = false)
  /\ first_request_flag
       (during w (snd (_write_and_exec_code E self 5 3 (py "u") w)))
     = Some false.
Proof.
  intros E self w asked.
  destruct (reflection_only_after_the_first_attempt E self 5 3 [] [] (py "u")
              (mkLocals 1 false None None) w) as (_ & _ & H1 & _).
  destruct (reflection_only_after_the_first_attempt E self 5 3 [] [] (py "u")
              (mkLocals 0 false None None) w) as (_ & _ & H0 & _ & _ & Hcall).
  split; [apply H1; discriminate|]. split; [apply H0; discriminate|].
  apply (Hcall (py "attempt_1", py "ok", true)). vm_compute. reflexivity.
Defined.

(** X9. With [max_retry <= 0] the loop of [_write_and_exec_code] is never
    entered: no code is written and the reviewer is not asked.  The lines
    before the loop still run, the call ends where they end, and it never
    returns a result: when those lines return, it raises
    [UnboundLocalError] at [return code, result, success]. *)
Theorem write_and_exec_code_without_retries :
  forall (E : Env) (self : DataInterpreter) (fuel : nat) (mr : Z)
         (uid : str) (w : World),
    (mr <= 0)%Z ->
    let out := _write_and_exec_code E self fuel mr uid w in
    (exists e, fst out = Exc e)
    /\ snd out = snd (prelude E self w)
    /\ calls KTodoRun (during w (snd out)) = 0
    /\ calls KReview (during w (snd out)) = 0
    /\ ((exists x, fst (prelude E self w) = Ok x) ->
        fst out = Exc UnboundLocalError).
Proof.
  intros E self fuel mr uid w Hmr out.
  assert (Hout : (exists e, fst out = Exc e)
                 /\ snd out = snd (prelude E self w)
                 /\ ((exists x, fst (prelude E self w) = Ok x) ->
                     fst out = Exc UnboundLocalError)).
  { subst out. unfold _write_and_exec_code, bind.
    pose proof (total_prelude E self w) as Htot.
    destruct (prelude E self w) as [[[ps ti]| e |] w0]; cbn [fst snd] in *.
    - rewrite while_loop_done by (right; simpl; lia).
      cbn. split; [eexists; reflexivity|]. split; reflexivity.
    - split; [eexists; reflexivity|]. split; [reflexivity|].
      intros [x Hx]. discriminate.
    - congruence. }
  destruct Hout as (He & Hw & Hp).
  split; [exact He|]. split; [exact Hw|].
  destruct (emits_prelude E self w) as (e0 & Ht0 & Ho0).
  rewrite Hw, (during_with_events e0 w _ Ht0).
  split; [apply (only_calls _ KTodoRun e0 Ho0 eq_refl)|].
  split; [apply (only_calls _ KReview e0 Ho0 eq_refl) | exact Hp].
Qed.

Lemma write_and_exec_code_without_retries_witness :
  let E := Demo.env Demo.always_fails Demo.quiet_sink (py "no")
                    (py "df.info()") in
  let w := Demo.start Demo.preprocess_plan in
  let out := _write_and_exec_code E Demo.planning 5 0 (py "u") w in
  fst out = Exc UnboundLocalError
  /\ calls KTodoRun (during w (snd out)) = 0
  /\ calls KExecute (during w (snd out)) = 1.
Proof.
  intros E w out.
  destruct (write_and_exec_code_without_retries E Demo.planning 5 0 (py "u") w)
    as (_ & _ & Hg & _ & Hp); [lia|].
  split; [apply Hp; eexists; vm_compute; reflexivity|].
  split; [exact Hg | vm_compute; reflexivity].
Defined.

(** X10. Whenever [_write_and_exec_code] returns [(code, result, success)],
    in any environment: [max_retry] was positive, the triple is the code,
    the result and the flag of the last call it made to the execution
    backend, and the last two messages of the working memory are that code
    and that result. *)
Theorem write_and_exec_code_returns_the_last_execution :
  forall (E : Env) (self : DataInterpreter) (fuel : nat) (mr : Z)
         (uid : str) (w w' : World) (c r : str) (s : bool),
    _write_and_exec_code E self fuel mr uid w = (Ok (c, r, s), w') ->
    (0 < mr)%Z
    /\ hd_error (executions (during w w')) = Some (c, r, s)
    /\ exists before,
         working_memory w'
         = before ++ [mkMessage c assistant (todo w);
                      mkMessage r user (Some ExecuteNbCode)].
Proof.
  intros E self fuel mr uid w w' c r s H.
  destruct (write_and_exec_code_Ok E self fuel mr uid w c r s w' H)
    as (Hmr & Hhd & Hwm & _).
  split; [exact Hmr|]. split; [exact Hhd | exact Hwm].
Qed.

Lemma write_and_exec_code_returns_the_last_execution_witness :
  let E := Demo.env (Demo.fails_then_succeeds 2) Demo.quiet_sink (py "no")
                    (py "df.info()") in
  let w := Demo.start Demo.preprocess_plan in
  let out := _write_and_exec_code E Demo.planning 5 3 (py "u") w in
  fst out = Ok (py "attempt_1", py "ok", true)
  /\ hd_error (executions (during w (snd out)))
     = Some (py "attempt_1", py "ok", true)
  /\ exists before,
       working_memory (snd out)
       = before ++ [mkMessage (py "attempt_1") assistant (Some WriteAnalysisCode);
                    mkMessage (py "ok") user (Some ExecuteNbCode)].
Proof.
  intros E w out.
  assert (Hrun : out = (Ok (py "attempt_1", py "ok", true), snd out))
    by (vm_compute; reflexivity).
  destruct (write_and_exec_code_returns_the_last_execution
              E Demo.planning 5 3 (py "u") w (snd out) _ _ _ Hrun)
    as (_ & Hhd & Hwm).
  split; [rewrite Hrun; reflexivity|]. split; [exact Hhd | exact Hwm].
Defined.

(** X11. [_write_and_exec_code] reports a failure only with the consent of
    the reviewer.  Whenever it returns [success = False], in any
    environment, the last call it made is a review (asked with
    [auto_run=False] and the code-review trigger) whose answer does not
    contain [CHANGE_WORDS[0]], and the execution backend has been called
    at least [max_retry] times. *)
Theorem write_and_exec_code_fails_only_after_a_declined_review :
  forall (E : Env) (self : DataInterpreter) (fuel : nat) (mr : Z)
         (uid : str) (w w' : World) (c r : str),
    _write_and_exec_code E self fuel mr uid w = (Ok (c, r, false), w') ->
    (mr <= Z.of_nat (calls KExecute (during w w')))%Z
    /\ exists review b cw cws tr,
         during w w' = EvReview false (CODE_REVIEW_TRIGGER E)
                                (Returns (review, b)) :: tr
         /\ CHANGE_WORDS E = cw :: cws
         /\ Str.contains cw review = false.
Proof.
  intros E self fuel mr uid w w' c r H.
  destruct (write_and_exec_code_Ok E self fuel mr uid w c r false w' H)
    as (_ & _ & _ & Hfail).
  exact (Hfail eq_refl).
Qed.

Lemma write_and_exec_code_fails_only_after_a_declined_review_witness :
  let E := Demo.env Demo.always_fails Demo.quiet_sink (py "no")
                    (py "df.info()") in
  let w := Demo.start Demo.first_plan in
  let out := _write_and_exec_code E Demo.planning 5 3 (py "u") w in
  fst out = Ok (py "attempt_2", py "NameError", false)
  /\ (3 <= Z.of_nat (calls KExecute (during w (snd out))))%Z
  /\ exists review b cw cws tr,
       during w (snd out) = EvReview false (py "code") (Returns (review, b)) :: tr
       /\ [py "change"] = cw :: cws
       /\ Str.contains cw review = false.
Proof.
  intros E w out.
  assert (Hrun : out = (Ok (py "attempt_2", py "NameError", false), snd out))
    by (vm_compute; reflexivity).
  split; [rewrite Hrun; reflexivity|].
  exact (write_and_exec_code_fails_only_after_a_declined_review
           E Demo.planning 5 3 (py "u") w (snd out) _ _ Hrun).
Defined.

(** X12. The retries of [_write_and_exec_code] are bounded by the reviews,
    whatever the environment does and however the call ends: with [n]
    reviews asked, the generator has been called at most
    [max_retry * (1 + n)] times and the execution backend at most once
    more (the data check).  Without a review, at most [max_retry] pieces of
    code are written. *)
Theorem write_and_exec_code_retry_bound :
  forall (E : Env) (self : DataInterpreter) (fuel : nat) (mr : Z)
         (uid : str) (w : World),
    let w' := snd (_write_and_exec_code E self fuel mr uid w) in
    let n := calls KReview (during w w') in
    calls KTodoRun (during w w') <= Z.to_nat mr * (1 + n)
    /\ calls KExecute (during w w') <= 1 + Z.to_nat mr * (1 + n)
    /\ (n = 0 -> calls KTodoRun (during w w') <= Z.to_nat mr).
Proof.
  intros E self fuel mr uid w w' n. subst w' n.
  destruct (write_and_exec_code_calls E self fuel mr uid w) as (Hx & Hg).
  cbv zeta in Hx, Hg.
  split; [exact Hg|]. split; [exact Hx|].
  intros Hn. rewrite Hn in Hg. lia.
Qed.

(** ** The two wrappers *)

Lemma executions_calls (tr : Trace) :
  List.length (executions tr) <= calls KExecute tr.
Proof.
  induction tr as [|ev tr IH]; simpl; [lia|].
  destruct ev as [| ? [[? ?]|] | | | | | | | | |]; simpl; lia.
Qed.

Lemma act_on_task_Ok E self fuel t uid w res w' :
  _act_on_task E self fuel t uid w = (Ok res, w') ->
  _write_and_exec_code E self fuel 3 uid w
  = (Ok (tr_code res, tr_result res, tr_is_success res), w').
Proof.
  unfold _act_on_task. intros H.
  apply bind_Ok_inv in H as ([[c r] s] & w1 & Hrun & H).
  unfold ret in H. injection H as <- <-. exact Hrun.
Qed.

Lemma act_Ok E self fuel w msg w' :
  _act E self fuel w = (Ok msg, w') ->
  role msg = assistant /\ cause_by msg = Some WriteAnalysisCode
  /\ exists r s,
       _write_and_exec_code E self fuel 3 [] w = (Ok (content msg, r, s), w').
Proof.
  unfold _act. intros H.
  apply bind_Ok_inv in H as ([[c r] s] & w1 & Hrun & H).
  unfold ret in H. injection H as <- <-.
  split; [reflexivity|]. split; [reflexivity|]. exists r, s. exact Hrun.
Qed.

(** X13. Whenever [_act_on_task] returns a [TaskResult], its three fields
    are the code, the result and the flag of the last call to the
    execution backend, made with the default of three retries: the backend
    was called between 1 and [4 + 3 n] times, where [n] is the number of
    reviews.  A [TaskResult] with [is_success = False] is only returned
    after at least three executions and at least one review. *)
Theorem act_on_task_wraps_the_last_execution :
  forall (E : Env) (self : DataInterpreter) (fuel : nat) (t : Task)
         (uid : str) (w w' : World) (res : TaskResult),
    _act_on_task E self fuel t uid w = (Ok res, w') ->
    hd_error (executions (during w w'))
    = Some (tr_code res, tr_result res, tr_is_success res)
    /\ 1 <= calls KExecute (during w w')
         <= 4 + 3 * calls KReview (during w w')
    /\ (tr_is_success res = false ->
        3 <= calls KExecute (during w w')
        /\ 1 <= calls KReview (during w w')).
Proof.
  intros E self fuel t uid w w' res H.
  apply act_on_task_Ok in H.
  destruct (write_and_exec_code_Ok E self fuel 3 uid w _ _ _ w' H)
    as (_ & Hhd & _ & Hfail).
  pose proof (write_and_exec_code_calls E self fuel 3 uid w) as Hb.
  rewrite H in Hb. cbn [snd] in Hb. cbv zeta in Hb. destruct Hb as (Hb & _).
  change (Z.to_nat 3) with 3 in Hb.
  split; [exact Hhd|]. split.
  - split; [|lia].
    pose proof (executions_calls (during w w')) as Hlen.
    destruct (executions (during w w')); [discriminate | simpl in Hlen; lia].
  - intros Hs.
    destruct (Hfail Hs) as (Hge & review & b & cw & cws & tr & Hev & _).
    split; [lia|]. rewrite Hev. simpl. lia.
Qed.

Lemma act_on_task_wraps_the_last_execution_witness :
  let E := Demo.env (Demo.fails_then_succeeds 2) Demo.quiet_sink (py "no")
                    (py "df.info()") in
  let w := Demo.start Demo.first_plan in
  let out := _act_on_task E Demo.planning 5 Demo.load_task (py "u") w in
  fst out = Ok (mkTaskResult (py "attempt_2") (py "ok") true)
  /\ hd_error (executions (during w (snd out)))
     = Some (py "attempt_2", py "ok", true)
  /\ 1 <= calls KExecute (during w (snd out))
       <= 4 + 3 * calls KReview (during w (snd out)).
Proof.
  intros E w out.
  assert (Hrun : out = (Ok (mkTaskResult (py "attempt_2") (py "ok") true),
                        snd out))
    by (vm_compute; reflexivity).
  destruct (act_on_task_wraps_the_last_execution
              E Demo.planning 5 Demo.load_task (py "u") w (snd out) _ Hrun)
    as (Hhd & Hk & _).
  split; [rewrite Hrun; reflexivity|]. split; [exact Hhd | exact Hk].
Defined.

(** X14. Whenever [_act] returns, its message has the role "assistant",
    is caused by [WriteAnalysisCode], and its content is the code of the
    last call to the execution backend, made with three retries and the
    empty user id.  The flag of that execution is dropped: the message is
    the same whether the code ran or failed, and a failed code is returned
    after a review that did not ask for a change. *)
Theorem act_returns_the_last_code :
  forall (E : Env) (self : DataInterpreter) (fuel : nat) (w w' : World)
         (msg : Message),
    _act E self fuel w = (Ok msg, w') ->
    role msg = assistant
    /\ cause_by msg = Some WriteAnalysisCode
    /\ exists r s,
         _write_and_exec_code E self fuel 3 [] w = (Ok (content msg, r, s), w')
         /\ hd_error (executions (during w w')) = Some (content msg, r, s)
         /\ (s = false -> 1 <= calls KReview (during w w')).
Proof.
  intros E self fuel w w' msg H.
  apply act_Ok in H as (Hrole & Hcause & r & s & Hrun).
  split; [exact Hrole|]. split; [exact Hcause|]. exists r, s.
  destruct (write_and_exec_code_Ok E self fuel 3 [] w _ _ _ w' Hrun)
    as (_ & Hhd & _ & Hfail).
  split; [exact Hrun|]. split; [exact Hhd|].
  intros Hs.
  destruct (Hfail Hs) as (_ & review & b & cw & cws & tr & Hev & _).
  rewrite Hev. simpl. lia.
Qed.

Lemma act_returns_the_last_code_witness :
  let E := Demo.env Demo.always_fails Demo.quiet_sink (py "no")
                    (py "df.info()") in
  let w := Demo.started Demo.first_plan in
  let out := _act E Demo.reacting 5 w in
  fst out = Ok (mkMessage (py "attempt_2") assistant (Some WriteAnalysisCode))
  /\ exists r s,
       _write_and_exec_code E Demo.reacting 5 3 [] w
       = (Ok (py "attempt_2", r, s), snd out)
       /\ hd_error (executions (during w (snd out)))
          = Some (py "attempt_2", r, s)
       /\ (s = false -> 1 <= calls KReview (during w (snd out))).
Proof.
  intros E w out.
  assert (Hrun : out = (Ok (mkMessage (py "attempt_2") assistant
                                      (Some WriteAnalysisCode)), snd out))
    by (vm_compute; reflexivity).
  destruct (act_returns_the_last_code E Demo.reacting 5 w (snd out) _ Hrun)
    as (_ & _ & H).
  split; [rewrite Hrun; reflexivity | exact H].
Defined.

(** ** The user id *)

Section Where.

Context {A B : Type}.
Variable P : Event -> Prop.

Lemma emits_where_bind (c : M A) (k : A -> M B) :
  emits_where P c -> (forall a, emits_where P (k a)) -> emits_where P (bind c k).
Proof.
  intros Hc Hk w. destruct (Hc w) as (evs & H & HP). unfold bind.
  destruct (c w) as [[a| e |] w1]; cbn [fst snd] in *;
    try (exists evs; split; assumption).
  destruct (Hk a w1) as (evs' & H' & HP'). exists (evs' ++ evs).
  rewrite H', H. split; [apply app_assoc | apply Forall_app; split; assumption].
Qed.

Lemma emits_where_call k (oracle : nat -> Resp A) ev :
  (forall r, P (ev r)) -> emits_where P (call k oracle ev).
Proof.
  intros H w. exists [ev (oracle (calls k (trace w)))].
  split; [reflexivity | constructor; [apply H | constructor]].
Qed.

Lemma emits_where_emits ks (c : M A) :
  (forall ev, existsb (kind_eqb (kind_of ev)) ks = true -> P ev) ->
  emits ks c -> emits_where P c.
Proof.
  intros H Hc w. destruct (Hc w) as (evs & Ht & Ho). exists evs.
  split; [exact Ht|]. unfold only in Ho.
  eapply Forall_impl; [|exact Ho]. exact H.
Qed.

Lemma emits_where_silent (c : M A) : quiet [] c -> emits_where P c.
Proof.
  intros Hc. apply (emits_where_emits []); [intros ev; discriminate|].
  apply quiet_emits, Hc.
Qed.

Lemma emits_where_try_except (body : M A) handler :
  emits_where P body -> (forall e, emits_where P (handler e)) ->
  emits_where P (try_except body handler).
Proof.
  intros Hb Hh w. destruct (Hb w) as (evs & H & HP). unfold try_except.
  destruct (body w) as [[a| e |] w1]; cbn [fst snd] in *;
    try (exists evs; split; assumption).
  destruct (is_Exception e); [|exists evs; split; assumption].
  destruct (Hh e w1) as (evs' & H' & HP'). exists (evs' ++ evs).
  rewrite H', H. split; [apply app_assoc | apply Forall_app; split; assumption].
Qed.

End Where.

Lemma emits_where_for_each {A} P (xs : list A) body :
  (forall x, emits_where P (body x)) -> emits_where P (for_each xs body).
Proof.
  intros Hb. induction xs as [|x xs IH]; simpl.
  - intros w. exists []. split; [reflexivity | constructor].
  - apply emits_where_bind; [apply Hb | intros _; exact IH].
Qed.

Section UserId.

Variable E : Env.
Variable self : DataInterpreter.
Variable uid : str.

Lemma addressed_other ks (A : Type) (c : M A) :
  existsb (kind_eqb KLog) ks = false ->
  existsb (kind_eqb KTodoRun) ks = false ->
  emits ks c -> emits_where (addressed_to uid) c.
Proof.
  intros Hl Hg. apply emits_where_emits.
  intros ev; destruct ev; simpl kind_of; unfold addressed_to; intros H;
    try exact I; congruence.
Qed.

Lemma addressed_log_execution text :
  emits_where (addressed_to uid) (log_execution E text uid).
Proof. apply emits_where_call. intros r. reflexivity. Qed.

Lemma addressed_extract_and_log_images result :
  emits_where (addressed_to uid) (extract_and_log_images E result uid).
Proof.
  unfold extract_and_log_images. apply emits_where_for_each. intros p.
  apply emits_where_try_except.
  - unfold image_body.
    apply emits_where_bind.
    { apply (addressed_other [KExists]); [reflexivity | reflexivity|].
      apply quiet_emits. prove_quiet. }
    intros [|]; [|apply addressed_log_execution].
    apply emits_where_bind.
    { apply (addressed_other [KRead]); [reflexivity | reflexivity|].
      apply quiet_emits. prove_quiet. }
    intros data.
    repeat (apply emits_where_bind; [apply addressed_log_execution | intros _]).
    apply addressed_log_execution.
  - intros e. apply addressed_log_execution.
Qed.

Lemma addressed_write_code c ps ti :
  emits_where (addressed_to uid) (_write_code E self c ps ti uid).
Proof.
  unfold _write_code.
  apply emits_where_bind; [apply emits_where_silent; prove_quiet|].
  intros [a|]; [|apply emits_where_silent; prove_quiet].
  apply emits_where_bind; [apply emits_where_silent; prove_quiet | intros mem].
  apply emits_where_bind; [apply emits_where_silent; prove_quiet | intros m].
  apply emits_where_bind; [apply emits_where_silent; prove_quiet | intros wm].
  apply emits_where_bind; [|intros c0; apply emits_where_silent; prove_quiet].
  apply emits_where_call. intros r. reflexivity.
Qed.

Lemma addressed_working_memory_add m :
  emits_where (addressed_to uid) (working_memory_add m).
Proof.
  apply (addressed_other []); [reflexivity | reflexivity|].
  apply emits_working_memory_add.
Qed.

Lemma addressed_loop_body mr ps ti l :
  emits_where (addressed_to uid) (loop_body E self mr ps ti uid l).
Proof.
  unfold loop_body, attempt.
  apply emits_where_bind.
  - apply emits_where_bind; [apply addressed_write_code | intros [c0 a]].
    apply emits_where_bind; [apply addressed_log_execution | intros _].
    apply emits_where_bind; [apply addressed_log_execution | intros _].
    apply emits_where_bind; [apply addressed_working_memory_add | intros _].
    apply emits_where_bind.
    { apply (addressed_other [KExecute]); [reflexivity | reflexivity|].
      apply quiet_emits. prove_quiet. }
    intros [r0 s0].
    apply emits_where_bind.
    { destruct s0.
      - apply emits_where_bind; [apply addressed_log_execution | intros _].
        apply emits_where_bind; [apply addressed_log_execution | intros _].
        apply addressed_extract_and_log_images.
      - apply emits_where_bind; [apply addressed_log_execution | intros _].
        apply addressed_log_execution. }
    intros _.
    apply emits_where_bind; [apply addressed_working_memory_add | intros _].
    apply emits_where_silent, quiet_ret.
  - intros [[c0 r0] s0].
    apply (addressed_other [KReview]); [reflexivity | reflexivity|].
    apply quiet_emits.
    apply quiet_bind; [apply quiet_review_step | intros c1; apply quiet_ret].
Qed.

Lemma addressed_while_loop mr ps ti fuel :
  forall l, emits_where (addressed_to uid)
                        (while_loop E self fuel mr ps ti uid l).
Proof.
  induction fuel as [|fuel IH]; intros l; simpl;
    destruct (negb (success l) && (counter l <? mr)%Z).
  - intros w. exists []. split; [reflexivity | constructor].
  - apply emits_where_silent, quiet_ret.
  - apply emits_where_bind; [apply addressed_loop_body | exact IH].
  - apply emits_where_silent, quiet_ret.
Qed.

Lemma addressed_write_and_exec_code fuel mr :
  emits_where (addressed_to uid) (_write_and_exec_code E self fuel mr uid).
Proof.
  unfold _write_and_exec_code.
  apply emits_where_bind.
  { apply (addressed_other [KPlanStatus; KToolInfo; KCheckData; KExecute]);
      [reflexivity | reflexivity | apply emits_prelude]. }
  intros [ps ti].
  apply emits_where_bind; [apply addressed_while_loop | intros l].
  apply emits_where_silent. unfold return_locals.
  destruct (code l), (result l); prove_quiet.
Qed.

End UserId.

Lemma emits_where_during {A} P (c : M A) w :
  emits_where P c -> Forall P (during w (snd (c w))).
Proof.
  intros Hc. destruct (Hc w) as (evs & Ht & HP).
  rewrite (during_with_events evs w _ Ht). exact HP.
Qed.

(** X15. The user id given to [_write_and_exec_code] reaches every entry
    it writes to the log sink (image entries and error reports included)
    and every request it makes to the generator, whatever the environment
    does and however the call ends.  [_act_on_task] passes its own
    [user_id] on; [_act] passes none, so in the reactive strategy every
    entry and every request carries the empty user id. *)
Theorem user_id_reaches_every_entry_and_request :
  forall (E : Env) (self : DataInterpreter) (fuel : nat) (mr : Z)
         (uid : str) (t : Task) (w : World),
    Forall (addressed_to uid)
           (during w (snd (_write_and_exec_code E self fuel mr uid w)))
    /\ Forall (addressed_to uid)
              (during w (snd (_act_on_task E self fuel t uid w)))
    /\ Forall (addressed_to [])
              (during w (snd (_act E self fuel w))).
Proof.
  intros E self fuel mr uid t w. split; [|split].
  - apply emits_where_during, addressed_write_and_exec_code.
  - apply emits_where_during. unfold _act_on_task.
    apply emits_where_bind; [apply addressed_write_and_exec_code|].
    intros [[c r] s]. apply emits_where_silent, quiet_ret.
  - apply emits_where_during. unfold _act.
    apply emits_where_bind; [apply addressed_write_and_exec_code|].
    intros [[c r] s]. apply emits_where_silent, quiet_ret.
Qed.

(** ** A reviewer who always asks for a change *)

Section Spinning.

Variable E : Env.
Variable self : DataInterpreter.
Hypothesis Hcoop : cooperative E.

Variable cw : str.
Variable cws : list str.
Variable mr : Z.

Hypothesis Hcw : CHANGE_WORDS E = cw :: cws.
Hypothesis Hfail : forall n, execution_flag E n false.
Hypothesis Hreview :
  forall n, exists review b,
    planner_ask_review E n false (CODE_REVIEW_TRIGGER E) = Returns (review, b)
    /\ Str.contains cw review = true.

Lemma while_loop_spins ps ti uid a :
  forall fuel l w,
    todo w = Some a -> memory w <> [] ->
    success l = false -> (0 <= counter l < mr)%Z ->
    exists w',
      while_loop E self fuel mr ps ti uid l w = (OutOfFuel, w')
      /\ calls KExecute (trace w') = calls KExecute (trace w) + fuel.
Proof.
  induction fuel as [|fuel IH]; intros l w Ha Hmem Hs Hc.
  - exists w. simpl. rewrite Hs.
    replace (counter l <? mr)%Z with true by (symmetry; apply Z.ltb_lt; lia).
    split; [reflexivity | lia].
  - rewrite while_loop_turn by (assumption || lia).
    destruct (Z_lt_le_dec (counter l + 1) mr) as [Hlt | Hge].
    + destruct (loop_body_run E self Hcoop mr ps ti uid l w a false Ha Hmem
                  (Hfail _) (or_intror Hlt))
        as (c0 & r0 & evs & Hrun & _ & Hk & _).
      rewrite (bind_Ok _ _ _ _ _ Hrun).
      match goal with
      | |- context [while_loop _ _ _ _ _ _ _ ?l1 ?w1] =>
          destruct (IH l1 w1) as (w' & Hw' & Hn);
            [exact Ha | exact Hmem | reflexivity | simpl; lia |]
      end.
      exists w'. split; [exact Hw'|]. rewrite Hn.
      cbn [trace with_events pushes]. rewrite calls_app, Hk. lia.
    + destruct (Hreview (calls KReview (trace w))) as (review & b & Hrev & Hin).
      destruct (loop_body_review E self Hcoop mr ps ti uid l w a review b
                  cw cws Ha Hmem (Hfail _) Hge Hrev Hcw)
        as (c0 & r0 & evs & Hrun & _ & Hk & _).
      rewrite Hin in Hrun.
      rewrite (bind_Ok _ _ _ _ _ Hrun).
      match goal with
      | |- context [while_loop _ _ _ _ _ _ _ ?l1 ?w1] =>
          destruct (IH l1 w1) as (w' & Hw' & Hn);
            [exact Ha | exact Hmem | reflexivity | simpl; lia |]
      end.
      exists w'. split; [exact Hw'|]. rewrite Hn.
      cbn [trace with_events pushes]. rewrite calls_app, Hk. lia.
Qed.

End Spinning.

(** X16. The loop of [_write_and_exec_code] has no bound of its own.  In a
    cooperative environment where every execution fails and every review
    contains [CHANGE_WORDS[0]], with [max_retry >= 1], once the lines before
    the loop have returned the call never returns: for every number of
    turns, the loop is still running after that many turns, each of which
    has called the execution backend once. *)
Theorem write_and_exec_code_never_returns_while_changes_are_asked :
  forall (E : Env) (self : DataInterpreter) (cw : str) (cws : list str)
         (mr : Z) (uid : str) (w w0 : World) (ps ti : str) (a : Action)
         (fuel : nat),
    cooperative E ->
    CHANGE_WORDS E = cw :: cws ->
    (forall n, execution_flag E n false) ->
    (forall n, exists review b,
        planner_ask_review E n false (CODE_REVIEW_TRIGGER E)
        = Returns (review, b)
        /\ Str.contains cw review = true) ->
    (1 <= mr)%Z ->
    todo w = Some a -> memory w <> [] ->
    prelude E self w = (Ok (ps, ti), w0) ->
    exists w',
      _write_and_exec_code E self fuel mr uid w = (OutOfFuel, w')
      /\ calls KExecute (trace w') = calls KExecute (trace w0) + fuel.
Proof.
  intros E self cw cws mr uid w w0 ps ti a fuel
         Hcoop Hcw Hfail Hreview Hmr Ha Hmem Hpre.
  destruct (prelude_Ok E self w ps ti w0 Hpre) as (evs0 & ms & Hw0 & _).
  destruct (while_loop_spins E self Hcoop cw cws mr Hcw Hfail Hreview
              ps ti uid a fuel (mkLocals 0 false None None) w0)
    as (w' & Hrun & Hn).
  - rewrite Hw0. exact Ha.
  - rewrite Hw0. exact Hmem.
  - reflexivity.
  - simpl. lia.
  - exists w'. split; [|exact Hn].
    unfold _write_and_exec_code.
    rewrite (bind_Ok _ _ _ _ _ Hpre). cbn beta iota.
    unfold bind. rewrite Hrun. reflexivity.
Qed.

Lemma write_and_exec_code_never_returns_while_changes_are_asked_witness :
  let E := Demo.env Demo.always_fails Demo.quiet_sink (py "please change it")
                    (py "df.info()") in
  let w := Demo.start Demo.preprocess_plan in
  let w0 := snd (prelude E Demo.planning w) in
  exists w',
    _write_and_exec_code E Demo.planning 7 3 (py "u") w = (OutOfFuel, w')
    /\ calls KExecute (trace w') = calls KExecute (trace w0) + 7.
Proof.
  intros E w w0.
  apply (write_and_exec_code_never_returns_while_changes_are_asked
           E Demo.planning (py "change") [] 3 (py "u") w w0
           (py "plan status") [] WriteAnalysisCode 7).
  - apply demo_cooperative.
  - reflexivity.
  - intros n code. exists (py "NameError"). reflexivity.
  - intros n. exists (py "please change it"), false.
    split; [reflexivity | vm_compute; reflexivity].
  - lia.
  - reflexivity.
  - discriminate.
  - vm_compute. reflexivity.
Defined.
